(** * ReactOS configuration manager: the Nt registry entry points

    A shallow embedding of [ntoskrnl/cm/ntfunc.c]: the registry callback
    list ([CmRegisterCallback], [CmUnRegisterCallback],
    [CmiCallRegisteredCallbacks]) and the system services that sit on top of
    the hive manager ([NtCreateKey], [NtOpenKey], [NtDeleteKey],
    [NtEnumerateKey], [NtQueryKey], [NtSetValueKey], [NtFlushKey],
    [NtSaveKey], [NtSetInformationKey], ...).

    Conventions.
    - C integers are [Z]; every place where the C code computes in [ULONG]
      arithmetic is written with [to_ULONG] so that wrap-around is explicit.
    - Kernel memory owned by this layer (key objects, hives and their cells,
      the pool blocks of the callback list) is a finite map from addresses
      to values; a dereference of an address that is not mapped is a fault
      ([None]) of the state monad [M].
    - Collaborators whose code lives in other files (the object manager,
      the hive file format, pool allocation, probing of user memory) are the
      fields of the class [Externals]: every theorem holds for all of them.
    - The embedding is the sequential semantics of one call.  The two locks
      ([CmiRegistryLock], [CmiCallbackLock]) only serialise the bodies and
      are not represented; the one blocking primitive whose outcome matters,
      [ExWaitForRundownProtectionRelease], is modelled by an explicit
      "blocked" outcome of [CmUnRegisterCallback]. *)

From stdpp Require Import gmap list.
From Stdlib Require Import ZArith Lia.

Local Open Scope Z_scope.

(* ===================================================================== *)
(** ** Machine integers and status codes                                  *)
(* ===================================================================== *)

Definition ULONG := Z.
Definition USHORT := Z.
Definition WCHAR := Z.
Definition UCHAR := Z.
Definition NTSTATUS := Z.
Definition HANDLE := Z.
Definition ACCESS_MASK := Z.
Definition LARGE_INTEGER := Z.
Definition HCELL_INDEX := Z.

(** Reduction of a mathematical integer to a 32-bit unsigned [ULONG]. *)
Definition to_ULONG (z : Z) : ULONG := z mod 2 ^ 32.

(** Reinterpretation of a 32-bit pattern as a signed [LONG]. *)
Definition to_LONG (z : Z) : Z :=
  let u := z mod 2 ^ 32 in if u <? 2 ^ 31 then u else u - 2 ^ 32.

(** [NT_SUCCESS(Status)] is [((NTSTATUS)(Status)) >= 0]. *)
Definition NT_SUCCESS (Status : NTSTATUS) : bool := 0 <=? Status.

(** [ROUND_UP(N, S)] is [((N + S - 1) / S) * S], computed in [ULONG]. *)
Definition ROUND_UP (N S : Z) : Z := to_ULONG (to_ULONG (N + S - 1) / S * S).

(** Modelled from the spec: the status codes it names in sections 4 and 7;
    the numeric values are those of ntstatus.h, which is not under src. *)
Definition STATUS_SUCCESS : NTSTATUS := 0.
(** Modelled from the spec: ntstatus.h value of [STATUS_UNSUCCESSFUL]. *)
Definition STATUS_UNSUCCESSFUL : NTSTATUS := to_LONG 0xC0000001.
(** Modelled from the spec: ntstatus.h value of [STATUS_NOT_IMPLEMENTED]. *)
Definition STATUS_NOT_IMPLEMENTED : NTSTATUS := to_LONG 0xC0000002.
(** Modelled from the spec: ntstatus.h value of [STATUS_INVALID_INFO_CLASS]. *)
Definition STATUS_INVALID_INFO_CLASS : NTSTATUS := to_LONG 0xC0000003.
(** Modelled from the spec: ntstatus.h value of [STATUS_INFO_LENGTH_MISMATCH]. *)
Definition STATUS_INFO_LENGTH_MISMATCH : NTSTATUS := to_LONG 0xC0000004.
(** Modelled from the spec: ntstatus.h value of [STATUS_INVALID_HANDLE]. *)
Definition STATUS_INVALID_HANDLE : NTSTATUS := to_LONG 0xC0000008.
(** Modelled from the spec: ntstatus.h value of [STATUS_INVALID_PARAMETER]. *)
Definition STATUS_INVALID_PARAMETER : NTSTATUS := to_LONG 0xC000000D.
(** Modelled from the spec: ntstatus.h value of [STATUS_ACCESS_DENIED]. *)
Definition STATUS_ACCESS_DENIED : NTSTATUS := to_LONG 0xC0000022.
(** Modelled from the spec: ntstatus.h value of [STATUS_BUFFER_TOO_SMALL]. *)
Definition STATUS_BUFFER_TOO_SMALL : NTSTATUS := to_LONG 0xC0000023.
(** Modelled from the spec: ntstatus.h value of [STATUS_OBJECT_NAME_NOT_FOUND]. *)
Definition STATUS_OBJECT_NAME_NOT_FOUND : NTSTATUS := to_LONG 0xC0000034.
(** Modelled from the spec: ntstatus.h value of [STATUS_INSUFFICIENT_RESOURCES]. *)
Definition STATUS_INSUFFICIENT_RESOURCES : NTSTATUS := to_LONG 0xC000009A.
(** Modelled from the spec: ntstatus.h value of [STATUS_CANNOT_DELETE]. *)
Definition STATUS_CANNOT_DELETE : NTSTATUS := to_LONG 0xC0000121.
(** Modelled from the spec: ntstatus.h value of [STATUS_BUFFER_OVERFLOW]
    (a warning: [NT_SUCCESS] is false on it). *)
Definition STATUS_BUFFER_OVERFLOW : NTSTATUS := to_LONG 0x80000005.
(** Modelled from the spec: ntstatus.h value of [STATUS_NO_MORE_ENTRIES]. *)
Definition STATUS_NO_MORE_ENTRIES : NTSTATUS := to_LONG 0x8000001A.

(** Modelled from the spec: sizes of the scalar types of the 32-bit x86
    build ([CellIndex] is a 32-bit index, section 3); the type
    declarations are not under src. *)
Definition sizeof_WCHAR : Z := 2.
(** Modelled from the spec: [sizeof(HCELL_INDEX)], a 32-bit cell index. *)
Definition sizeof_HCELL_INDEX : Z := 4.
(** Modelled from the spec: [sizeof(PVOID)] of the 32-bit x86 build. *)
Definition sizeof_PVOID : Z := 4.

(** Modelled from the spec: [FIELD_OFFSET(KEY_BASIC_INFORMATION, Name[0])];
    section 6 fixes the information-class layouts to those of the Windows
    registry API (LastWriteTime, TitleIndex, NameLength, Name). *)
Definition KEY_BASIC_INFORMATION_Name : Z := 16.
(** Modelled from the spec: [FIELD_OFFSET(KEY_NODE_INFORMATION, Name[0])]
    (LastWriteTime, TitleIndex, ClassOffset, ClassLength, NameLength). *)
Definition KEY_NODE_INFORMATION_Name : Z := 24.
(** Modelled from the spec: [sizeof(KEY_NODE_INFORMATION)], the header
    plus one WCHAR, padded to the 8-byte alignment of LARGE_INTEGER. *)
Definition sizeof_KEY_NODE_INFORMATION : Z := 32.
(** Modelled from the spec: [FIELD_OFFSET(KEY_FULL_INFORMATION, Class[0])]
    (LastWriteTime and nine ULONG fields). *)
Definition KEY_FULL_INFORMATION_Class : Z := 44.
(** Modelled from the spec: [sizeof(KEY_FULL_INFORMATION)]. *)
Definition sizeof_KEY_FULL_INFORMATION : Z := 48.
(** Modelled from the spec: [FIELD_OFFSET(KEY_VALUE_BASIC_INFORMATION, Name[0])]
    (TitleIndex, Type, NameLength). *)
Definition KEY_VALUE_BASIC_INFORMATION_Name : Z := 12.
(** Modelled from the spec: [FIELD_OFFSET(KEY_VALUE_PARTIAL_INFORMATION, Data[0])]
    (TitleIndex, Type, DataLength); section 8 scenario 2 has 12 + 4 = 16. *)
Definition KEY_VALUE_PARTIAL_INFORMATION_Data : Z := 12.
(** Modelled from the spec: [FIELD_OFFSET(KEY_VALUE_FULL_INFORMATION, Name[0])]
    (TitleIndex, Type, DataOffset, DataLength, NameLength). *)
Definition KEY_VALUE_FULL_INFORMATION_Name : Z := 20.
(** Modelled from the spec: [sizeof(KEY_WRITE_TIME_INFORMATION)], one
    LARGE_INTEGER. *)
Definition sizeof_KEY_WRITE_TIME_INFORMATION : Z := 8.

(** Modelled from the spec: the cell flags of cm.h (section 3): the data
    size word of a value cell is a 31-bit length and the top bit
    [REG_DATA_IN_OFFSET]. *)
Definition REG_DATA_SIZE_MASK : Z := 0x7FFFFFFF.
(** Modelled from the spec: [REG_DATA_IN_OFFSET], the top bit of DataSize. *)
Definition REG_DATA_IN_OFFSET : Z := 0x80000000.
(** Modelled from the spec: [HCELL_NULL], the 0xFFFFFFFF sentinel. *)
Definition HCELL_NULL : HCELL_INDEX := 0xFFFFFFFF.
(** Modelled from the spec: key object flag [KO_MARKED_FOR_DELETE] of cm.h. *)
Definition KO_MARKED_FOR_DELETE : Z := 0x00000001.
(** Modelled from the spec: key cell flag [REG_KEY_VOLATILE_CELL] of cm.h. *)
Definition REG_KEY_VOLATILE_CELL : Z := 0x01.
(** Modelled from the spec: key cell flag [REG_KEY_LINK_CELL] of cm.h. *)
Definition REG_KEY_LINK_CELL : Z := 0x10.
(** Modelled from the spec: key cell flag [REG_KEY_NAME_PACKED] of cm.h. *)
Definition REG_KEY_NAME_PACKED : Z := 0x20.
(** Modelled from the spec: value cell flag [REG_VALUE_NAME_PACKED] of cm.h. *)
Definition REG_VALUE_NAME_PACKED : Z := 0x0001.
(** Modelled from the spec: hive flag [HIVE_NO_FILE] of cm.h, tested by the
    macro [IsNoFileHive]. *)
Definition HIVE_NO_FILE : Z := 0x00000002.
(** Modelled from the spec: registry value type [REG_LINK] of the Windows API. *)
Definition REG_LINK : Z := 6.
(** Modelled from the spec: object attribute [OBJ_INHERIT]. *)
Definition OBJ_INHERIT : Z := 0x00000002.
(** Modelled from the spec: object attribute [OBJ_KERNEL_HANDLE]. *)
Definition OBJ_KERNEL_HANDLE : Z := 0x00000200.
(** Modelled from the spec: access right [MAXIMUM_ALLOWED]. *)
Definition MAXIMUM_ALLOWED : Z := 0x02000000.
(** Modelled from the spec: access right [GENERIC_ALL]. *)
Definition GENERIC_ALL : Z := 0x10000000.
(** Modelled from the spec: [GENERIC_ACCESS], the four generic rights. *)
Definition GENERIC_ACCESS : Z := 0xF0000000.
(** Modelled from the spec: access right [DELETE]. *)
Definition DELETE : Z := 0x00010000.
(** Modelled from the spec: access right [KEY_QUERY_VALUE]. *)
Definition KEY_QUERY_VALUE : Z := 0x0001.
(** Modelled from the spec: access right [KEY_SET_VALUE]. *)
Definition KEY_SET_VALUE : Z := 0x0002.
(** Modelled from the spec: access right [KEY_ENUMERATE_SUB_KEYS]. *)
Definition KEY_ENUMERATE_SUB_KEYS : Z := 0x0008.
(** Modelled from the spec: disposition [REG_CREATED_NEW_KEY]. *)
Definition REG_CREATED_NEW_KEY : Z := 1.
(** Modelled from the spec: disposition [REG_OPENED_EXISTING_KEY]. *)
Definition REG_OPENED_EXISTING_KEY : Z := 2.

(** C truth of an integer expression. *)
Definition nonzero (z : Z) : bool := negb (z =? 0).

Inductive KPROCESSOR_MODE := KernelMode | UserMode.

Inductive HV_STORAGE_TYPE := HvStable | HvVolatile.

(** [KEY_INFORMATION_CLASS]; any other integer reaches the [default] arm. *)
Inductive KEY_INFORMATION_CLASS :=
| KeyBasicInformation
| KeyNodeInformation
| KeyFullInformation
| KeyNameInformation
| KeyCachedInformation
| KeyFlagsInformation
| KeyOtherInformation (n : Z).

Inductive KEY_VALUE_INFORMATION_CLASS :=
| KeyValueBasicInformation
| KeyValueFullInformation
| KeyValuePartialInformation
| KeyValueOtherInformation (n : Z).

Inductive KEY_SET_INFORMATION_CLASS :=
| KeyWriteTimeInformation
| KeySetOtherInformation (n : Z).

(* ===================================================================== *)
(** ** Hive cells                                                         *)
(* ===================================================================== *)

Module US.
(** [UNICODE_STRING]: [Length] and [MaximumLength] count bytes; a NULL
    [Buffer] is [None]. *)
Record UNICODE_STRING := mk {
  Length : USHORT;
  MaximumLength : USHORT;
  Buffer : option (list WCHAR)
}.

Definition empty : UNICODE_STRING :=
  {| Length := 0; MaximumLength := 0; Buffer := None |}.
End US.
Abbreviation UNICODE_STRING := US.UNICODE_STRING.

(** A per-storage-class pair, indexed as [x[HvStable]] / [x[HvVolatile]]. *)
Record PerStorage (A : Type) := mkPerStorage { at_Stable : A; at_Volatile : A }.
Arguments mkPerStorage {A} _ _.
Arguments at_Stable {A} _.
Arguments at_Volatile {A} _.

Definition at_storage {A} (x : PerStorage A) (s : HV_STORAGE_TYPE) : A :=
  match s with HvStable => at_Stable x | HvVolatile => at_Volatile x end.

Module KeyNode.
(** The fields of [CM_KEY_NODE] that ntfunc.c reads or writes. *)
Record CM_KEY_NODE := mk {
  Flags : Z;
  LastWriteTime : LARGE_INTEGER;
  Parent : HCELL_INDEX;
  SubKeyCounts : PerStorage ULONG;
  SubKeyLists : PerStorage HCELL_INDEX;
  ValueListCount : ULONG;
  ValueListOffset : HCELL_INDEX;
  SecurityKeyOffset : HCELL_INDEX;
  ClassNameOffset : HCELL_INDEX;
  NameSize : USHORT;
  ClassSize : ULONG;
  Name : list UCHAR
}.

Definition set_LastWriteTime (t : LARGE_INTEGER) (k : CM_KEY_NODE) :=
  mk (Flags k) t (Parent k) (SubKeyCounts k) (SubKeyLists k)
     (ValueListCount k) (ValueListOffset k) (SecurityKeyOffset k)
     (ClassNameOffset k) (NameSize k) (ClassSize k) (Name k).

Definition set_Flags (f : Z) (k : CM_KEY_NODE) :=
  mk f (LastWriteTime k) (Parent k) (SubKeyCounts k) (SubKeyLists k)
     (ValueListCount k) (ValueListOffset k) (SecurityKeyOffset k)
     (ClassNameOffset k) (NameSize k) (ClassSize k) (Name k).

Definition set_Parent (p : HCELL_INDEX) (k : CM_KEY_NODE) :=
  mk (Flags k) (LastWriteTime k) p (SubKeyCounts k) (SubKeyLists k)
     (ValueListCount k) (ValueListOffset k) (SecurityKeyOffset k)
     (ClassNameOffset k) (NameSize k) (ClassSize k) (Name k).

Definition set_SecurityKeyOffset (s : HCELL_INDEX) (k : CM_KEY_NODE) :=
  mk (Flags k) (LastWriteTime k) (Parent k) (SubKeyCounts k) (SubKeyLists k)
     (ValueListCount k) (ValueListOffset k) s
     (ClassNameOffset k) (NameSize k) (ClassSize k) (Name k).
End KeyNode.
Abbreviation CM_KEY_NODE := KeyNode.CM_KEY_NODE.

Module KeyValue.
(** [CM_KEY_VALUE]: a value descriptor.  [DataSize] carries the length in
    its low 31 bits and [REG_DATA_IN_OFFSET] in its top bit; [DataOffset]
    is either the index of the data cell or the data bytes themselves. *)
Record CM_KEY_VALUE := mk {
  NameSize : USHORT;
  DataSize : ULONG;
  DataOffset : HCELL_INDEX;
  DataType : ULONG;
  Flags : Z;
  Name : list UCHAR
}.

Definition set_data (size : ULONG) (offset : HCELL_INDEX) (type : ULONG)
    (v : CM_KEY_VALUE) :=
  mk (NameSize v) size offset type (Flags v) (Name v).
End KeyValue.
Abbreviation CM_KEY_VALUE := KeyValue.CM_KEY_VALUE.

(** One entry of a [HASH_TABLE_CELL]. *)
Record HASH_RECORD := mkHashRecord { KeyOffset : HCELL_INDEX; HashValue : ULONG }.

(** What a cell holds.  The store itself is untyped; the tag records the
    C type through which ntfunc.c reads the cell. *)
Inductive CELL_DATA :=
| KeyCellData (k : CM_KEY_NODE)
| HashTableData (Table : list HASH_RECORD)
| ValueCellData (v : CM_KEY_VALUE)
| ValueListData (l : list HCELL_INDEX)
| RawData (bytes : list UCHAR).

(** A cell with its [HCELL] header: [Size] is the signed header word,
    negative while the cell is allocated. *)
Record HCELL := mkHCELL {
  Size : Z;
  Storage : HV_STORAGE_TYPE;
  Data : CELL_DATA
}.

(** [HHIVE]: the cell store of one hive and its dirty vector. *)
Record HHIVE := mkHHIVE {
  Cells : gmap Z HCELL;
  DirtyVector : gset Z
}.

Module RegHive.
(** [EREGISTRY_HIVE]: the cell store plus the cm-level flags. *)
Record EREGISTRY_HIVE := mk {
  Hive : HHIVE;
  Flags : Z
}.
Definition set_Hive (h : HHIVE) (r : EREGISTRY_HIVE) := mk h (Flags r).
End RegHive.
Abbreviation EREGISTRY_HIVE := RegHive.EREGISTRY_HIVE.

(** Modelled from the spec: the macro [IsNoFileHive] of cm.h, which tests
    the [HIVE_NO_FILE] bit of the hive flags (section 4.B). *)
Definition IsNoFileHive (h : EREGISTRY_HIVE) : bool :=
  nonzero (Z.land (RegHive.Flags h) HIVE_NO_FILE).

(** Modelled from the spec: [HvGetCell], the [get(offset)] of the cell
    store contract in section 4.A; its code is in the hive library. *)
Definition HvGetCell (h : HHIVE) (CellIndex : HCELL_INDEX) : option CELL_DATA :=
  Data <$> Cells h !! CellIndex.

(** Modelled from the spec: [HvGetCellSize], the [size(offset)] of section
    4.A.  It returns the signed header word, which the caller negates. *)
Definition HvGetCellSize (h : HHIVE) (CellIndex : HCELL_INDEX) : option Z :=
  Size <$> Cells h !! CellIndex.

(** Modelled from the spec: [HvFreeCell], the [free(offset)] of section 4.A. *)
Definition HvFreeCell (h : HHIVE) (CellIndex : HCELL_INDEX) : HHIVE :=
  mkHHIVE (delete CellIndex (Cells h)) (DirtyVector h).

(** Modelled from the spec: [HvMarkCellDirty], the [mark_dirty(offset)] of
    section 4.A. *)
Definition HvMarkCellDirty (h : HHIVE) (CellIndex : HCELL_INDEX) : HHIVE :=
  mkHHIVE (Cells h) ({[ CellIndex ]} ∪ DirtyVector h).

(** A store through a typed pointer obtained from [HvGetCell]: the cell
    keeps its header and gets new contents. *)
Definition write_cell (h : HHIVE) (CellIndex : HCELL_INDEX) (d : CELL_DATA) : HHIVE :=
  mkHHIVE (alter (fun c => mkHCELL (Size c) (Storage c) d) CellIndex (Cells h))
          (DirtyVector h).

Definition get_key_cell (h : HHIVE) (i : HCELL_INDEX) : option CM_KEY_NODE :=
  match HvGetCell h i with Some (KeyCellData k) => Some k | _ => None end.

Definition get_value_cell (h : HHIVE) (i : HCELL_INDEX) : option CM_KEY_VALUE :=
  match HvGetCell h i with Some (ValueCellData v) => Some v | _ => None end.

Definition get_hash_table (h : HHIVE) (i : HCELL_INDEX) : option (list HASH_RECORD) :=
  match HvGetCell h i with Some (HashTableData t) => Some t | _ => None end.

Definition get_raw_cell (h : HHIVE) (i : HCELL_INDEX) : option (list UCHAR) :=
  match HvGetCell h i with Some (RawData b) => Some b | _ => None end.

(** Modelled from the spec: [CmiGetKeyFromHashByIndex] of regfile.c, which
    "returns the i-th subkey cell in list order" (section 4.C): the key
    cell named by entry [Index] of the hash table. *)
Definition CmiGetKeyFromHashByIndex (h : HHIVE) (HashBlock : list HASH_RECORD)
    (Index : ULONG) : option CM_KEY_NODE :=
  match HashBlock !! Z.to_nat Index with
  | Some r => get_key_cell h (KeyOffset r)
  | None => None
  end.

(** [RtlCopyMemory(dst, src, n)] out of a source buffer: the first [n]
    bytes, or a fault when the source is shorter. *)
Definition RtlCopyMemory (src : list UCHAR) (n : Z) : option (list UCHAR) :=
  if (0 <=? n) && (n <=? Z.of_nat (length src)) then Some (take (Z.to_nat n) src)
  else None.

(** [CmiCopyPackedName(dst, src, n)] of regfile.c: widens [n] one-byte
    characters to UTF-16 (little endian: the byte, then zero). *)
Fixpoint CmiCopyPackedName_bytes (src : list UCHAR) : list UCHAR :=
  match src with
  | [] => []
  | c :: rest => c :: 0 :: CmiCopyPackedName_bytes rest
  end.

(** Modelled from the spec: [CmiCopyPackedName] of regfile.c, which
    "expands a packed (one byte per char) name to UTF-16" (section 4.C). *)
Definition CmiCopyPackedName (src : list UCHAR) (n : Z) : option (list UCHAR) :=
  CmiCopyPackedName_bytes <$> RtlCopyMemory src n.

(** Little-endian bytes of a 32-bit word, and back. *)
Definition ULONG_bytes (w : Z) : list UCHAR :=
  [ Z.land w 255; Z.land (Z.shiftr w 8) 255;
    Z.land (Z.shiftr w 16) 255; Z.land (Z.shiftr w 24) 255 ].

Fixpoint bytes_ULONG (b : list UCHAR) : Z :=
  match b with
  | [] => 0
  | x :: rest => Z.lor (Z.land x 255) (Z.shiftl (bytes_ULONG rest) 8)
  end.

(** [RtlCopyMemory(&ValueCell->DataOffset, Data, DataSize)]: the first bytes
    of the 32-bit field are overwritten, the others keep their value. *)
Definition copy_into_ULONG (old : Z) (src : list UCHAR) (n : Z) : option Z :=
  match RtlCopyMemory src n with
  | Some b => Some (bytes_ULONG (take 4 (b ++ drop (length b) (ULONG_bytes old))))
  | None => None
  end.

(* ===================================================================== *)
(** ** Key objects, callbacks and the registry state                      *)
(* ===================================================================== *)

Module KeyObject.
(** [KEY_OBJECT] together with the two counters of its [OBJECT_HEADER].
    The cached pointer [KeyCell] of the C structure is the cell that
    [KeyCellOffset] names in [RegistryHive]; it is read through the hive. *)
Record KEY_OBJECT := mk {
  PointerCount : Z;
  HandleCount : Z;
  Flags : ULONG;
  Name : UNICODE_STRING;
  RegistryHive : Z;
  KeyCellOffset : HCELL_INDEX;
  ParentKey : Z;
  SubKeyCounts : ULONG;
  SizeOfSubKeys : ULONG;
  SubKeys : list Z
}.

Definition set_PointerCount (n : Z) (o : KEY_OBJECT) :=
  mk n (HandleCount o) (Flags o) (Name o) (RegistryHive o) (KeyCellOffset o)
     (ParentKey o) (SubKeyCounts o) (SizeOfSubKeys o) (SubKeys o).

Definition set_HandleCount (n : Z) (o : KEY_OBJECT) :=
  mk (PointerCount o) n (Flags o) (Name o) (RegistryHive o) (KeyCellOffset o)
     (ParentKey o) (SubKeyCounts o) (SizeOfSubKeys o) (SubKeys o).

Definition set_Flags (f : ULONG) (o : KEY_OBJECT) :=
  mk (PointerCount o) (HandleCount o) f (Name o) (RegistryHive o)
     (KeyCellOffset o) (ParentKey o) (SubKeyCounts o) (SizeOfSubKeys o)
     (SubKeys o).

Definition set_Name (n : UNICODE_STRING) (o : KEY_OBJECT) :=
  mk (PointerCount o) (HandleCount o) (Flags o) n (RegistryHive o)
     (KeyCellOffset o) (ParentKey o) (SubKeyCounts o) (SizeOfSubKeys o)
     (SubKeys o).

Definition set_KeyCellOffset (c : HCELL_INDEX) (o : KEY_OBJECT) :=
  mk (PointerCount o) (HandleCount o) (Flags o) (Name o) (RegistryHive o)
     c (ParentKey o) (SubKeyCounts o) (SizeOfSubKeys o) (SubKeys o).
End KeyObject.
Abbreviation KEY_OBJECT := KeyObject.KEY_OBJECT.

(** The notification points used by ntfunc.c. *)
Inductive REG_NOTIFY_CLASS :=
| RegNtPreDeleteKey | RegNtPostDeleteKey
| RegNtPreSetValueKey | RegNtPostSetValueKey
| RegNtPreDeleteValueKey | RegNtPostDeleteValueKey
| RegNtPreSetInformationKey | RegNtPostSetInformationKey
| RegNtPreEnumerateKey | RegNtPostEnumerateKey
| RegNtPreEnumerateValueKey | RegNtPostEnumerateValueKey
| RegNtPreQueryKey | RegNtPostQueryKey
| RegNtPreQueryValueKey | RegNtPostQueryValueKey
| RegNtPreQueryMultipleValueKey | RegNtPostQueryMultipleValueKey
| RegNtPreCreateKey | RegNtPostCreateKey
| RegNtPreOpenKey | RegNtPostOpenKey.

(** One requested name of [NtQueryMultipleValueKey]. *)
Record KEY_VALUE_ENTRY := mkValueEntry {
  ValueName : UNICODE_STRING;
  DataLength : ULONG;
  DataOffset : ULONG;
  Type_ : ULONG
}.

(** The structure behind [Argument2] of a callback.  Pointers to caller
    buffers are left out; an object pointer is an address, 0 for NULL. *)
Inductive REG_INFORMATION :=
| REG_PRE_CREATE_KEY_INFORMATION (CompleteName : UNICODE_STRING)
| REG_POST_CREATE_KEY_INFORMATION (CompleteName : UNICODE_STRING)
    (Object : Z) (Status : NTSTATUS)
| REG_PRE_OPEN_KEY_INFORMATION (CompleteName : UNICODE_STRING)
| REG_POST_OPEN_KEY_INFORMATION (CompleteName : UNICODE_STRING)
    (Object : Z) (Status : NTSTATUS)
| REG_DELETE_KEY_INFORMATION (Object : Z)
| REG_ENUMERATE_KEY_INFORMATION (Object : Z) (Index : ULONG)
    (KeyInformationClass : KEY_INFORMATION_CLASS) (Length : ULONG)
| REG_ENUMERATE_VALUE_KEY_INFORMATION (Object : Z) (Index : ULONG)
    (KeyValueInformationClass : KEY_VALUE_INFORMATION_CLASS) (Length : ULONG)
| REG_QUERY_KEY_INFORMATION (Object : Z)
    (KeyInformationClass : KEY_INFORMATION_CLASS) (Length : ULONG)
| REG_QUERY_VALUE_KEY_INFORMATION (Object : Z) (ValueName : UNICODE_STRING)
    (KeyValueInformationClass : KEY_VALUE_INFORMATION_CLASS) (Length : ULONG)
| REG_SET_VALUE_KEY_INFORMATION (Object : Z) (ValueName : UNICODE_STRING)
    (TitleIndex : ULONG) (Type_ : ULONG) (Data : list UCHAR) (DataSize : ULONG)
| REG_DELETE_VALUE_KEY_INFORMATION (Object : Z) (ValueName : UNICODE_STRING)
| REG_QUERY_MULTIPLE_VALUE_KEY_INFORMATION (Object : Z)
    (ValueEntries : list KEY_VALUE_ENTRY) (EntryCount : ULONG)
    (BufferLength : ULONG)
| REG_SET_INFORMATION_KEY_INFORMATION (Object : Z)
    (KeySetInformationClass : KEY_SET_INFORMATION_CLASS)
    (KeySetInformation : LARGE_INTEGER) (KeySetInformationLength : ULONG)
| REG_POST_OPERATION_INFORMATION (Object : Z) (Status : NTSTATUS).

(** [PEX_CALLBACK_FUNCTION]: context, notify class, argument.  A callback
    is an observer: it answers with a status and does not itself change
    the state of this layer. *)
Definition PEX_CALLBACK_FUNCTION : Type :=
  Z -> REG_NOTIFY_CLASS -> REG_INFORMATION -> NTSTATUS.

(** Modelled from the spec: [EX_RUNDOWN_REF] of the executive (glossary,
    "rundown protection"): the number of outstanding acquirers and whether
    rundown has begun. *)
Record EX_RUNDOWN_REF := mkRundown { Count : Z; RundownActive : bool }.

(** Modelled from the spec: [ExInitializeRundownProtection]. *)
Definition ExInitializeRundownProtection : EX_RUNDOWN_REF := mkRundown 0 false.

(** Modelled from the spec: [ExAcquireRundownProtection]: "acquirers
    succeed until shutdown begins, after which they all fail". *)
Definition ExAcquireRundownProtection (r : EX_RUNDOWN_REF) : option EX_RUNDOWN_REF :=
  if RundownActive r then None else Some (mkRundown (Count r + 1) false).

(** Modelled from the spec: [ExReleaseRundownProtection]. *)
Definition ExReleaseRundownProtection (r : EX_RUNDOWN_REF) : EX_RUNDOWN_REF :=
  mkRundown (Count r - 1) (RundownActive r).

(** Modelled from the spec: [ExWaitForRundownProtectionRelease] begins the
    rundown; "a waiter is released when outstanding acquirers reach zero",
    so the wait is over exactly when [rundown_released] holds. *)
Definition ExWaitForRundownProtectionRelease (r : EX_RUNDOWN_REF) : EX_RUNDOWN_REF :=
  mkRundown (Count r) true.

Definition rundown_released (r : EX_RUNDOWN_REF) : bool := Count r =? 0.

Module Callback.
(** [REGISTRY_CALLBACK], one pool block of the callback list. *)
Record REGISTRY_CALLBACK := mk {
  RundownRef : EX_RUNDOWN_REF;
  Function : PEX_CALLBACK_FUNCTION;
  Context : Z;
  Cookie : Z;
  PendingDelete : bool
}.

Definition set_PendingDelete (b : bool) (c : REGISTRY_CALLBACK) :=
  mk (RundownRef c) (Function c) (Context c) (Cookie c) b.

Definition set_RundownRef (r : EX_RUNDOWN_REF) (c : REGISTRY_CALLBACK) :=
  mk r (Function c) (Context c) (Cookie c) (PendingDelete c).
End Callback.
Abbreviation REGISTRY_CALLBACK := Callback.REGISTRY_CALLBACK.

(** What the environment observes of a call, oldest first. *)
Inductive Event :=
| EvCallback (Callback : Z) (Argument1 : REG_NOTIFY_CLASS)
    (Argument2 : REG_INFORMATION) (Status : NTSTATUS)
| EvSyncHives
| EvFlushRegistryHive (RegistryHive : Z) (Status : NTSTATUS)
| EvSaveTempHive (TempHive : Z) (FileHandle : HANDLE) (Status : NTSTATUS)
| EvRemoveRegistryHive (RegistryHive : Z)
| EvWaitForRundown (Callback : Z)
| EvFreePool (Block : Z).

(** The state of the configuration manager: kernel memory by address, the
    global lists of ntfunc.c, and the trace of observable events. *)
Record Registry := mkRegistry {
  Objects : gmap Z KEY_OBJECT;
  Hives : gmap Z EREGISTRY_HIVE;
  CmiKeyObjectListHead : list Z;
  CmiCallbackHead : list Z;
  CallbackPool : gmap Z REGISTRY_CALLBACK;
  Trace : list Event
}.

Definition set_Objects (o : gmap Z KEY_OBJECT) (st : Registry) :=
  mkRegistry o (Hives st) (CmiKeyObjectListHead st) (CmiCallbackHead st)
             (CallbackPool st) (Trace st).
Definition set_Hives (h : gmap Z EREGISTRY_HIVE) (st : Registry) :=
  mkRegistry (Objects st) h (CmiKeyObjectListHead st) (CmiCallbackHead st)
             (CallbackPool st) (Trace st).
Definition set_CmiKeyObjectListHead (l : list Z) (st : Registry) :=
  mkRegistry (Objects st) (Hives st) l (CmiCallbackHead st)
             (CallbackPool st) (Trace st).
Definition set_CmiCallbackHead (l : list Z) (st : Registry) :=
  mkRegistry (Objects st) (Hives st) (CmiKeyObjectListHead st) l
             (CallbackPool st) (Trace st).
Definition set_CallbackPool (p : gmap Z REGISTRY_CALLBACK) (st : Registry) :=
  mkRegistry (Objects st) (Hives st) (CmiKeyObjectListHead st)
             (CmiCallbackHead st) p (Trace st).
Definition set_Trace (t : list Event) (st : Registry) :=
  mkRegistry (Objects st) (Hives st) (CmiKeyObjectListHead st)
             (CmiCallbackHead st) (CallbackPool st) t.

(* ===================================================================== *)
(** ** Collaborators outside ntfunc.c                                     *)
(* ===================================================================== *)

Record OBJECT_CREATE_INFORMATION := mkCreateInfo {
  Attributes : ULONG;
  RootDirectory : HANDLE
}.

(** [HANDLE_TABLE_ENTRY] as filled in by [CmpCreateHandle]. *)
Record HANDLE_TABLE_ENTRY := mkHandleEntry {
  EntryObject : Z;
  EntryInheritable : bool;
  GrantedAccess : ACCESS_MASK
}.

(** The answers of the routines that ntfunc.c calls and that are defined
    elsewhere in the kernel.  Each field is named after the routine; its
    arguments are the values the routine is called with.  Routines that
    change a hive return the new contents of that hive. *)
Class Externals := {
  (* executive and object manager *)
  ExGetPreviousMode : KPROCESSOR_MODE;
  PsGetCurrentProcess : Z;
  PsInitialSystemProcess : Z;
  RtlMapGenericMask : ACCESS_MASK -> ACCESS_MASK;
  ExCreateHandle : Z -> HANDLE_TABLE_ENTRY -> HANDLE;
  ObMarkHandleAsKernelHandle : HANDLE -> HANDLE;
  (** status and object body found for a handle, desired access and mode *)
  ObReferenceObjectByHandle_lookup :
    HANDLE -> ACCESS_MASK -> KPROCESSOR_MODE -> NTSTATUS * Z;
  ObpCaptureObjectAttributes :
    Z -> KPROCESSOR_MODE -> NTSTATUS * OBJECT_CREATE_INFORMATION * UNICODE_STRING;
  ProbeAndCaptureUnicodeString : KPROCESSOR_MODE -> Z -> NTSTATUS * UNICODE_STRING;
  (** the counted string behind a caller's [PUNICODE_STRING], read in place *)
  UserUnicodeString : Z -> UNICODE_STRING;
  (** status, object reached and remaining path of the namespace walk *)
  CmFindObject_walk :
    OBJECT_CREATE_INFORMATION -> UNICODE_STRING -> NTSTATUS * Z * UNICODE_STRING;
  (** status and address of the new object body *)
  ObCreateObject_body : NTSTATUS * Z;
  ObInsertObject_handle : Z -> ACCESS_MASK -> NTSTATUS * HANDLE;
  (** outcome of probing a user address inside [_SEH_TRY]:
      [STATUS_SUCCESS], or the exception code *)
  Probe_status : Z -> NTSTATUS;
  (** outcome of a store to a caller-supplied address inside [_SEH_TRY] *)
  Store_status : Z -> NTSTATUS;
  (** the value of the local [hKey] of [NtCreateKey] while it is not set *)
  hKey_indeterminate : HANDLE;
  (** address of the block, 0 on exhaustion *)
  ExAllocatePoolWithTag : Z;
  KeQuerySystemTime : LARGE_INTEGER;
  RtlpCreateUnicodeString : list WCHAR -> UNICODE_STRING;
  wcsicmp : option (list WCHAR) -> list WCHAR -> Z;
  (* hive manager *)
  (** index chosen by the allocator ([HCELL_NULL] on exhaustion) and the
      header word of the new cell *)
  HvAllocateCell_choice : HHIVE -> ULONG -> HV_STORAGE_TYPE -> HCELL_INDEX * Z;
  (** status and offset of the value cell ([None] for a NULL cell) *)
  CmiScanKeyForValue :
    HHIVE -> CM_KEY_NODE -> UNICODE_STRING -> NTSTATUS * option HCELL_INDEX;
  CmiAddValueToKey :
    HHIVE -> CM_KEY_NODE -> HCELL_INDEX -> UNICODE_STRING ->
    NTSTATUS * HHIVE * option HCELL_INDEX;
  CmiDeleteValueFromKey :
    HHIVE -> CM_KEY_NODE -> HCELL_INDEX -> UNICODE_STRING -> NTSTATUS * HHIVE;
  CmiGetValueFromKeyByIndex :
    HHIVE -> CM_KEY_NODE -> ULONG -> NTSTATUS * option HCELL_INDEX;
  (** for a key object: its address, its hive and its key cell *)
  CmiGetNumberOfSubKeys : Z -> HHIVE -> CM_KEY_NODE -> ULONG;
  CmiGetMaxNameLength : Z -> HHIVE -> CM_KEY_NODE -> ULONG;
  CmiGetMaxClassLength : Z -> HHIVE -> CM_KEY_NODE -> ULONG;
  CmiGetMaxValueNameLength : HHIVE -> CM_KEY_NODE -> ULONG;
  CmiGetMaxValueDataLength : HHIVE -> CM_KEY_NODE -> ULONG;
  CmiFlushRegistryHive : EREGISTRY_HIVE -> NTSTATUS * EREGISTRY_HIVE;
  (** status, address and contents of the new temporary hive *)
  CmiCreateTempHive : NTSTATUS * Z * EREGISTRY_HIVE;
  CmiCopyKey :
    EREGISTRY_HIVE -> EREGISTRY_HIVE -> CM_KEY_NODE -> NTSTATUS * EREGISTRY_HIVE;
  CmiSaveTempHive : EREGISTRY_HIVE -> HANDLE -> NTSTATUS;
  (** status, new contents of the hive, offset of the new key cell *)
  CmiAddSubKey :
    EREGISTRY_HIVE -> KEY_OBJECT -> UNICODE_STRING -> ULONG -> UNICODE_STRING ->
    ULONG -> NTSTATUS * EREGISTRY_HIVE * HCELL_INDEX;
  (** the parent key object after the child has been added to its array *)
  CmiAddKeyToList : KEY_OBJECT -> Z -> KEY_OBJECT
}.

(* ===================================================================== *)
(** ** The state monad                                                    *)
(* ===================================================================== *)

(** A computation over the registry state that may fault. *)
Definition M (A : Type) : Type := Registry -> option (A * Registry).

#[global] Instance M_ret : MRet M := fun A a st => Some (a, st).

#[global] Instance M_bind : MBind M := fun A B k m st =>
  match m st with
  | Some (a, st') => k a st'
  | None => None
  end.

Definition fault {A} : M A := fun _ => None.
Definition get_state : M Registry := fun st => Some (st, st).
Definition modify (f : Registry -> Registry) : M unit := fun st => Some (tt, f st).

(** A dereference: the value at a mapped address, a fault otherwise. *)
Definition deref {A} (o : option A) : M A :=
  match o with Some a => mret a | None => fault end.

Definition emit (e : Event) : M unit :=
  modify (fun st => set_Trace (Trace st ++ [e]) st).

Definition read_object (p : Z) : M KEY_OBJECT :=
  st ← get_state; deref (Objects st !! p).

Definition write_object (p : Z) (o : KEY_OBJECT) : M unit :=
  modify (fun st => set_Objects (<[p := o]> (Objects st)) st).

Definition read_hive (p : Z) : M EREGISTRY_HIVE :=
  st ← get_state; deref (Hives st !! p).

Definition write_hive (p : Z) (h : EREGISTRY_HIVE) : M unit :=
  modify (fun st => set_Hives (<[p := h]> (Hives st)) st).

Definition read_callback (p : Z) : M REGISTRY_CALLBACK :=
  st ← get_state; deref (CallbackPool st !! p).

Definition write_callback (p : Z) (c : REGISTRY_CALLBACK) : M unit :=
  modify (fun st => set_CallbackPool (<[p := c]> (CallbackPool st)) st).

(** [KeyObject->KeyCell]: the key cell of a key object, through its hive. *)
Definition read_KeyCell (o : KEY_OBJECT) : M CM_KEY_NODE :=
  h ← read_hive (KeyObject.RegistryHive o);
  deref (get_key_cell (RegHive.Hive h) (KeyObject.KeyCellOffset o)).

(** A store through [KeyObject->KeyCell]. *)
Definition write_KeyCell (o : KEY_OBJECT) (k : CM_KEY_NODE) : M unit :=
  h ← read_hive (KeyObject.RegistryHive o);
  write_hive (KeyObject.RegistryHive o)
    (RegHive.set_Hive
       (write_cell (RegHive.Hive h) (KeyObject.KeyCellOffset o) (KeyCellData k)) h).

(** An update of the cell store of a hive. *)
Definition update_HHIVE (p : Z) (f : HHIVE -> HHIVE) : M unit :=
  h ← read_hive p; write_hive p (RegHive.set_Hive (f (RegHive.Hive h)) h).

(** Modelled from the spec: [ObReferenceObject] of the object manager
    (section 1, "reference counting"): one more pointer reference. *)
Definition ObReferenceObject (p : Z) : M unit :=
  o ← read_object p;
  write_object p (KeyObject.set_PointerCount (KeyObject.PointerCount o + 1) o).

(** Modelled from the spec: [ObDereferenceObject] of the object manager:
    one pointer reference less.  Finalisation of an object whose last
    reference is gone is the object manager's (section 4.D) and is not
    part of the calls modelled here. *)
Definition ObDereferenceObject (p : Z) : M unit :=
  o ← read_object p;
  write_object p (KeyObject.set_PointerCount (KeyObject.PointerCount o - 1) o).

Section Model.
Context `{Externals}.

(** Modelled from the spec: [ObReferenceObjectByHandle] of the object
    manager; the handle table is the object manager's, its answer is
    [ObReferenceObjectByHandle_lookup], and a successful call holds one
    reference on the object. *)
Definition ObReferenceObjectByHandle (Handle : HANDLE) (DesiredAccess : ACCESS_MASK)
    (AccessMode : KPROCESSOR_MODE) : M (NTSTATUS * Z) :=
  let '(Status, Object) :=
    ObReferenceObjectByHandle_lookup Handle DesiredAccess AccessMode in
  if NT_SUCCESS Status
  then ObReferenceObject Object;; mret (Status, Object)
  else mret (Status, Object).

(** Modelled from the spec: [CmFindObject], the namespace walk
    [FindObject(name) -> (object, remaining_path)] of section 1; the object
    it reaches is returned referenced. *)
Definition CmFindObject (ObjectCreateInfo : OBJECT_CREATE_INFORMATION)
    (ObjectName : UNICODE_STRING) : M (NTSTATUS * Z * UNICODE_STRING) :=
  let '(Status, Object, RemainingPath) :=
    CmFindObject_walk ObjectCreateInfo ObjectName in
  if NT_SUCCESS Status
  then ObReferenceObject Object;; mret (Status, Object, RemainingPath)
  else mret (Status, Object, RemainingPath).

(** Modelled from the spec: [HvAllocateCell], the [alloc(size, class)] of
    section 4.A: [HCELL_NULL] on exhaustion, otherwise a new cell of the
    requested storage class at the index the allocator chose. *)
Definition HvAllocateCell (h : HHIVE) (Size : ULONG) (Storage : HV_STORAGE_TYPE)
    : HCELL_INDEX * HHIVE :=
  let '(Index, Header) := HvAllocateCell_choice h Size Storage in
  if Index =? HCELL_NULL then (HCELL_NULL, h)
  else (Index,
        mkHHIVE (<[Index := mkHCELL Header Storage (RawData [])]> (Cells h))
                (DirtyVector h)).

(** Modelled from the spec: [CmiRemoveRegistryHive], which destroys a hive
    (section 3, lifecycle of a hive). *)
Definition CmiRemoveRegistryHive (p : Z) : M unit :=
  modify (fun st => set_Hives (delete p (Hives st)) st);;
  emit (EvRemoveRegistryHive p).

(** [CmiSyncHives] works on the hive files; here it is an event. *)
Definition CmiSyncHives : M unit := emit EvSyncHives.

(* ===================================================================== *)
(** ** The callback list                                                  *)
(* ===================================================================== *)

(** [InsertTailList] and [RemoveEntryList] on a list of entry addresses. *)
Definition InsertTailList (l : list Z) (Entry : Z) : list Z := l ++ [Entry].
Definition RemoveEntryList (l : list Z) (Entry : Z) : list Z :=
  filter (fun q => q ≠ Entry) l.

(** [CmRegisterCallback]: the cookie is the address of the pool block. *)
Definition CmRegisterCallback (Function : PEX_CALLBACK_FUNCTION) (Context : Z)
    : M (NTSTATUS * option Z) :=
  let Callback := ExAllocatePoolWithTag in
  if negb (Callback =? 0) then
    write_callback Callback
      (Callback.mk ExInitializeRundownProtection Function Context Callback false);;
    modify (fun st =>
      set_CmiCallbackHead (InsertTailList (CmiCallbackHead st) Callback) st);;
    mret (STATUS_SUCCESS, Some Callback)
  else mret (STATUS_INSUFFICIENT_RESOURCES, None).

(** How a call of [CmUnRegisterCallback] ends: it returns a status, or it
    is still inside [ExWaitForRundownProtectionRelease] because a callback
    invocation holds the rundown protection of the entry. *)
Inductive UnregisterOutcome :=
| Returned (Status : NTSTATUS)
| Blocked (CurrentCallback : Z).

(** The list walk of [CmUnRegisterCallback], from [entries] onwards. *)
Fixpoint CmUnRegisterCallback_from (entries : list Z) (Cookie : Z)
    : M UnregisterOutcome :=
  match entries with
  | [] => mret (Returned STATUS_UNSUCCESSFUL)
  | CurrentEntry :: rest =>
    CurrentCallback ← read_callback CurrentEntry;
    if Callback.Cookie CurrentCallback =? Cookie then
      if negb (Callback.PendingDelete CurrentCallback) then
        (* found the callback, don't unlink it from the list yet *)
        let marked := Callback.set_PendingDelete true CurrentCallback in
        (* if the callback is currently executing, wait until it finished *)
        write_callback CurrentEntry
          (Callback.set_RundownRef
             (ExWaitForRundownProtectionRelease (Callback.RundownRef marked))
             marked);;
        emit (EvWaitForRundown CurrentEntry);;
        if rundown_released (Callback.RundownRef marked) then
          (* time to unlink it *)
          modify (fun st =>
            set_CmiCallbackHead (RemoveEntryList (CmiCallbackHead st) CurrentEntry) st);;
          (* free the callback *)
          modify (fun st =>
            set_CallbackPool (delete CurrentEntry (CallbackPool st)) st);;
          emit (EvFreePool CurrentEntry);;
          mret (Returned STATUS_SUCCESS)
        else mret (Blocked CurrentEntry)
      else
        (* pending delete, pretend like it already is deleted *)
        mret (Returned STATUS_UNSUCCESSFUL)
    else CmUnRegisterCallback_from rest Cookie
  end.

Definition CmUnRegisterCallback (Cookie : Z) : M UnregisterOutcome :=
  st ← get_state; CmUnRegisterCallback_from (CmiCallbackHead st) Cookie.

(** The list walk of [CmiCallRegisteredCallbacks], from [entries] onwards,
    with the status so far. *)
Fixpoint CmiCallRegisteredCallbacks_from (entries : list Z)
    (Argument1 : REG_NOTIFY_CLASS) (Argument2 : REG_INFORMATION)
    (Status : NTSTATUS) : M NTSTATUS :=
  match entries with
  | [] => mret Status
  | CurrentEntry :: rest =>
    CurrentCallback ← read_callback CurrentEntry;
    match (if Callback.PendingDelete CurrentCallback then None
           else ExAcquireRundownProtection (Callback.RundownRef CurrentCallback)) with
    | Some acquired =>
      write_callback CurrentEntry (Callback.set_RundownRef acquired CurrentCallback);;
      (* don't hold locks during the callbacks! *)
      let Status' :=
        Callback.Function CurrentCallback (Callback.Context CurrentCallback)
          Argument1 Argument2 in
      emit (EvCallback CurrentEntry Argument1 Argument2 Status');;
      after ← read_callback CurrentEntry;
      write_callback CurrentEntry
        (Callback.set_RundownRef
           (ExReleaseRundownProtection (Callback.RundownRef after)) after);;
      if negb (NT_SUCCESS Status') then
        (* one callback returned failure, don't call any more callbacks *)
        mret Status'
      else CmiCallRegisteredCallbacks_from rest Argument1 Argument2 Status'
    | None => CmiCallRegisteredCallbacks_from rest Argument1 Argument2 Status
    end
  end.

Definition CmiCallRegisteredCallbacks (Argument1 : REG_NOTIFY_CLASS)
    (Argument2 : REG_INFORMATION) : M NTSTATUS :=
  st ← get_state;
  CmiCallRegisteredCallbacks_from (CmiCallbackHead st) Argument1 Argument2
    STATUS_SUCCESS.

(* ===================================================================== *)
(** ** Handles                                                            *)
(* ===================================================================== *)

(** [ExGetPreviousMode == KernelMode] in [CmpCreateHandle] compares the
    address of the function, not its result, with zero: the function is
    not at address zero, so the comparison is false. *)
Definition ExGetPreviousMode_is_null : bool := false.

(** [CmpCreateHandle]: status and, on success, the handle returned. *)
Definition CmpCreateHandle (ObjectBody : Z) (GrantedAccess : ACCESS_MASK)
    (HandleAttributes : ULONG) : M (NTSTATUS * option HANDLE) :=
  let CurrentProcess := PsGetCurrentProcess in
  let GrantedAccess :=
    if nonzero (Z.land GrantedAccess MAXIMUM_ALLOWED)
    then Z.lor (Z.land GrantedAccess (Z.lnot MAXIMUM_ALLOWED)) GENERIC_ALL
    else GrantedAccess in
  let GrantedAccess :=
    if nonzero (Z.land GrantedAccess GENERIC_ACCESS)
    then RtlMapGenericMask GrantedAccess else GrantedAccess in
  let NewEntry :=
    mkHandleEntry ObjectBody (nonzero (Z.land HandleAttributes OBJ_INHERIT))
      GrantedAccess in
  let '(Process, HandleAttributes) :=
    if nonzero (Z.land HandleAttributes OBJ_KERNEL_HANDLE)
       && ExGetPreviousMode_is_null
    then (PsInitialSystemProcess, HandleAttributes)
    else (CurrentProcess,
          (* mask out the OBJ_KERNEL_HANDLE attribute *)
          Z.land HandleAttributes (Z.lnot OBJ_KERNEL_HANDLE)) in
  let Handle := ExCreateHandle Process NewEntry in
  if negb (Handle =? 0) then
    let Handle :=
      if nonzero (Z.land HandleAttributes OBJ_KERNEL_HANDLE)
      then ObMarkHandleAsKernelHandle Handle else Handle in
    o ← read_object ObjectBody;
    write_object ObjectBody
      (KeyObject.set_HandleCount (KeyObject.HandleCount o + 1) o);;
    (if KeyObject.HandleCount o + 1 =? 1
     then ObReferenceObject ObjectBody else mret tt);;
    mret (STATUS_SUCCESS, Some Handle)
  else mret (STATUS_UNSUCCESSFUL, None).

(* ===================================================================== *)
(** ** NtDeleteKey                                                        *)
(* ===================================================================== *)

Definition NtDeleteKey (KeyHandle : HANDLE) : M NTSTATUS :=
  let PreviousMode := ExGetPreviousMode in
  (* Verify that the handle is valid and is a registry key *)
  '(Status, KeyObject) ← ObReferenceObjectByHandle KeyHandle DELETE PreviousMode;
  if negb (NT_SUCCESS Status) then mret Status else
  Status ← CmiCallRegisteredCallbacks RegNtPreDeleteKey
             (REG_DELETE_KEY_INFORMATION KeyObject);
  if negb (NT_SUCCESS Status) then
    CmiCallRegisteredCallbacks RegNtPostDeleteKey
      (REG_POST_OPERATION_INFORMATION KeyObject Status);;
    ObDereferenceObject KeyObject;;
    mret Status
  else
    o ← read_object KeyObject;
    KeyCell ← read_KeyCell o;
    (* Check for subkeys *)
    Status ←
      (if nonzero (at_storage (KeyNode.SubKeyCounts KeyCell) HvStable)
          || nonzero (at_storage (KeyNode.SubKeyCounts KeyCell) HvVolatile)
       then mret STATUS_CANNOT_DELETE
       else
         (* Set the marked for delete bit in the key object *)
         write_object KeyObject
           (KeyObject.set_Flags (Z.lor (KeyObject.Flags o) KO_MARKED_FOR_DELETE) o);;
         mret STATUS_SUCCESS);
    (* Remove the keep-alive reference *)
    ObDereferenceObject KeyObject;;
    o ← read_object KeyObject;
    parent ← read_object (KeyObject.ParentKey o);
    (if negb (KeyObject.RegistryHive o =? KeyObject.RegistryHive parent)
     then ObDereferenceObject KeyObject else mret tt);;
    CmiCallRegisteredCallbacks RegNtPostDeleteKey
      (REG_POST_OPERATION_INFORMATION KeyObject Status);;
    (* Dereference the object *)
    ObDereferenceObject KeyObject;;
    mret Status.

(* ===================================================================== *)
(** ** NtEnumerateKey and NtQueryKey                                      *)
(* ===================================================================== *)

(** What the call stores into the caller's [KeyInformation] buffer: the
    fixed fields and the bytes copied behind them. *)
Inductive KEY_INFORMATION :=
| KEY_BASIC_INFORMATION (LastWriteTime : LARGE_INTEGER) (TitleIndex : ULONG)
    (NameLength : ULONG) (Name : list UCHAR)
| KEY_NODE_INFORMATION (LastWriteTime : LARGE_INTEGER) (TitleIndex : ULONG)
    (ClassOffset ClassLength NameLength : ULONG) (Name Class : list UCHAR)
| KEY_FULL_INFORMATION (LastWriteTime : LARGE_INTEGER) (TitleIndex : ULONG)
    (ClassOffset ClassLength SubKeys MaxNameLen MaxClassLen Values
     MaxValueNameLen MaxValueDataLen : ULONG) (Class : list UCHAR).

(** Status of a query, [*ResultLength] and the buffer contents, the last
    two [None] when the call does not store them. *)
Record KeyQueryResult := mkKeyQuery {
  kq_Status : NTSTATUS;
  kq_ResultLength : option ULONG;
  kq_Information : option KEY_INFORMATION
}.

(** The subkey chosen by [NtEnumerateKey] for an index. *)
Inductive EnumeratedKey :=
| NoMoreEntries
| SubKey (SubKeyCell : CM_KEY_NODE).

(** [NtEnumerateKey], from the check of the index to the hash lookup. *)
Definition NtEnumerateKey_SubKeyCell (h : HHIVE) (KeyCell : CM_KEY_NODE)
    (Index : ULONG) : option EnumeratedKey :=
  let Stable := at_storage (KeyNode.SubKeyCounts KeyCell) HvStable in
  let Volatile := at_storage (KeyNode.SubKeyCounts KeyCell) HvVolatile in
  (* Check for hightest possible sub key index *)
  if to_ULONG (Stable + Volatile) <=? Index then Some NoMoreEntries else
  (* Get pointer to SubKey *)
  let '(Storage, BaseIndex) :=
    if Stable <=? Index then (HvVolatile, to_ULONG (Index - Stable))
    else (HvStable, Index) in
  if at_storage (KeyNode.SubKeyLists KeyCell) Storage =? HCELL_NULL
  then Some NoMoreEntries else
  match get_hash_table h (at_storage (KeyNode.SubKeyLists KeyCell) Storage) with
  | Some HashTableBlock =>
    SubKey <$> CmiGetKeyFromHashByIndex h HashTableBlock BaseIndex
  | None => None
  end.

(** The name of a key cell as copied out: [n] bytes of UTF-16, widened
    from the packed form when the cell stores one byte per character. *)
Definition copy_key_name (Cell : CM_KEY_NODE) (n : Z) : option (list UCHAR) :=
  if nonzero (Z.land (KeyNode.Flags Cell) REG_KEY_NAME_PACKED)
  then CmiCopyPackedName (KeyNode.Name Cell) (n / sizeof_WCHAR)
  else RtlCopyMemory (KeyNode.Name Cell) n.

(** The class name of a key cell as copied out ([ClassSize] bytes of the
    cell at [ClassNameOffset]); nothing is read when [ClassSize] is 0. *)
Definition copy_class (h : HHIVE) (Cell : CM_KEY_NODE) (ClassSize : Z)
    : option (list UCHAR) :=
  if negb (ClassSize =? 0) then
    match get_raw_cell h (KeyNode.ClassNameOffset Cell) with
    | Some ClassCell => RtlCopyMemory ClassCell ClassSize
    | None => None
    end
  else Some [].

(** The [switch (KeyInformationClass)] of [NtEnumerateKey]. *)
Definition NtEnumerateKey_information (KeyObject : Z) (h : HHIVE)
    (KeyCell SubKeyCell : CM_KEY_NODE) (Index : ULONG)
    (KeyInformationClass : KEY_INFORMATION_CLASS) (Length : ULONG)
    : option KeyQueryResult :=
  let PackedNameSize :=
    if nonzero (Z.land (KeyNode.Flags SubKeyCell) REG_KEY_NAME_PACKED)
    then to_ULONG (KeyNode.NameSize SubKeyCell * sizeof_WCHAR)
    else KeyNode.NameSize SubKeyCell in
  match KeyInformationClass with
  | KeyBasicInformation =>
    (* Check size of buffer *)
    let NameSize := PackedNameSize in
    let ResultLength := to_ULONG (KEY_BASIC_INFORMATION_Name + NameSize) in
    if Length <? KEY_BASIC_INFORMATION_Name
    then Some (mkKeyQuery STATUS_BUFFER_TOO_SMALL (Some ResultLength) None)
    else
      (* Fill buffer with requested info *)
      let NameLength := NameSize in
      let '(NameSize, Status) :=
        if to_ULONG (Length - KEY_BASIC_INFORMATION_Name) <? NameSize
        then (to_ULONG (Length - KEY_BASIC_INFORMATION_Name), STATUS_BUFFER_OVERFLOW)
        else (NameSize, STATUS_SUCCESS) in
      Name ← copy_key_name SubKeyCell NameSize;
      Some (mkKeyQuery Status (Some ResultLength)
              (Some (KEY_BASIC_INFORMATION (KeyNode.LastWriteTime SubKeyCell)
                       Index NameLength Name)))
  | KeyNodeInformation =>
    (* Check size of buffer *)
    let NameSize := PackedNameSize in
    let ClassSize := KeyNode.ClassSize SubKeyCell in
    let ResultLength :=
      to_ULONG (KEY_NODE_INFORMATION_Name + NameSize + ClassSize) in
    if Length <? KEY_NODE_INFORMATION_Name
    then Some (mkKeyQuery STATUS_BUFFER_TOO_SMALL (Some ResultLength) None)
    else
      (* Fill buffer with requested info *)
      let ClassOffset := to_ULONG (sizeof_KEY_NODE_INFORMATION + NameSize) in
      let NameLength := NameSize in
      let '(NameSize, ClassSize, Status) :=
        if to_ULONG (Length - KEY_NODE_INFORMATION_Name) <? NameSize
        then (to_ULONG (Length - KEY_NODE_INFORMATION_Name), 0, STATUS_BUFFER_OVERFLOW)
        else if to_ULONG (Length - KEY_NODE_INFORMATION_Name - NameSize) <? ClassSize
        then (NameSize, to_ULONG (Length - KEY_NODE_INFORMATION_Name - NameSize),
              STATUS_BUFFER_OVERFLOW)
        else (NameSize, ClassSize, STATUS_SUCCESS) in
      Name ← copy_key_name SubKeyCell NameSize;
      ClassBytes ← copy_class h SubKeyCell ClassSize;
      Some (mkKeyQuery Status (Some ResultLength)
              (Some (KEY_NODE_INFORMATION (KeyNode.LastWriteTime SubKeyCell)
                       Index ClassOffset (KeyNode.ClassSize SubKeyCell)
                       NameLength Name ClassBytes)))
  | KeyFullInformation =>
    let ClassSize := KeyNode.ClassSize SubKeyCell in
    let ResultLength := to_ULONG (KEY_FULL_INFORMATION_Class + ClassSize) in
    (* Check size of buffer *)
    if Length <? KEY_FULL_INFORMATION_Class
    then Some (mkKeyQuery STATUS_BUFFER_TOO_SMALL (Some ResultLength) None)
    else
      (* Fill buffer with requested info *)
      let '(ClassSize, Status) :=
        if to_ULONG (Length - KEY_FULL_INFORMATION_Class) <? ClassSize
        then (to_ULONG (Length - KEY_FULL_INFORMATION_Class), STATUS_BUFFER_OVERFLOW)
        else (ClassSize, STATUS_SUCCESS) in
      ClassBytes ← copy_class h SubKeyCell ClassSize;
      Some (mkKeyQuery Status (Some ResultLength)
              (Some (KEY_FULL_INFORMATION (KeyNode.LastWriteTime SubKeyCell)
                       Index (sizeof_KEY_FULL_INFORMATION - sizeof_WCHAR)
                       (KeyNode.ClassSize SubKeyCell)
                       (CmiGetNumberOfSubKeys KeyObject h KeyCell)
                       (CmiGetMaxNameLength KeyObject h KeyCell)
                       (CmiGetMaxClassLength KeyObject h KeyCell)
                       (KeyNode.ValueListCount SubKeyCell)
                       (CmiGetMaxValueNameLength h SubKeyCell)
                       (CmiGetMaxValueDataLength h SubKeyCell) ClassBytes)))
  | _ =>
    (* Not handling *)
    Some (mkKeyQuery STATUS_SUCCESS None None)
  end.

Definition NtEnumerateKey (KeyHandle : HANDLE) (Index : ULONG)
    (KeyInformationClass : KEY_INFORMATION_CLASS) (Length : ULONG)
    : M KeyQueryResult :=
  let PreviousMode := ExGetPreviousMode in
  (* Verify that the handle is valid and is a registry key *)
  '(Status, KeyObject) ←
    ObReferenceObjectByHandle KeyHandle KEY_ENUMERATE_SUB_KEYS PreviousMode;
  if negb (NT_SUCCESS Status) then mret (mkKeyQuery Status None None) else
  Status ← CmiCallRegisteredCallbacks RegNtPreEnumerateKey
             (REG_ENUMERATE_KEY_INFORMATION KeyObject Index KeyInformationClass
                Length);
  if negb (NT_SUCCESS Status) then
    CmiCallRegisteredCallbacks RegNtPostEnumerateKey
      (REG_POST_OPERATION_INFORMATION KeyObject Status);;
    ObDereferenceObject KeyObject;;
    mret (mkKeyQuery Status None None)
  else
    (* Get pointer to KeyCell *)
    o ← read_object KeyObject;
    KeyCell ← read_KeyCell o;
    RegistryHive ← read_hive (KeyObject.RegistryHive o);
    chosen ← deref (NtEnumerateKey_SubKeyCell (RegHive.Hive RegistryHive)
                      KeyCell Index);
    match chosen with
    | NoMoreEntries =>
      CmiCallRegisteredCallbacks RegNtPostEnumerateKey
        (REG_POST_OPERATION_INFORMATION KeyObject STATUS_NO_MORE_ENTRIES);;
      ObDereferenceObject KeyObject;;
      mret (mkKeyQuery STATUS_NO_MORE_ENTRIES None None)
    | SubKey SubKeyCell =>
      r ← deref (NtEnumerateKey_information KeyObject
                   (RegHive.Hive RegistryHive) KeyCell SubKeyCell Index
                   KeyInformationClass Length);
      CmiCallRegisteredCallbacks RegNtPostEnumerateKey
        (REG_POST_OPERATION_INFORMATION KeyObject (kq_Status r));;
      ObDereferenceObject KeyObject;;
      mret r
    end.

(** The bytes of a wide-character buffer (little endian); a NULL buffer
    has none. *)
Definition WCHAR_bytes (b : option (list WCHAR)) : list UCHAR :=
  match b with
  | Some l => l ≫= (fun c => [Z.land c 255; Z.land (Z.shiftr c 8) 255])
  | None => []
  end.

(** The [switch (KeyInformationClass)] of [NtQueryKey]. *)
Definition NtQueryKey_information (KeyObject : Z)
    (o : KEY_OBJECT) (h : HHIVE) (KeyCell : CM_KEY_NODE)
    (KeyInformationClass : KEY_INFORMATION_CLASS) (Length : ULONG)
    : option KeyQueryResult :=
  let NameBytes := WCHAR_bytes (US.Buffer (KeyObject.Name o)) in
  match KeyInformationClass with
  | KeyBasicInformation =>
    let NameSize := US.Length (KeyObject.Name o) in
    let ResultLength := KEY_BASIC_INFORMATION_Name in
    (* Check size of buffer *)
    if Length <? KEY_BASIC_INFORMATION_Name
    then Some (mkKeyQuery STATUS_BUFFER_TOO_SMALL (Some ResultLength) None)
    else
      (* Fill buffer with requested info *)
      let '(NameSize, Status) :=
        if to_ULONG (Length - KEY_BASIC_INFORMATION_Name) <? NameSize
        then (to_ULONG (Length - KEY_BASIC_INFORMATION_Name), STATUS_BUFFER_OVERFLOW)
        else (NameSize, STATUS_SUCCESS) in
      Name ← RtlCopyMemory NameBytes NameSize;
      Some (mkKeyQuery Status (Some ResultLength)
              (Some (KEY_BASIC_INFORMATION (KeyNode.LastWriteTime KeyCell) 0
                       (US.Length (KeyObject.Name o)) Name)))
  | KeyNodeInformation =>
    let NameSize := US.Length (KeyObject.Name o) in
    let ClassSize := KeyNode.ClassSize KeyCell in
    let ResultLength :=
      to_ULONG (KEY_NODE_INFORMATION_Name + NameSize + ClassSize) in
    (* Check size of buffer *)
    if Length <? ResultLength
    then Some (mkKeyQuery STATUS_BUFFER_TOO_SMALL (Some ResultLength) None)
    else
      (* Fill buffer with requested info *)
      let ClassOffset :=
        to_ULONG (sizeof_KEY_NODE_INFORMATION + US.Length (KeyObject.Name o)) in
      let '(NameSize, ClassSize, Status) :=
        if to_ULONG (Length - KEY_NODE_INFORMATION_Name) <? NameSize
        then (to_ULONG (Length - KEY_NODE_INFORMATION_Name), 0, STATUS_BUFFER_OVERFLOW)
        else if to_ULONG (Length - KEY_NODE_INFORMATION_Name - NameSize) <? ClassSize
        then (NameSize, to_ULONG (Length - KEY_NODE_INFORMATION_Name - NameSize),
              STATUS_BUFFER_OVERFLOW)
        else (NameSize, ClassSize, STATUS_SUCCESS) in
      Name ← RtlCopyMemory NameBytes NameSize;
      ClassBytes ← copy_class h KeyCell ClassSize;
      Some (mkKeyQuery Status (Some ResultLength)
              (Some (KEY_NODE_INFORMATION (KeyNode.LastWriteTime KeyCell) 0
                       ClassOffset (KeyNode.ClassSize KeyCell)
                       (US.Length (KeyObject.Name o)) Name ClassBytes)))
  | KeyFullInformation =>
    let ClassSize := KeyNode.ClassSize KeyCell in
    let ResultLength := to_ULONG (KEY_FULL_INFORMATION_Class + ClassSize) in
    (* Check size of buffer *)
    if Length <? KEY_FULL_INFORMATION_Class
    then Some (mkKeyQuery STATUS_BUFFER_TOO_SMALL (Some ResultLength) None)
    else
      (* Fill buffer with requested info *)
      let '(ClassSize, Status) :=
        if to_ULONG (Length - KEY_FULL_INFORMATION_Class) <? ClassSize
        then (to_ULONG (Length - KEY_FULL_INFORMATION_Class), STATUS_BUFFER_OVERFLOW)
        else (ClassSize, STATUS_SUCCESS) in
      ClassBytes ← copy_class h KeyCell ClassSize;
      Some (mkKeyQuery Status (Some ResultLength)
              (Some (KEY_FULL_INFORMATION (KeyNode.LastWriteTime KeyCell) 0
                       (sizeof_KEY_FULL_INFORMATION - sizeof_WCHAR)
                       (KeyNode.ClassSize KeyCell)
                       (CmiGetNumberOfSubKeys KeyObject h KeyCell)
                       (CmiGetMaxNameLength KeyObject h KeyCell)
                       (CmiGetMaxClassLength KeyObject h KeyCell)
                       (KeyNode.ValueListCount KeyCell)
                       (CmiGetMaxValueNameLength h KeyCell)
                       (CmiGetMaxValueDataLength h KeyCell) ClassBytes)))
  | KeyNameInformation | KeyCachedInformation | KeyFlagsInformation =>
    (* Key information class not yet implemented! *)
    Some (mkKeyQuery STATUS_NOT_IMPLEMENTED None None)
  | KeyOtherInformation _ =>
    (* Not handling *)
    Some (mkKeyQuery STATUS_INVALID_INFO_CLASS None None)
  end.

Definition NtQueryKey (KeyHandle : HANDLE)
    (KeyInformationClass : KEY_INFORMATION_CLASS) (Length : ULONG)
    : M KeyQueryResult :=
  (* Verify that the handle is valid and is a registry key *)
  '(Status, KeyObject) ←
    ObReferenceObjectByHandle KeyHandle
      (match KeyInformationClass with
       | KeyNameInformation => 0
       | _ => KEY_QUERY_VALUE
       end) ExGetPreviousMode;
  if negb (NT_SUCCESS Status) then mret (mkKeyQuery Status None None) else
  Status ← CmiCallRegisteredCallbacks RegNtPreQueryKey
             (REG_QUERY_KEY_INFORMATION KeyObject KeyInformationClass Length);
  if negb (NT_SUCCESS Status) then
    CmiCallRegisteredCallbacks RegNtPostQueryKey
      (REG_POST_OPERATION_INFORMATION KeyObject Status);;
    ObDereferenceObject KeyObject;;
    mret (mkKeyQuery Status None None)
  else
    (* Get pointer to KeyCell *)
    o ← read_object KeyObject;
    KeyCell ← read_KeyCell o;
    RegistryHive ← read_hive (KeyObject.RegistryHive o);
    r ← deref (NtQueryKey_information KeyObject o
                 (RegHive.Hive RegistryHive) KeyCell KeyInformationClass Length);
    CmiCallRegisteredCallbacks RegNtPostQueryKey
      (REG_POST_OPERATION_INFORMATION KeyObject (kq_Status r));;
    ObDereferenceObject KeyObject;;
    mret r.

(* ===================================================================== *)
(** ** NtFlushKey                                                         *)
(* ===================================================================== *)

Definition NtFlushKey (KeyHandle : HANDLE) : M NTSTATUS :=
  let PreviousMode := ExGetPreviousMode in
  (* Verify that the handle is valid and is a registry key *)
  '(Status, KeyObject) ← ObReferenceObjectByHandle KeyHandle 0 PreviousMode;
  if negb (NT_SUCCESS Status) then mret Status else
  o ← read_object KeyObject;
  RegistryHive ← read_hive (KeyObject.RegistryHive o);
  Status ←
    (if IsNoFileHive RegistryHive then mret STATUS_SUCCESS
     else
       (* Flush non-volatile hive *)
       let '(Status, flushed) := CmiFlushRegistryHive RegistryHive in
       write_hive (KeyObject.RegistryHive o) flushed;;
       emit (EvFlushRegistryHive (KeyObject.RegistryHive o) Status);;
       mret Status);
  ObDereferenceObject KeyObject;;
  mret STATUS_SUCCESS.

(* ===================================================================== *)
(** ** NtSetInformationKey and NtSaveKey                                  *)
(* ===================================================================== *)

(** [KeyInformation] is the [LastWriteTime] of the caller's
    [KEY_WRITE_TIME_INFORMATION]; it is read in the last branch only. *)
Definition NtSetInformationKey (KeyHandle : HANDLE)
    (KeyInformationClass : KEY_SET_INFORMATION_CLASS)
    (KeyInformation : LARGE_INTEGER) (KeyInformationLength : ULONG) : M NTSTATUS :=
  (* Verify that the handle is valid and is a registry key *)
  '(Status, KeyObject) ←
    ObReferenceObjectByHandle KeyHandle KEY_SET_VALUE ExGetPreviousMode;
  if negb (NT_SUCCESS Status) then mret Status else
  Status ← CmiCallRegisteredCallbacks RegNtPreSetInformationKey
             (REG_SET_INFORMATION_KEY_INFORMATION KeyObject KeyInformationClass
                KeyInformation KeyInformationLength);
  if negb (NT_SUCCESS Status) then
    CmiCallRegisteredCallbacks RegNtPostSetInformationKey
      (REG_POST_OPERATION_INFORMATION KeyObject Status);;
    ObDereferenceObject KeyObject;;
    mret Status
  else
    Status ←
      match KeyInformationClass with
      | KeySetOtherInformation _ => mret STATUS_INVALID_INFO_CLASS
      | KeyWriteTimeInformation =>
        if negb (KeyInformationLength =? sizeof_KEY_WRITE_TIME_INFORMATION)
        then mret STATUS_INFO_LENGTH_MISMATCH
        else
          o ← read_object KeyObject;
          KeyCell ← read_KeyCell o;
          write_KeyCell o (KeyNode.set_LastWriteTime KeyInformation KeyCell);;
          update_HHIVE (KeyObject.RegistryHive o)
            (fun h => HvMarkCellDirty h (KeyObject.KeyCellOffset o));;
          mret Status
      end;
    CmiCallRegisteredCallbacks RegNtPostSetInformationKey
      (REG_POST_OPERATION_INFORMATION KeyObject Status);;
    ObDereferenceObject KeyObject;;
    (if NT_SUCCESS Status then CmiSyncHives else mret tt);;
    mret STATUS_SUCCESS.

Definition NtSaveKey (KeyHandle FileHandle : HANDLE) : M NTSTATUS :=
  '(Status, KeyObject) ← ObReferenceObjectByHandle KeyHandle 0 ExGetPreviousMode;
  if negb (NT_SUCCESS Status) then mret Status else
  o ← read_object KeyObject;
  KeyCell ← read_KeyCell o;
  (* Refuse to save a volatile key *)
  if nonzero (Z.land (KeyNode.Flags KeyCell) REG_KEY_VOLATILE_CELL) then
    ObDereferenceObject KeyObject;;
    mret STATUS_ACCESS_DENIED
  else
    let '(Status, TempHive, created) := CmiCreateTempHive in
    if negb (NT_SUCCESS Status) then
      ObDereferenceObject KeyObject;;
      mret Status
    else
      write_hive TempHive created;;
      source ← read_hive (KeyObject.RegistryHive o);
      let '(Status, copied) := CmiCopyKey created source KeyCell in
      write_hive TempHive copied;;
      if negb (NT_SUCCESS Status) then
        CmiRemoveRegistryHive TempHive;;
        ObDereferenceObject KeyObject;;
        mret Status
      else
        let Status := CmiSaveTempHive copied FileHandle in
        emit (EvSaveTempHive TempHive FileHandle Status);;
        CmiRemoveRegistryHive TempHive;;
        ObDereferenceObject KeyObject;;
        mret STATUS_SUCCESS.

(* ===================================================================== *)
(** ** NtSetValueKey                                                      *)
(* ===================================================================== *)

(** The wide string [L"SymbolicLinkValue"]. *)
Definition SymbolicLinkValue : list WCHAR :=
  [83; 121; 109; 98; 111; 108; 105; 99; 76; 105; 110; 107; 86; 97; 108; 117; 101].

(** How the data part of [NtSetValueKey] ends. *)
Inductive StoreOutcome :=
| AllocationFailed
| Stored (h : HHIVE).

(** [RtlCopyMemory(DataCell, Data, DataSize)] into the cell at [Offset]. *)
Definition copy_into_cell (h : HHIVE) (Offset : HCELL_INDEX) (Data : list UCHAR)
    (DataSize : ULONG) : option HHIVE :=
  match get_raw_cell h Offset, RtlCopyMemory Data DataSize with
  | Some old, Some b => Some (write_cell h Offset (RawData (b ++ drop (length b) old)))
  | _, _ => None
  end.

(** [NtSetValueKey], from the inspection of the current data cell to the
    two [HvMarkCellDirty] calls of the value: where the data goes. *)
Definition NtSetValueKey_data (h : HHIVE) (ValueCellOffset : HCELL_INDEX)
    (ValueCell : CM_KEY_VALUE) (Type_ : ULONG) (Data : list UCHAR)
    (DataSize : ULONG) : option StoreOutcome :=
  '(DataCell, DataCellSize) ←
    (if negb (nonzero (Z.land (KeyValue.DataSize ValueCell) REG_DATA_IN_OFFSET))
        && negb (Z.land (KeyValue.DataSize ValueCell) REG_DATA_SIZE_MASK =? 0)
     then
       size ← HvGetCellSize h (KeyValue.DataOffset ValueCell);
       Some (true, to_ULONG (- size))
     else Some (false, 0));
  if DataSize <=? sizeof_HCELL_INDEX then
    (* If data size <= sizeof(HCELL_INDEX) then store data in the data offset *)
    let h := if DataCell : bool
             then HvFreeCell h (KeyValue.DataOffset ValueCell) else h in
    inline ← copy_into_ULONG (KeyValue.DataOffset ValueCell) Data DataSize;
    let h := write_cell h ValueCellOffset
               (ValueCellData
                  (KeyValue.set_data (Z.lor DataSize REG_DATA_IN_OFFSET) inline
                     Type_ ValueCell)) in
    Some (Stored (HvMarkCellDirty h ValueCellOffset))
  else
    located ←
      (if DataCellSize <? DataSize then
         (* New data size is larger than the current, destroy current
            data block and allocate a new one. *)
         let '(NewOffset, h) := HvAllocateCell h DataSize HvStable in
         if NewOffset =? HCELL_NULL then Some None
         else
           let h := if DataCell : bool
                    then HvFreeCell h (KeyValue.DataOffset ValueCell) else h in
           Some (Some (NewOffset, h))
       else Some (Some (KeyValue.DataOffset ValueCell, h)));
    match located with
    | None => Some AllocationFailed
    | Some (DataOffset, h) =>
      h ← copy_into_cell h DataOffset Data DataSize;
      let h := write_cell h ValueCellOffset
                 (ValueCellData
                    (KeyValue.set_data (Z.land DataSize REG_DATA_SIZE_MASK)
                       DataOffset Type_ ValueCell)) in
      Some (Stored (HvMarkCellDirty (HvMarkCellDirty h DataOffset) ValueCellOffset))
    end.

Definition NtSetValueKey (KeyHandle : HANDLE) (ValueName : UNICODE_STRING)
    (TitleIndex : ULONG) (Type_ : ULONG) (Data : list UCHAR) (DataSize : ULONG)
    : M NTSTATUS :=
  let DesiredAccess := KEY_SET_VALUE in
  (* Verify that the handle is valid and is a registry key *)
  '(Status, KeyObject) ←
    ObReferenceObjectByHandle KeyHandle DesiredAccess ExGetPreviousMode;
  if negb (NT_SUCCESS Status) then mret Status else
  Status ← CmiCallRegisteredCallbacks RegNtPreSetValueKey
             (REG_SET_VALUE_KEY_INFORMATION KeyObject ValueName TitleIndex Type_
                Data DataSize);
  if negb (NT_SUCCESS Status) then
    CmiCallRegisteredCallbacks RegNtPostSetValueKey
      (REG_POST_OPERATION_INFORMATION KeyObject Status);;
    ObDereferenceObject KeyObject;;
    mret Status
  else
    (* Get pointer to key cell *)
    o ← read_object KeyObject;
    KeyCell ← read_KeyCell o;
    RegistryHive ← read_hive (KeyObject.RegistryHive o);
    let '(Status, ValueCellOffset) :=
      CmiScanKeyForValue (RegHive.Hive RegistryHive) KeyCell ValueName in
    '(Status, ValueCellOffset) ←
      (if Status =? STATUS_OBJECT_NAME_NOT_FOUND then
         (* Allocate new value cell *)
         let '(Status, added, ValueCellOffset) :=
           CmiAddValueToKey (RegHive.Hive RegistryHive) KeyCell
             (KeyObject.KeyCellOffset o) ValueName in
         update_HHIVE (KeyObject.RegistryHive o) (fun _ => added);;
         mret (Status, ValueCellOffset)
       else mret (Status, ValueCellOffset));
    if negb (NT_SUCCESS Status) then
      (* Cannot add value *)
      CmiCallRegisteredCallbacks RegNtPostSetValueKey
        (REG_POST_OPERATION_INFORMATION KeyObject Status);;
      ObDereferenceObject KeyObject;;
      mret Status
    else
      ValueCellOffset ← deref ValueCellOffset;
      RegistryHive ← read_hive (KeyObject.RegistryHive o);
      ValueCell ← deref (get_value_cell (RegHive.Hive RegistryHive) ValueCellOffset);
      outcome ← deref (NtSetValueKey_data (RegHive.Hive RegistryHive)
                         ValueCellOffset ValueCell Type_ Data DataSize);
      match outcome with
      | AllocationFailed =>
        (* CmiAllocateBlock() failed *)
        CmiCallRegisteredCallbacks RegNtPostSetValueKey
          (REG_POST_OPERATION_INFORMATION KeyObject Status);;
        ObDereferenceObject KeyObject;;
        mret Status
      | Stored h =>
        update_HHIVE (KeyObject.RegistryHive o) (fun _ => h);;
        (* Mark link key *)
        KeyCell ← read_KeyCell o;
        let KeyCell :=
          if (Type_ =? REG_LINK)
             && (wcsicmp (US.Buffer ValueName) SymbolicLinkValue =? 0)
          then KeyNode.set_Flags
                 (Z.lor (KeyNode.Flags KeyCell) REG_KEY_LINK_CELL) KeyCell
          else KeyCell in
        write_KeyCell o (KeyNode.set_LastWriteTime KeQuerySystemTime KeyCell);;
        update_HHIVE (KeyObject.RegistryHive o)
          (fun h => HvMarkCellDirty h (KeyObject.KeyCellOffset o));;
        CmiCallRegisteredCallbacks RegNtPostSetValueKey
          (REG_POST_OPERATION_INFORMATION KeyObject Status);;
        ObDereferenceObject KeyObject;;
        CmiSyncHives;;
        mret Status
      end.

(* ===================================================================== *)
(** ** NtOpenKey and NtCreateKey                                          *)
(* ===================================================================== *)

(** [Buffer[i]] of a counted string; a NULL buffer or an index outside the
    buffer is a fault. *)
Definition wchar_at (Buffer : option (list WCHAR)) (i : Z) : option WCHAR :=
  match Buffer with
  | Some b => if i <? 0 then None else b !! Z.to_nat i
  | None => None
  end.

Definition to_USHORT (z : Z) : USHORT := z mod 2 ^ 16.

(** The character [L'\\']. *)
Definition BACKSLASH : WCHAR := 92.

(** Drop one trailing backslash of a counted string: the character is
    overwritten with [UNICODE_NULL] and both lengths shrink by one WCHAR. *)
Definition strip_trailing_backslash (s : UNICODE_STRING) : option UNICODE_STRING :=
  let last := US.Length s / sizeof_WCHAR - 1 in
  c ← wchar_at (US.Buffer s) last;
  if c =? BACKSLASH then
    Some (US.mk (to_USHORT (US.Length s - sizeof_WCHAR))
                (to_USHORT (US.MaximumLength s - sizeof_WCHAR))
                (<[Z.to_nat last := 0]> <$> US.Buffer s))
  else Some s.

(** The loop [for (i = ...; i < Length / sizeof(WCHAR); i++)] of
    [NtCreateKey] with [count] iterations left: is there a backslash? *)
Fixpoint has_backslash_from (Buffer : option (list WCHAR)) (i : Z) (count : nat)
    : option bool :=
  match count with
  | O => Some false
  | S count' =>
    c ← wchar_at Buffer i;
    if BACKSLASH =? c then Some true
    else has_backslash_from Buffer (i + 1) count'
  end.

(** Status of an entry point that answers through [*KeyHandle]: the value
    last stored there ([None] when the call stores nothing), and for
    [NtCreateKey] the value stored to [*Disposition]. *)
Record KeyHandleResult := mkHandleResult {
  kh_Status : NTSTATUS;
  kh_KeyHandle : option HANDLE;
  kh_Disposition : option ULONG
}.

(** The captured name as [NtOpenKey] passes it on: one trailing backslash
    is dropped when the buffer is not NULL. *)
Definition NtOpenKey_ObjectName (ObjectName : UNICODE_STRING)
    : option UNICODE_STRING :=
  match US.Buffer ObjectName with
  | Some _ => strip_trailing_backslash ObjectName
  | None => Some ObjectName
  end.

(** Whether [NtOpenKey] takes the remaining path of the walk for empty:
    the buffer is NULL or starts with [UNICODE_NULL]. *)
Definition NtOpenKey_RemainingPath_first (RemainingPath : UNICODE_STRING)
    : option WCHAR :=
  match US.Buffer RemainingPath with
  | Some _ => wchar_at (US.Buffer RemainingPath) 0
  | None => Some 0
  end.

Definition NtOpenKey (KeyHandle : Z) (DesiredAccess : ACCESS_MASK)
    (ObjectAttributes : Z) : M KeyHandleResult :=
  (* Check place for result handle, if it's null - return immediately *)
  if KeyHandle =? 0 then mret (mkHandleResult STATUS_INVALID_PARAMETER None None) else
  let PreviousMode := ExGetPreviousMode in
  let Status :=
    match PreviousMode with
    | KernelMode => STATUS_SUCCESS
    | UserMode => Probe_status KeyHandle   (* ProbeAndZeroHandle *)
    end in
  if negb (NT_SUCCESS Status) then mret (mkHandleResult Status None None) else
  let zeroed := match PreviousMode with KernelMode => None | UserMode => Some 0 end in
  (* Capture all the info *)
  let '(Status, ObjectCreateInfo, ObjectName) :=
    ObpCaptureObjectAttributes ObjectAttributes PreviousMode in
  if negb (NT_SUCCESS Status) then mret (mkHandleResult Status zeroed None) else
  ObjectName ← deref (NtOpenKey_ObjectName ObjectName);
  Status ← CmiCallRegisteredCallbacks RegNtPreOpenKey
             (REG_PRE_OPEN_KEY_INFORMATION ObjectName);
  if negb (NT_SUCCESS Status) then
    CmiCallRegisteredCallbacks RegNtPostOpenKey
      (REG_POST_OPEN_KEY_INFORMATION ObjectName 0 Status);;
    mret (mkHandleResult Status zeroed None)
  else
    '(Status, Object, RemainingPath) ← CmFindObject ObjectCreateInfo ObjectName;
    '(Status, hKey) ←
      (if negb (NT_SUCCESS Status) then
         (* Because ObFindObject returns STATUS_UNSUCCESSFUL *)
         mret (STATUS_INVALID_HANDLE, None)
       else
         first ← deref (NtOpenKey_RemainingPath_first RemainingPath);
         if negb (first =? 0) then mret (STATUS_OBJECT_NAME_NOT_FOUND, None)
         else
           found ← read_object Object;
           (* Fail if the key has been deleted *)
           if nonzero (Z.land (KeyObject.Flags found) KO_MARKED_FOR_DELETE)
           then mret (STATUS_UNSUCCESSFUL, None)
           else CmpCreateHandle Object DesiredAccess (Attributes ObjectCreateInfo));
    CmiCallRegisteredCallbacks RegNtPostOpenKey
      (REG_POST_OPEN_KEY_INFORMATION ObjectName
         (if NT_SUCCESS Status then Object else 0) Status);;
    (if negb (Object =? 0) then ObDereferenceObject Object else mret tt);;
    if NT_SUCCESS Status then
      let stored := Store_status KeyHandle in
      if NT_SUCCESS stored
      then mret (mkHandleResult Status
                   (Some (default 0 hKey)) None)
      else mret (mkHandleResult stored zeroed None)
    else mret (mkHandleResult Status zeroed None).

(** [Class] and [Disposition] are the caller's pointers, 0 for NULL. *)
Definition NtCreateKey (KeyHandle : Z) (DesiredAccess : ACCESS_MASK)
    (ObjectAttributes : Z) (TitleIndex : ULONG) (Class : Z)
    (CreateOptions : ULONG) (Disposition : Z) : M KeyHandleResult :=
  let PreviousMode := ExGetPreviousMode in
  let Status :=
    match PreviousMode with
    | KernelMode => STATUS_SUCCESS
    | UserMode =>
      let probed := Probe_status KeyHandle in   (* ProbeAndZeroHandle *)
      if NT_SUCCESS probed && negb (Disposition =? 0)
      then Probe_status Disposition              (* ProbeForWriteUlong *)
      else probed
    end in
  if negb (NT_SUCCESS Status) then mret (mkHandleResult Status None None) else
  let zeroed := match PreviousMode with KernelMode => None | UserMode => Some 0 end in
  let '(Status, CapturedClass) :=
    if negb (Class =? 0) then ProbeAndCaptureUnicodeString PreviousMode Class
    else (Status, US.empty) in
  if negb (NT_SUCCESS Status) then mret (mkHandleResult Status zeroed None) else
  (* Capture all the info *)
  let '(Status, ObjectCreateInfo, ObjectName) :=
    ObpCaptureObjectAttributes ObjectAttributes PreviousMode in
  if negb (NT_SUCCESS Status) then mret (mkHandleResult Status zeroed None) else
  (* the labels SuccessReturn and Cleanup *)
  let Cleanup (Status : NTSTATUS) : M KeyHandleResult :=
    mret (mkHandleResult Status zeroed None) in
  let SuccessReturn (Status : NTSTATUS) (hKey : HANDLE) (LocalDisposition : ULONG)
      : M KeyHandleResult :=
    let stored := Store_status KeyHandle in
    if negb (NT_SUCCESS stored) then mret (mkHandleResult stored zeroed None)
    else if Disposition =? 0 then mret (mkHandleResult Status (Some hKey) None)
    else
      let stored := Store_status Disposition in
      if negb (NT_SUCCESS stored)
      then mret (mkHandleResult stored (Some hKey) None)
      else mret (mkHandleResult Status (Some hKey) (Some LocalDisposition)) in
  let Post (Object : Z) (Status : NTSTATUS) : M NTSTATUS :=
    CmiCallRegisteredCallbacks RegNtPostCreateKey
      (REG_POST_CREATE_KEY_INFORMATION ObjectName Object Status) in
  Status ← CmiCallRegisteredCallbacks RegNtPreCreateKey
             (REG_PRE_CREATE_KEY_INFORMATION ObjectName);
  if negb (NT_SUCCESS Status) then Post 0 Status;; Cleanup Status else
  '(Status, Object, RemainingPath) ← CmFindObject ObjectCreateInfo ObjectName;
  if negb (NT_SUCCESS Status) then Post 0 Status;; Cleanup Status else
  if US.Length RemainingPath =? 0 then
    found ← read_object Object;
    (* Fail if the key has been deleted *)
    if nonzero (Z.land (KeyObject.Flags found) KO_MARKED_FOR_DELETE) then
      Post 0 STATUS_UNSUCCESSFUL;;
      Cleanup STATUS_UNSUCCESSFUL
    else
      '(Status, hKey) ←
        CmpCreateHandle Object DesiredAccess (Attributes ObjectCreateInfo);
      Post 0 Status;;
      SuccessReturn Status (default hKey_indeterminate hKey) REG_OPENED_EXISTING_KEY
  else
    (* If RemainingPath contains \ we must return error
       because NtCreateKey doesn't create trees *)
    first ← deref (wchar_at (US.Buffer RemainingPath) 0);
    let Start_is_Buffer := negb (first =? BACKSLASH) in
    RemainingPath ← deref (strip_trailing_backslash RemainingPath);
    tree ← deref (has_backslash_from (US.Buffer RemainingPath) 1
                    (Z.to_nat (US.Length RemainingPath / sizeof_WCHAR - 1)));
    if tree : bool then
      Post 0 STATUS_OBJECT_NAME_NOT_FOUND;;
      Cleanup STATUS_OBJECT_NAME_NOT_FOUND
    else
      let '(Status, KeyObject) := ObCreateObject_body in
      if negb (NT_SUCCESS Status) then Post 0 Status;; Cleanup Status else
      write_object KeyObject (KeyObject.mk 1 0 0 US.empty 0 0 0 0 0 []);;
      let '(Status, hKey) := ObInsertObject_handle KeyObject DesiredAccess in
      if negb (NT_SUCCESS Status) then
        ObDereferenceObject KeyObject;;
        Post 0 Status;;
        Cleanup Status
      else
        ParentKey ← read_object Object;
        write_object KeyObject
          (KeyObject.mk 2 1 0 US.empty (KeyObject.RegistryHive ParentKey) 0
             Object 0 0 []);;
        modify (fun st =>
          set_CmiKeyObjectListHead
            (InsertTailList (CmiKeyObjectListHead st) KeyObject) st);;
        (* add key to subkeys of parent if needed *)
        RegistryHive ← read_hive (KeyObject.RegistryHive ParentKey);
        let '(AddStatus, added, KeyCellOffset) :=
          CmiAddSubKey RegistryHive ParentKey RemainingPath TitleIndex
            CapturedClass CreateOptions in
        if negb (NT_SUCCESS AddStatus) then
          ObDereferenceObject KeyObject;;
          Post 0 STATUS_UNSUCCESSFUL;;
          Cleanup STATUS_UNSUCCESSFUL
        else
          write_hive (KeyObject.RegistryHive ParentKey) added;;
          o ← read_object KeyObject;
          let o := KeyObject.set_KeyCellOffset KeyCellOffset o in
          let o :=
            KeyObject.set_Name
              (if Start_is_Buffer then RemainingPath
               else RtlpCreateUnicodeString
                      (drop 1 (default [] (US.Buffer RemainingPath)))) o in
          write_object KeyObject o;;
          ParentCell ← read_KeyCell ParentKey;
          KeyCell ← read_KeyCell o;
          write_KeyCell o
            (KeyNode.set_SecurityKeyOffset (KeyNode.SecurityKeyOffset ParentCell)
               (KeyNode.set_Parent (KeyObject.KeyCellOffset ParentKey) KeyCell));;
          ParentKey ← read_object Object;
          write_object Object (CmiAddKeyToList ParentKey KeyObject);;
          Post KeyObject AddStatus;;
          CmiSyncHives;;
          SuccessReturn AddStatus hKey REG_CREATED_NEW_KEY.

(* ===================================================================== *)
(** ** The value queries                                                  *)
(* ===================================================================== *)

(** What a value query stores into the caller's buffer. *)
Inductive KEY_VALUE_INFORMATION :=
| KEY_VALUE_BASIC_INFORMATION (TitleIndex Type_ NameLength : ULONG)
    (Name : list UCHAR)
| KEY_VALUE_PARTIAL_INFORMATION (TitleIndex Type_ DataLength : ULONG)
    (Data : list UCHAR)
| KEY_VALUE_FULL_INFORMATION (TitleIndex Type_ DataOffset DataLength
    NameLength : ULONG) (Name Data : list UCHAR).

Record ValueQueryResult := mkValueQuery {
  vq_Status : NTSTATUS;
  vq_ResultLength : option ULONG;
  vq_Information : option KEY_VALUE_INFORMATION
}.

Definition value_NameSize (ValueCell : CM_KEY_VALUE) : ULONG :=
  if nonzero (Z.land (KeyValue.Flags ValueCell) REG_VALUE_NAME_PACKED)
  then to_ULONG (KeyValue.NameSize ValueCell * sizeof_WCHAR)
  else KeyValue.NameSize ValueCell.

Definition copy_value_name (ValueCell : CM_KEY_VALUE) (n : Z) : option (list UCHAR) :=
  if nonzero (Z.land (KeyValue.Flags ValueCell) REG_VALUE_NAME_PACKED)
  then CmiCopyPackedName (KeyValue.Name ValueCell) (n / sizeof_WCHAR)
  else RtlCopyMemory (KeyValue.Name ValueCell) n.

(** The data of a value as copied out: from the data cell, or from the
    [DataOffset] field itself when [REG_DATA_IN_OFFSET] is set. *)
Definition copy_value_data (h : HHIVE) (ValueCell : CM_KEY_VALUE) (n : Z)
    : option (list UCHAR) :=
  if negb (nonzero (Z.land (KeyValue.DataSize ValueCell) REG_DATA_IN_OFFSET))
  then DataCell ← get_raw_cell h (KeyValue.DataOffset ValueCell);
       RtlCopyMemory DataCell n
  else RtlCopyMemory (ULONG_bytes (KeyValue.DataOffset ValueCell)) n.

(** The cases [KeyValueBasicInformation] and [KeyValuePartialInformation],
    which [NtEnumerateValueKey] and [NtQueryValueKey] share; [Status] is the
    status on entry to the [switch]. *)
Definition value_basic_information (ValueCell : CM_KEY_VALUE) (Length : ULONG)
    (Status : NTSTATUS) : option ValueQueryResult :=
  let NameSize := value_NameSize ValueCell in
  let ResultLength := to_ULONG (KEY_VALUE_BASIC_INFORMATION_Name + NameSize) in
  if Length <? KEY_VALUE_BASIC_INFORMATION_Name
  then Some (mkValueQuery STATUS_BUFFER_TOO_SMALL (Some ResultLength) None)
  else
    let NameLength := NameSize in
    let '(NameSize, Status) :=
      if to_ULONG (Length - KEY_VALUE_BASIC_INFORMATION_Name) <? NameSize
      then (to_ULONG (Length - KEY_VALUE_BASIC_INFORMATION_Name),
            STATUS_BUFFER_OVERFLOW)
      else (NameSize, Status) in
    Name ← copy_value_name ValueCell NameSize;
    Some (mkValueQuery Status (Some ResultLength)
            (Some (KEY_VALUE_BASIC_INFORMATION 0 (KeyValue.DataType ValueCell)
                     NameLength Name))).

Definition value_partial_information (h : HHIVE) (ValueCell : CM_KEY_VALUE)
    (Length : ULONG) (Status : NTSTATUS) : option ValueQueryResult :=
  let DataSize := Z.land (KeyValue.DataSize ValueCell) REG_DATA_SIZE_MASK in
  let ResultLength := to_ULONG (KEY_VALUE_PARTIAL_INFORMATION_Data + DataSize) in
  if Length <? KEY_VALUE_PARTIAL_INFORMATION_Data
  then Some (mkValueQuery STATUS_BUFFER_TOO_SMALL (Some ResultLength) None)
  else
    let DataLength := DataSize in
    let '(DataSize, Status) :=
      if to_ULONG (Length - KEY_VALUE_PARTIAL_INFORMATION_Data) <? DataSize
      then (to_ULONG (Length - KEY_VALUE_PARTIAL_INFORMATION_Data),
            STATUS_BUFFER_OVERFLOW)
      else (DataSize, Status) in
    Data ← copy_value_data h ValueCell DataSize;
    Some (mkValueQuery Status (Some ResultLength)
            (Some (KEY_VALUE_PARTIAL_INFORMATION 0 (KeyValue.DataType ValueCell)
                     DataLength Data))).

(** [KeyValueFullInformation]; the two entry points clamp differently, as
    [clamp] says: given [Length], the data offset, [NameSize] and
    [DataSize], the sizes to copy and the status. *)
Definition value_full_information (h : HHIVE) (ValueCell : CM_KEY_VALUE)
    (Length : ULONG) (Status : NTSTATUS)
    (clamp : ULONG -> ULONG -> ULONG -> ULONG -> NTSTATUS -> ULONG * ULONG * NTSTATUS)
    : option ValueQueryResult :=
  let NameSize := value_NameSize ValueCell in
  let DataSize := Z.land (KeyValue.DataSize ValueCell) REG_DATA_SIZE_MASK in
  let ResultLength :=
    to_ULONG (ROUND_UP (KEY_VALUE_FULL_INFORMATION_Name + NameSize) sizeof_PVOID
              + DataSize) in
  if Length <? KEY_VALUE_FULL_INFORMATION_Name
  then Some (mkValueQuery STATUS_BUFFER_TOO_SMALL (Some ResultLength) None)
  else
    let NameLength := NameSize in
    let DataOffset :=
      ROUND_UP (to_ULONG (KEY_VALUE_FULL_INFORMATION_Name + NameLength))
        sizeof_PVOID in
    let DataLength := DataSize in
    let '(NameSize, DataSize, Status) :=
      clamp Length DataOffset NameSize DataSize Status in
    Name ← copy_value_name ValueCell NameSize;
    Data ← copy_value_data h ValueCell DataSize;
    Some (mkValueQuery Status (Some ResultLength)
            (Some (KEY_VALUE_FULL_INFORMATION 0 (KeyValue.DataType ValueCell)
                     DataOffset DataLength NameLength Name Data))).

(** The clamping of [NtEnumerateValueKey]. *)
Definition NtEnumerateValueKey_clamp (Length DataOffset NameSize DataSize : ULONG)
    (Status : NTSTATUS) : ULONG * ULONG * NTSTATUS :=
  if Length <? DataOffset
  then (to_ULONG (Length - KEY_VALUE_FULL_INFORMATION_Name), 0,
        STATUS_BUFFER_OVERFLOW)
  else if to_ULONG (Length - DataOffset) <? DataSize
  then (NameSize, to_ULONG (Length - DataOffset), STATUS_BUFFER_OVERFLOW)
  else (NameSize, DataSize, Status).

(** The clamping of [NtQueryValueKey]. *)
Definition NtQueryValueKey_clamp (Length DataOffset NameSize DataSize : ULONG)
    (Status : NTSTATUS) : ULONG * ULONG * NTSTATUS :=
  if to_ULONG (Length - KEY_VALUE_FULL_INFORMATION_Name) <? NameSize
  then (to_ULONG (Length - KEY_VALUE_FULL_INFORMATION_Name), 0,
        STATUS_BUFFER_OVERFLOW)
  else if ROUND_UP (to_ULONG (Length - KEY_VALUE_FULL_INFORMATION_Name - NameSize))
            sizeof_PVOID <? DataSize
  then (NameSize,
        ROUND_UP (to_ULONG (Length - KEY_VALUE_FULL_INFORMATION_Name - NameSize))
          sizeof_PVOID,
        STATUS_BUFFER_OVERFLOW)
  else (NameSize, DataSize, Status).

Definition NtEnumerateValueKey (KeyHandle : HANDLE) (Index : ULONG)
    (KeyValueInformationClass : KEY_VALUE_INFORMATION_CLASS) (Length : ULONG)
    : M ValueQueryResult :=
  (*  Verify that the handle is valid and is a registry key  *)
  '(Status, KeyObject) ←
    ObReferenceObjectByHandle KeyHandle KEY_QUERY_VALUE ExGetPreviousMode;
  if negb (NT_SUCCESS Status) then mret (mkValueQuery Status None None) else
  Status ← CmiCallRegisteredCallbacks RegNtPreEnumerateValueKey
             (REG_ENUMERATE_VALUE_KEY_INFORMATION KeyObject Index
                KeyValueInformationClass Length);
  if negb (NT_SUCCESS Status) then
    CmiCallRegisteredCallbacks RegNtPostEnumerateValueKey
      (REG_POST_OPERATION_INFORMATION KeyObject Status);;
    ObDereferenceObject KeyObject;;
    mret (mkValueQuery Status None None)
  else
    (* Get pointer to KeyCell *)
    o ← read_object KeyObject;
    KeyCell ← read_KeyCell o;
    RegistryHive ← read_hive (KeyObject.RegistryHive o);
    let h := RegHive.Hive RegistryHive in
    (* Get Value block of interest *)
    let '(Status, ValueCellOffset) := CmiGetValueFromKeyByIndex h KeyCell Index in
    if negb (NT_SUCCESS Status) then
      ObDereferenceObject KeyObject;;
      CmiCallRegisteredCallbacks RegNtPostEnumerateValueKey
        (REG_POST_OPERATION_INFORMATION KeyObject Status);;
      mret (mkValueQuery Status None None)
    else
      r ←
        match ValueCellOffset with
        | Some ValueCellOffset =>
          ValueCell ← deref (get_value_cell h ValueCellOffset);
          deref
            match KeyValueInformationClass with
            | KeyValueBasicInformation =>
              value_basic_information ValueCell Length Status
            | KeyValuePartialInformation =>
              value_partial_information h ValueCell Length Status
            | KeyValueFullInformation =>
              value_full_information h ValueCell Length Status
                NtEnumerateValueKey_clamp
            | KeyValueOtherInformation _ =>
              (* Not handling *)
              Some (mkValueQuery Status None None)
            end
        | None => mret (mkValueQuery STATUS_UNSUCCESSFUL None None)
        end;
      ObDereferenceObject KeyObject;;
      CmiCallRegisteredCallbacks RegNtPostEnumerateValueKey
        (REG_POST_OPERATION_INFORMATION KeyObject (vq_Status r));;
      mret r.

Definition NtQueryValueKey (KeyHandle : HANDLE) (ValueName : UNICODE_STRING)
    (KeyValueInformationClass : KEY_VALUE_INFORMATION_CLASS) (Length : ULONG)
    : M ValueQueryResult :=
  (* Verify that the handle is valid and is a registry key *)
  '(Status, KeyObject) ←
    ObReferenceObjectByHandle KeyHandle KEY_QUERY_VALUE ExGetPreviousMode;
  if negb (NT_SUCCESS Status) then mret (mkValueQuery Status None None) else
  Status ← CmiCallRegisteredCallbacks RegNtPreQueryValueKey
             (REG_QUERY_VALUE_KEY_INFORMATION KeyObject ValueName
                KeyValueInformationClass Length);
  if negb (NT_SUCCESS Status) then
    CmiCallRegisteredCallbacks RegNtPostQueryValueKey
      (REG_POST_OPERATION_INFORMATION KeyObject Status);;
    ObDereferenceObject KeyObject;;
    mret (mkValueQuery Status None None)
  else
    (* Get pointer to KeyCell *)
    o ← read_object KeyObject;
    KeyCell ← read_KeyCell o;
    RegistryHive ← read_hive (KeyObject.RegistryHive o);
    let h := RegHive.Hive RegistryHive in
    (* Get value cell by name *)
    let '(Status, ValueCellOffset) := CmiScanKeyForValue h KeyCell ValueName in
    r ←
      (if negb (NT_SUCCESS Status) then mret (mkValueQuery Status None None)
       else
         ValueCellOffset ← deref ValueCellOffset;
         ValueCell ← deref (get_value_cell h ValueCellOffset);
         deref
           match KeyValueInformationClass with
           | KeyValueBasicInformation =>
             value_basic_information ValueCell Length STATUS_SUCCESS
           | KeyValuePartialInformation =>
             value_partial_information h ValueCell Length STATUS_SUCCESS
           | KeyValueFullInformation =>
             value_full_information h ValueCell Length STATUS_SUCCESS
               NtQueryValueKey_clamp
           | KeyValueOtherInformation _ =>
             (* Not handling *)
             Some (mkValueQuery STATUS_INVALID_INFO_CLASS None None)
           end);
    CmiCallRegisteredCallbacks RegNtPostQueryValueKey
      (REG_POST_OPERATION_INFORMATION KeyObject (vq_Status r));;
    ObDereferenceObject KeyObject;;
    mret r.

(* ===================================================================== *)
(** ** NtDeleteValueKey and NtQueryMultipleValueKey                       *)
(* ===================================================================== *)

(** [ValueName] is the caller's pointer. *)
Definition NtDeleteValueKey (KeyHandle : HANDLE) (ValueName : Z) : M NTSTATUS :=
  let PreviousMode := ExGetPreviousMode in
  (* Verify that the handle is valid and is a registry key *)
  '(Status, KeyObject) ←
    ObReferenceObjectByHandle KeyHandle KEY_SET_VALUE PreviousMode;
  if negb (NT_SUCCESS Status) then mret Status else
  let '(Status, CapturedValueName) :=
    ProbeAndCaptureUnicodeString PreviousMode ValueName in
  if negb (NT_SUCCESS Status) then
    ObDereferenceObject KeyObject;;
    mret Status
  else
    (* FIXME - check if value exists before calling the callbacks? *)
    Status ← CmiCallRegisteredCallbacks RegNtPreDeleteValueKey
               (REG_DELETE_VALUE_KEY_INFORMATION KeyObject CapturedValueName);
    if negb (NT_SUCCESS Status) then
      CmiCallRegisteredCallbacks RegNtPostDeleteValueKey
        (REG_POST_OPERATION_INFORMATION KeyObject Status);;
      ObDereferenceObject KeyObject;;
      mret Status
    else
      o ← read_object KeyObject;
      KeyCell ← read_KeyCell o;
      RegistryHive ← read_hive (KeyObject.RegistryHive o);
      let '(Status, deleted) :=
        CmiDeleteValueFromKey (RegHive.Hive RegistryHive) KeyCell
          (KeyObject.KeyCellOffset o) (UserUnicodeString ValueName) in
      update_HHIVE (KeyObject.RegistryHive o) (fun _ => deleted);;
      KeyCell ← read_KeyCell o;
      write_KeyCell o (KeyNode.set_LastWriteTime KeQuerySystemTime KeyCell);;
      update_HHIVE (KeyObject.RegistryHive o)
        (fun h => HvMarkCellDirty h (KeyObject.KeyCellOffset o));;
      CmiCallRegisteredCallbacks RegNtPostDeleteValueKey
        (REG_POST_OPERATION_INFORMATION KeyObject Status);;
      ObDereferenceObject KeyObject;;
      CmiSyncHives;;
      mret Status.

(** The running state of the loop of [NtQueryMultipleValueKey]: the
    entries filled in so far, the data stored (address, bytes), the write
    cursor and the accounted length. *)
Record MultipleValueState := mkMultiple {
  mv_Status : NTSTATUS;
  mv_ValueList : list KEY_VALUE_ENTRY;
  mv_Stores : list (Z * list UCHAR);
  mv_DataPtr : Z;
  mv_BufferLength : ULONG
}.

(** Iterations [i, i + count) of the loop; [None] is a fault. *)
Fixpoint NtQueryMultipleValueKey_loop (h : HHIVE) (KeyCell : CM_KEY_NODE)
    (Buffer : Z) (Length : ULONG) (i : nat) (count : nat)
    (s : MultipleValueState) : option MultipleValueState :=
  match count with
  | O => Some s
  | S count' =>
    entry ← mv_ValueList s !! i;
    (* Get Value block of interest *)
    let '(Status, ValueCellOffset) := CmiScanKeyForValue h KeyCell (ValueName entry) in
    if negb (NT_SUCCESS Status)
    then Some (mkMultiple Status (mv_ValueList s) (mv_Stores s) (mv_DataPtr s)
                 (mv_BufferLength s))
    else
      match ValueCellOffset with
      | None =>
        Some (mkMultiple STATUS_OBJECT_NAME_NOT_FOUND (mv_ValueList s)
                (mv_Stores s) (mv_DataPtr s) (mv_BufferLength s))
      | Some ValueCellOffset =>
        ValueCell ← get_value_cell h ValueCellOffset;
        let size := Z.land (KeyValue.DataSize ValueCell) REG_DATA_SIZE_MASK in
        let BufferLength := ROUND_UP (mv_BufferLength s) sizeof_PVOID in
        next ←
          (if to_ULONG (BufferLength + size) <=? Length then
             let DataPtr := ROUND_UP (mv_DataPtr s) sizeof_PVOID in
             bytes ← copy_value_data h ValueCell size;
             Some (mkMultiple Status
                     (<[i := mkValueEntry (ValueName entry) size
                               (to_ULONG (DataPtr - Buffer))
                               (KeyValue.DataType ValueCell)]> (mv_ValueList s))
                     (mv_Stores s ++ [(DataPtr, bytes)])
                     (to_ULONG (DataPtr + size))
                     (to_ULONG (BufferLength + size)))
           else
             Some (mkMultiple STATUS_BUFFER_TOO_SMALL (mv_ValueList s)
                     (mv_Stores s) (mv_DataPtr s)
                     (to_ULONG (BufferLength + size))));
        NtQueryMultipleValueKey_loop h KeyCell Buffer Length (S i) count' next
      end
  end.

(** Status, the entries and buffer stores, and the values stored to
    [*Length] and [*ReturnLength]. *)
Record MultipleValueResult := mkMultipleResult {
  mr_Status : NTSTATUS;
  mr_ValueList : list KEY_VALUE_ENTRY;
  mr_Stores : list (Z * list UCHAR);
  mr_Length : option ULONG;
  mr_ReturnLength : option ULONG
}.

(** [Buffer] is the address of the caller's buffer, [Length] the value of
    [*Length] on entry. *)
Definition NtQueryMultipleValueKey (KeyHandle : HANDLE)
    (ValueList : list KEY_VALUE_ENTRY) (NumberOfValues : ULONG) (Buffer : Z)
    (Length : ULONG) : M MultipleValueResult :=
  (* Verify that the handle is valid and is a registry key *)
  '(Status, KeyObject) ←
    ObReferenceObjectByHandle KeyHandle KEY_QUERY_VALUE ExGetPreviousMode;
  if negb (NT_SUCCESS Status)
  then mret (mkMultipleResult Status ValueList [] None None) else
  Status ← CmiCallRegisteredCallbacks RegNtPreQueryMultipleValueKey
             (REG_QUERY_MULTIPLE_VALUE_KEY_INFORMATION KeyObject ValueList
                NumberOfValues Length);
  if negb (NT_SUCCESS Status) then
    CmiCallRegisteredCallbacks RegNtPostQueryMultipleValueKey
      (REG_POST_OPERATION_INFORMATION KeyObject Status);;
    ObDereferenceObject KeyObject;;
    mret (mkMultipleResult Status ValueList [] None None)
  else
    (* Get pointer to KeyCell *)
    o ← read_object KeyObject;
    KeyCell ← read_KeyCell o;
    RegistryHive ← read_hive (KeyObject.RegistryHive o);
    s ← deref (NtQueryMultipleValueKey_loop (RegHive.Hive RegistryHive) KeyCell
                 Buffer Length 0 (Z.to_nat NumberOfValues)
                 (mkMultiple Status ValueList [] Buffer 0));
    CmiCallRegisteredCallbacks RegNtPostQueryMultipleValueKey
      (REG_POST_OPERATION_INFORMATION KeyObject (mv_Status s));;
    ObDereferenceObject KeyObject;;
    mret (mkMultipleResult (mv_Status s) (mv_ValueList s) (mv_Stores s)
            (if NT_SUCCESS (mv_Status s) then Some (mv_BufferLength s) else None)
            (Some (mv_BufferLength s))).

End Model.

(* ===================================================================== *)
(** * The vocabulary of the properties                                    *)
(* ===================================================================== *)

(** ** The callback list *)

(** Every entry linked into the callback list is an allocated block. *)
Definition callback_list_ok (st : Registry) : Prop :=
  Forall (fun p => is_Some (CallbackPool st !! p)) (CmiCallbackHead st).

(** An entry that a walk invokes: not pending delete, rundown not begun. *)
Definition invocable (pool : gmap Z REGISTRY_CALLBACK) (p : Z) : bool :=
  match pool !! p with
  | Some cb =>
    negb (Callback.PendingDelete cb)
    && negb (RundownActive (Callback.RundownRef cb))
  | None => false
  end.

(** The event of one invocation at a given notification point. *)
Definition is_invocation (Argument1 : REG_NOTIFY_CLASS)
    (Argument2 : REG_INFORMATION) (e : Event) : Prop :=
  exists p s, e = EvCallback p Argument1 Argument2 s.

(** Cookies identify entries: two linked entries with the same cookie are
    the same entry. *)
Definition cookies_unique (st : Registry) : Prop :=
  forall p q cb cb',
    p ∈ CmiCallbackHead st -> q ∈ CmiCallbackHead st ->
    CallbackPool st !! p = Some cb -> CallbackPool st !! q = Some cb' ->
    Callback.Cookie cb = Callback.Cookie cb' -> p = q.

(** ** Key cells and handles *)

(** The key cell has the subkeys [keys], in this order, in one storage
    class: the count of the class is their number and, unless there are
    none, the list of the class is a hash table whose entries name them. *)
Definition subkeys (h : HHIVE) (KeyCell : CM_KEY_NODE) (Storage : HV_STORAGE_TYPE)
    (keys : list CM_KEY_NODE) : Prop :=
  at_storage (KeyNode.SubKeyCounts KeyCell) Storage = Z.of_nat (length keys) /\
  (keys <> [] ->
   at_storage (KeyNode.SubKeyLists KeyCell) Storage <> HCELL_NULL /\
   exists Table,
     get_hash_table h (at_storage (KeyNode.SubKeyLists KeyCell) Storage)
       = Some Table /\
     Forall2 (fun r c => get_key_cell h (KeyOffset r) = Some c) Table keys).

(** The call stores no handle: [*KeyHandle] is untouched or holds the NULL
    that [ProbeAndZeroHandle] wrote, and no handle count has changed. *)
Definition no_handle_issued (r : KeyHandleResult) (st st' : Registry) : Prop :=
  (kh_KeyHandle r = None \/ kh_KeyHandle r = Some 0) /\
  forall p, KeyObject.HandleCount <$> Objects st' !! p
            = KeyObject.HandleCount <$> Objects st !! p.

(** The value cell has an out-of-line data cell: the test that opens the
    data part of [NtSetValueKey]. *)
Definition out_of_line (ValueCell : CM_KEY_VALUE) : bool :=
  negb (nonzero (Z.land (KeyValue.DataSize ValueCell) REG_DATA_IN_OFFSET))
  && negb (Z.land (KeyValue.DataSize ValueCell) REG_DATA_SIZE_MASK =? 0).

(** ** The calls that notify the callbacks *)

#[global] Instance M_fmap : FMap M := fun A B f m st =>
  match m st with
  | Some (a, st') => Some (f a, st')
  | None => None
  end.

(** A call of one of the entry points that notify the callbacks. *)
Inductive DispatcherCall :=
| CallCreateKey (KeyHandle : Z) (DesiredAccess : ACCESS_MASK)
    (ObjectAttributes : Z) (TitleIndex : ULONG) (ClassPointer : Z)
    (CreateOptions : ULONG) (Disposition : Z)
| CallOpenKey (KeyHandle : Z) (DesiredAccess : ACCESS_MASK) (ObjectAttributes : Z)
| CallDeleteKey (KeyHandle : HANDLE)
| CallEnumerateKey (KeyHandle : HANDLE) (Index : ULONG)
    (KeyInformationClass : KEY_INFORMATION_CLASS) (Length : ULONG)
| CallEnumerateValueKey (KeyHandle : HANDLE) (Index : ULONG)
    (KeyValueInformationClass : KEY_VALUE_INFORMATION_CLASS) (Length : ULONG)
| CallQueryKey (KeyHandle : HANDLE)
    (KeyInformationClass : KEY_INFORMATION_CLASS) (Length : ULONG)
| CallQueryValueKey (KeyHandle : HANDLE) (ValueName : UNICODE_STRING)
    (KeyValueInformationClass : KEY_VALUE_INFORMATION_CLASS) (Length : ULONG)
| CallSetValueKey (KeyHandle : HANDLE) (ValueName : UNICODE_STRING)
    (TitleIndex : ULONG) (Type_ : ULONG) (Data : list UCHAR) (DataSize : ULONG)
| CallDeleteValueKey (KeyHandle : HANDLE) (ValueName : Z)
| CallQueryMultipleValueKey (KeyHandle : HANDLE)
    (ValueList : list KEY_VALUE_ENTRY) (NumberOfValues : ULONG) (Buffer : Z)
    (Length : ULONG)
| CallSetInformationKey (KeyHandle : HANDLE)
    (KeyInformationClass : KEY_SET_INFORMATION_CLASS)
    (KeyInformation : LARGE_INTEGER) (KeyInformationLength : ULONG).

(** The two notifications of a call: the pre-callback with its argument,
    and the post-callback with its argument for a given status. *)
Record Notification := mkNotification {
  n_Pre : REG_NOTIFY_CLASS;
  n_PreInfo : REG_INFORMATION;
  n_Post : REG_NOTIFY_CLASS;
  n_PostInfo : NTSTATUS -> REG_INFORMATION
}.

Section Dispatch.
Context `{Externals}.

(** The status that the call returns. *)
Definition dispatch (c : DispatcherCall) : M NTSTATUS :=
  match c with
  | CallCreateKey KeyHandle DesiredAccess ObjectAttributes TitleIndex
      ClassPointer CreateOptions Disposition =>
    kh_Status <$> NtCreateKey KeyHandle DesiredAccess ObjectAttributes
                    TitleIndex ClassPointer CreateOptions Disposition
  | CallOpenKey KeyHandle DesiredAccess ObjectAttributes =>
    kh_Status <$> NtOpenKey KeyHandle DesiredAccess ObjectAttributes
  | CallDeleteKey KeyHandle => NtDeleteKey KeyHandle
  | CallEnumerateKey KeyHandle Index KeyInformationClass Length =>
    kq_Status <$> NtEnumerateKey KeyHandle Index KeyInformationClass Length
  | CallEnumerateValueKey KeyHandle Index KeyValueInformationClass Length =>
    vq_Status <$> NtEnumerateValueKey KeyHandle Index KeyValueInformationClass
                    Length
  | CallQueryKey KeyHandle KeyInformationClass Length =>
    kq_Status <$> NtQueryKey KeyHandle KeyInformationClass Length
  | CallQueryValueKey KeyHandle ValueName KeyValueInformationClass Length =>
    vq_Status <$> NtQueryValueKey KeyHandle ValueName KeyValueInformationClass
                    Length
  | CallSetValueKey KeyHandle ValueName TitleIndex Type_ Data DataSize =>
    NtSetValueKey KeyHandle ValueName TitleIndex Type_ Data DataSize
  | CallDeleteValueKey KeyHandle ValueName => NtDeleteValueKey KeyHandle ValueName
  | CallQueryMultipleValueKey KeyHandle ValueList NumberOfValues Buffer Length =>
    mr_Status <$> NtQueryMultipleValueKey KeyHandle ValueList NumberOfValues
                    Buffer Length
  | CallSetInformationKey KeyHandle KeyInformationClass KeyInformation
      KeyInformationLength =>
    NtSetInformationKey KeyHandle KeyInformationClass KeyInformation
      KeyInformationLength
  end.

(** The notifications of a call on a handle: the handle resolves, for the
    access the entry point asks for, to a key object in memory. *)
Definition on_handle (st : Registry) (KeyHandle : HANDLE)
    (DesiredAccess : ACCESS_MASK) (Pre Post : REG_NOTIFY_CLASS)
    (PreInfo : Z -> REG_INFORMATION) : option Notification :=
  let '(Status, KeyObject) :=
    ObReferenceObjectByHandle_lookup KeyHandle DesiredAccess ExGetPreviousMode in
  if NT_SUCCESS Status && bool_decide (is_Some (Objects st !! KeyObject))
  then Some (mkNotification Pre (PreInfo KeyObject) Post
               (REG_POST_OPERATION_INFORMATION KeyObject))
  else None.

(** The notifications that a call makes once its arguments are captured;
    [None] when the call ends before it reaches its pre-callback (a handle
    that does not resolve, a probe or a capture that fails). *)
Definition notifications (c : DispatcherCall) (st : Registry)
    : option Notification :=
  match c with
  | CallCreateKey KeyHandle DesiredAccess ObjectAttributes TitleIndex
      ClassPointer CreateOptions Disposition =>
    let probed :=
      match ExGetPreviousMode with
      | KernelMode => true
      | UserMode =>
        NT_SUCCESS (Probe_status KeyHandle)
        && ((Disposition =? 0) || NT_SUCCESS (Probe_status Disposition))
      end in
    let class_captured :=
      (ClassPointer =? 0)
      || NT_SUCCESS (ProbeAndCaptureUnicodeString ExGetPreviousMode ClassPointer).1 in
    let '(Status, _, ObjectName) :=
      ObpCaptureObjectAttributes ObjectAttributes ExGetPreviousMode in
    if probed && class_captured && NT_SUCCESS Status
    then Some (mkNotification RegNtPreCreateKey
                 (REG_PRE_CREATE_KEY_INFORMATION ObjectName) RegNtPostCreateKey
                 (REG_POST_CREATE_KEY_INFORMATION ObjectName 0))
    else None
  | CallOpenKey KeyHandle DesiredAccess ObjectAttributes =>
    let probed :=
      match ExGetPreviousMode with
      | KernelMode => true
      | UserMode => NT_SUCCESS (Probe_status KeyHandle)
      end in
    let '(Status, _, Captured) :=
      ObpCaptureObjectAttributes ObjectAttributes ExGetPreviousMode in
    if negb (KeyHandle =? 0) && probed && NT_SUCCESS Status
    then
      match NtOpenKey_ObjectName Captured with
      | Some ObjectName =>
        Some (mkNotification RegNtPreOpenKey
                (REG_PRE_OPEN_KEY_INFORMATION ObjectName) RegNtPostOpenKey
                (REG_POST_OPEN_KEY_INFORMATION ObjectName 0))
      | None => None
      end
    else None
  | CallDeleteKey KeyHandle =>
    on_handle st KeyHandle DELETE RegNtPreDeleteKey RegNtPostDeleteKey
      REG_DELETE_KEY_INFORMATION
  | CallEnumerateKey KeyHandle Index KeyInformationClass Length =>
    on_handle st KeyHandle KEY_ENUMERATE_SUB_KEYS RegNtPreEnumerateKey
      RegNtPostEnumerateKey
      (fun KeyObject =>
         REG_ENUMERATE_KEY_INFORMATION KeyObject Index KeyInformationClass Length)
  | CallEnumerateValueKey KeyHandle Index KeyValueInformationClass Length =>
    on_handle st KeyHandle KEY_QUERY_VALUE RegNtPreEnumerateValueKey
      RegNtPostEnumerateValueKey
      (fun KeyObject =>
         REG_ENUMERATE_VALUE_KEY_INFORMATION KeyObject Index
           KeyValueInformationClass Length)
  | CallQueryKey KeyHandle KeyInformationClass Length =>
    on_handle st KeyHandle
      (match KeyInformationClass with
       | KeyNameInformation => 0
       | _ => KEY_QUERY_VALUE
       end) RegNtPreQueryKey RegNtPostQueryKey
      (fun KeyObject =>
         REG_QUERY_KEY_INFORMATION KeyObject KeyInformationClass Length)
  | CallQueryValueKey KeyHandle ValueName KeyValueInformationClass Length =>
    on_handle st KeyHandle KEY_QUERY_VALUE RegNtPreQueryValueKey
      RegNtPostQueryValueKey
      (fun KeyObject =>
         REG_QUERY_VALUE_KEY_INFORMATION KeyObject ValueName
           KeyValueInformationClass Length)
  | CallSetValueKey KeyHandle ValueName TitleIndex Type_ Data DataSize =>
    on_handle st KeyHandle KEY_SET_VALUE RegNtPreSetValueKey RegNtPostSetValueKey
      (fun KeyObject =>
         REG_SET_VALUE_KEY_INFORMATION KeyObject ValueName TitleIndex Type_ Data
           DataSize)
  | CallDeleteValueKey KeyHandle ValueName =>
    let '(Status, CapturedValueName) :=
      ProbeAndCaptureUnicodeString ExGetPreviousMode ValueName in
    if NT_SUCCESS Status
    then on_handle st KeyHandle KEY_SET_VALUE RegNtPreDeleteValueKey
           RegNtPostDeleteValueKey
           (fun KeyObject =>
              REG_DELETE_VALUE_KEY_INFORMATION KeyObject CapturedValueName)
    else None
  | CallQueryMultipleValueKey KeyHandle ValueList NumberOfValues Buffer Length =>
    on_handle st KeyHandle KEY_QUERY_VALUE RegNtPreQueryMultipleValueKey
      RegNtPostQueryMultipleValueKey
      (fun KeyObject =>
         REG_QUERY_MULTIPLE_VALUE_KEY_INFORMATION KeyObject ValueList
           NumberOfValues Length)
  | CallSetInformationKey KeyHandle KeyInformationClass KeyInformation
      KeyInformationLength =>
    on_handle st KeyHandle KEY_SET_VALUE RegNtPreSetInformationKey
      RegNtPostSetInformationKey
      (fun KeyObject =>
         REG_SET_INFORMATION_KEY_INFORMATION KeyObject KeyInformationClass
           KeyInformation KeyInformationLength)
  end.

End Dispatch.

(* ===================================================================== *)
(** ** A concrete registry                                                *)
(* ===================================================================== *)

Module Example.

(** [RtlpCreateUnicodeString] on a terminated source string: the counted
    string of the characters before the terminator, with the terminator in
    the buffer and not in [Length]. *)
Fixpoint wcslen (Source : list WCHAR) : nat :=
  match Source with
  | [] => O
  | c :: rest => if c =? 0 then O else S (wcslen rest)
  end.

Definition create_unicode_string (Source : list WCHAR) : UNICODE_STRING :=
  let Length := Z.of_nat (wcslen Source) * sizeof_WCHAR in
  US.mk Length (Length + sizeof_WCHAR) (Some (take (wcslen Source) Source ++ [0])).

(** A callback that vetoes value writes and lets everything else pass. *)
Definition veto_set_value : PEX_CALLBACK_FUNCTION := fun _ Argument1 _ =>
  match Argument1 with
  | RegNtPreSetValueKey => STATUS_ACCESS_DENIED
  | _ => STATUS_SUCCESS
  end.

(** A subkey cell without subkeys, values or class. *)
Definition leaf (Flags : Z) (Name : list UCHAR) : CM_KEY_NODE :=
  KeyNode.mk Flags 0 0x20 (mkPerStorage 0 0) (mkPerStorage HCELL_NULL HCELL_NULL)
    0 HCELL_NULL HCELL_NULL HCELL_NULL (Z.of_nat (length Name)) 0 Name.

Definition B : CM_KEY_NODE := leaf REG_KEY_NAME_PACKED [66].
Definition C : CM_KEY_NODE := leaf REG_KEY_NAME_PACKED [67].
Definition V : CM_KEY_NODE :=
  leaf (Z.lor REG_KEY_NAME_PACKED REG_KEY_VOLATILE_CELL) [86].

(** The key cell of key "A": two stable subkeys, one volatile subkey and
    one value. *)
Definition A : CM_KEY_NODE :=
  KeyNode.mk REG_KEY_NAME_PACKED 0 HCELL_NULL (mkPerStorage 2 1)
    (mkPerStorage 0x30 0x38) 1 0x48 HCELL_NULL HCELL_NULL 1 0 [65].

(** The value "n" of key "A": three bytes stored in the offset field. *)
Definition n : CM_KEY_VALUE :=
  KeyValue.mk 1 (Z.lor 3 REG_DATA_IN_OFFSET) 0x00030201 3 REG_VALUE_NAME_PACKED
    [110].

Definition cells : gmap Z HCELL :=
  list_to_map
    [ (0x20, mkHCELL (-80) HvStable (KeyCellData A));
      (0x30, mkHCELL (-16) HvStable
               (HashTableData [mkHashRecord 0x50 0; mkHashRecord 0x58 0]));
      (0x38, mkHCELL (-16) HvVolatile (HashTableData [mkHashRecord 0x60 0]));
      (0x40, mkHCELL (-32) HvStable (ValueCellData n));
      (0x48, mkHCELL (-8) HvStable (ValueListData [0x40]));
      (0x50, mkHCELL (-80) HvStable (KeyCellData B));
      (0x58, mkHCELL (-80) HvStable (KeyCellData C));
      (0x60, mkHCELL (-80) HvVolatile (KeyCellData V)) ].

Definition hive : EREGISTRY_HIVE := RegHive.mk (mkHHIVE cells ∅) 0.

(** The key object of "A" at address 100, its own parent, with one handle. *)
Definition key (Flags : ULONG) : KEY_OBJECT :=
  KeyObject.mk 2 1 Flags (US.mk 2 4 (Some [65; 0])) 200 0x20 100 0 0 [].

(** One registered callback, at address 500. *)
Definition callback : REGISTRY_CALLBACK :=
  Callback.mk ExInitializeRundownProtection veto_set_value 0 500 false.

Definition registry (Flags : ULONG) (cb : REGISTRY_CALLBACK) : Registry :=
  mkRegistry {[ 100 := key Flags ]} {[ 200 := hive ]} [100] [500]
    {[ 500 := cb ]} [].

(** The registry with key "A" open. *)
Definition st : Registry := registry 0 callback.

(** The same with key "A" marked for delete. *)
Definition st_marked : Registry := registry KO_MARKED_FOR_DELETE callback.

(** The registry with key "A" open and no callback registered. *)
Definition st_quiet : Registry :=
  mkRegistry {[ 100 := key 0 ]} {[ 200 := hive ]} [100] [] ∅ [].

(** The kernel around it: handle 4 is a handle to key "A", every walk ends
    at key "A", the hive allocator is exhausted, and flushing or saving a
    hive fails. *)
#[local] Instance kernel : Externals := {|
  ExGetPreviousMode := KernelMode;
  PsGetCurrentProcess := 1;
  PsInitialSystemProcess := 2;
  RtlMapGenericMask := fun m => m;
  ExCreateHandle := fun _ _ => 8;
  ObMarkHandleAsKernelHandle := fun h => h;
  ObReferenceObjectByHandle_lookup := fun Handle _ _ =>
    if Handle =? 4 then (STATUS_SUCCESS, 100) else (STATUS_INVALID_HANDLE, 0);
  ObpCaptureObjectAttributes := fun _ _ =>
    (STATUS_SUCCESS, mkCreateInfo 0 0, US.mk 2 4 (Some [65; 0]));
  ProbeAndCaptureUnicodeString := fun _ _ => (STATUS_SUCCESS, US.empty);
  UserUnicodeString := fun _ => US.empty;
  CmFindObject_walk := fun _ _ => (STATUS_SUCCESS, 100, US.empty);
  ObCreateObject_body := (STATUS_INSUFFICIENT_RESOURCES, 0);
  ObInsertObject_handle := fun _ _ => (STATUS_UNSUCCESSFUL, 0);
  Probe_status := fun _ => STATUS_SUCCESS;
  Store_status := fun _ => STATUS_SUCCESS;
  hKey_indeterminate := 0;
  ExAllocatePoolWithTag := 0;
  KeQuerySystemTime := 1000;
  RtlpCreateUnicodeString := create_unicode_string;
  wcsicmp := fun _ _ => 1;
  HvAllocateCell_choice := fun _ _ _ => (HCELL_NULL, 0);
  CmiScanKeyForValue := fun _ _ _ => (STATUS_SUCCESS, Some 0x40);
  CmiAddValueToKey := fun h _ _ _ => (STATUS_INSUFFICIENT_RESOURCES, h, None);
  CmiDeleteValueFromKey := fun h _ _ _ => (STATUS_OBJECT_NAME_NOT_FOUND, h);
  CmiGetValueFromKeyByIndex := fun _ _ _ => (STATUS_NO_MORE_ENTRIES, None);
  CmiGetNumberOfSubKeys := fun _ _ _ => 3;
  CmiGetMaxNameLength := fun _ _ _ => 2;
  CmiGetMaxClassLength := fun _ _ _ => 0;
  CmiGetMaxValueNameLength := fun _ _ => 0;
  CmiGetMaxValueDataLength := fun _ _ => 0;
  CmiFlushRegistryHive := fun h => (STATUS_UNSUCCESSFUL, h);
  CmiCreateTempHive := (STATUS_SUCCESS, 900, RegHive.mk (mkHHIVE ∅ ∅) HIVE_NO_FILE);
  CmiCopyKey := fun dst _ _ => (STATUS_SUCCESS, dst);
  CmiSaveTempHive := fun _ _ => STATUS_UNSUCCESSFUL;
  CmiAddSubKey := fun h _ _ _ _ _ => (STATUS_INSUFFICIENT_RESOURCES, h, HCELL_NULL);
  CmiAddKeyToList := fun parent _ => parent
|}.

End Example.

(* ===================================================================== *)
(** * More vocabulary: the callback list over time                        *)
(* ===================================================================== *)

(** The invocations of one walk of the callback list, computed from the
    list and the pool: the entries that are neither pending delete nor in
    rundown, in list order, up to and including the first one whose
    function answers a failure. *)
Fixpoint walk_invocations (pool : gmap Z REGISTRY_CALLBACK) (entries : list Z)
    (Argument1 : REG_NOTIFY_CLASS) (Argument2 : REG_INFORMATION) : list Event :=
  match entries with
  | [] => []
  | p :: rest =>
    match pool !! p with
    | Some cb =>
      if negb (Callback.PendingDelete cb)
         && negb (RundownActive (Callback.RundownRef cb))
      then
        let s := Callback.Function cb (Callback.Context cb) Argument1 Argument2 in
        EvCallback p Argument1 Argument2 s
          :: (if NT_SUCCESS s
              then walk_invocations pool rest Argument1 Argument2 else [])
      else walk_invocations pool rest Argument1 Argument2
    | None => walk_invocations pool rest Argument1 Argument2
    end
  end.

(** The status a walk answers after these invocations: that of the last
    one, [s0] when there was none. *)
Definition walk_status (s0 : NTSTATUS) (invocations : list Event) : NTSTATUS :=
  fold_left (fun s e => match e with EvCallback _ _ _ s' => s' | _ => s end)
    invocations s0.

(** The cookie of every linked entry is the address of its block, as
    [CmRegisterCallback] makes it. *)
Definition cookies_are_addresses (st : Registry) : Prop :=
  forall p cb,
    p ∈ CmiCallbackHead st -> CallbackPool st !! p = Some cb ->
    Callback.Cookie cb = p.

(** The invariant of the callback list: every linked entry is an allocated
    block whose cookie is its own address. *)
Definition callback_list_inv (st : Registry) : Prop :=
  callback_list_ok st /\ cookies_are_addresses st.

Section EntryConditions.
Context `{Externals}.

(** [NtCreateKey] reaches the walk: the probes, the captures
    and the pre-callback succeed. *)
Definition NtCreateKey_entry (st : Registry) (KeyHandle ObjectAttributes Class
    Disposition : Z) (ObjectCreateInfo : OBJECT_CREATE_INFORMATION)
    (ObjectName : UNICODE_STRING) : Prop :=
  match ExGetPreviousMode with
  | KernelMode => True
  | UserMode =>
    NT_SUCCESS (Probe_status KeyHandle) = true /\
    (Disposition <> 0 -> NT_SUCCESS (Probe_status Disposition) = true)
  end /\
  (Class <> 0 ->
   NT_SUCCESS (ProbeAndCaptureUnicodeString ExGetPreviousMode Class).1 = true) /\
  (exists scapture,
     ObpCaptureObjectAttributes ObjectAttributes ExGetPreviousMode
       = (scapture, ObjectCreateInfo, ObjectName) /\
     NT_SUCCESS scapture = true) /\
  (exists spre,
     fst <$> CmiCallRegisteredCallbacks RegNtPreCreateKey
               (REG_PRE_CREATE_KEY_INFORMATION ObjectName) st = Some spre /\
     NT_SUCCESS spre = true).

End EntryConditions.

(* ===================================================================== *)
(** * More vocabulary: caller buffers                                     *)
(* ===================================================================== *)

(** The fixed header and the required total of a key information class,
    for a name of [NameSize] bytes and a class name of [ClassSize] bytes;
    [None] for the classes without a layout in ntfunc.c. *)
Definition key_information_sizes (cls : KEY_INFORMATION_CLASS)
    (NameSize ClassSize : Z) : option (Z * Z) :=
  match cls with
  | KeyBasicInformation =>
    Some (KEY_BASIC_INFORMATION_Name, KEY_BASIC_INFORMATION_Name + NameSize)
  | KeyNodeInformation =>
    Some (KEY_NODE_INFORMATION_Name,
          KEY_NODE_INFORMATION_Name + NameSize + ClassSize)
  | KeyFullInformation =>
    Some (KEY_FULL_INFORMATION_Class, KEY_FULL_INFORMATION_Class + ClassSize)
  | _ => None
  end.

(** The status that goes with a buffer of [Length] bytes. *)
Definition buffer_shape_status (Length header required : Z) : NTSTATUS :=
  if Length <? header then STATUS_BUFFER_TOO_SMALL
  else if Length <? required then STATUS_BUFFER_OVERFLOW
  else STATUS_SUCCESS.

(** The name of a key cell in bytes of UTF-16. *)
Definition key_NameSize (Cell : CM_KEY_NODE) : Z :=
  if nonzero (Z.land (KeyNode.Flags Cell) REG_KEY_NAME_PACKED)
  then KeyNode.NameSize Cell * sizeof_WCHAR
  else KeyNode.NameSize Cell.

(** A key cell whose name and class name are stored in full. *)
Definition key_cell_stored (h : HHIVE) (Cell : CM_KEY_NODE) : Prop :=
  Z.of_nat (length (KeyNode.Name Cell)) = KeyNode.NameSize Cell /\
  0 <= KeyNode.ClassSize Cell /\
  (KeyNode.ClassSize Cell <> 0 ->
   exists bytes,
     get_raw_cell h (KeyNode.ClassNameOffset Cell) = Some bytes /\
     KeyNode.ClassSize Cell <= Z.of_nat (length bytes)).

(** The data length of a value cell: the low 31 bits of its size word. *)
Definition value_DataSize (ValueCell : CM_KEY_VALUE) : Z :=
  Z.land (KeyValue.DataSize ValueCell) REG_DATA_SIZE_MASK.

(** A value cell whose data is stored in full: in the offset field when
    [REG_DATA_IN_OFFSET] is set, in its data cell otherwise. *)
Definition value_data_stored (h : HHIVE) (ValueCell : CM_KEY_VALUE) : Prop :=
  if nonzero (Z.land (KeyValue.DataSize ValueCell) REG_DATA_IN_OFFSET)
  then value_DataSize ValueCell <= sizeof_HCELL_INDEX
  else exists bytes,
         get_raw_cell h (KeyValue.DataOffset ValueCell) = Some bytes /\
         value_DataSize ValueCell <= Z.of_nat (length bytes).

(** A value cell whose name is stored in full. *)
Definition value_name_stored (ValueCell : CM_KEY_VALUE) : Prop :=
  Z.of_nat (length (KeyValue.Name ValueCell)) = KeyValue.NameSize ValueCell /\
  KeyValue.NameSize ValueCell < 2 ^ 16.

(** ** The buffer of [NtQueryMultipleValueKey] *)

(** The next multiple of [sizeof(PVOID)]. *)
Definition pointer_aligned (n : Z) : Z := (n + 3) / 4 * 4.

(** The length accounted for the values of [cells] after [acc] bytes: each
    value starts at the next aligned offset. *)
Fixpoint required_length (acc : Z) (cells : list CM_KEY_VALUE) : Z :=
  match cells with
  | [] => acc
  | c :: cells => required_length (pointer_aligned acc + value_DataSize c) cells
  end.

(** The entries of the value list once every value has been stored. *)
Fixpoint value_entries (acc : Z) (entries : list KEY_VALUE_ENTRY)
    (cells : list CM_KEY_VALUE) : list KEY_VALUE_ENTRY :=
  match entries, cells with
  | e :: entries, c :: cells =>
    mkValueEntry (ValueName e) (value_DataSize c) (pointer_aligned acc)
      (KeyValue.DataType c)
    :: value_entries (pointer_aligned acc + value_DataSize c) entries cells
  | _, _ => []
  end.

(** The data of a value cell. *)
Definition value_data (h : HHIVE) (c : CM_KEY_VALUE) : list UCHAR :=
  default [] (copy_value_data h c (value_DataSize c)).

(** The stores into the buffer at [Buffer]: address and bytes. *)
Fixpoint value_stores (h : HHIVE) (Buffer acc : Z) (cells : list CM_KEY_VALUE)
    : list (Z * list UCHAR) :=
  match cells with
  | [] => []
  | c :: cells =>
    (Buffer + pointer_aligned acc, value_data h c)
    :: value_stores h Buffer (pointer_aligned acc + value_DataSize c) cells
  end.

Section MultipleValues.
Context `{Externals}.

(** The value named by an entry of the value list is in the key, with its
    data stored in full. *)
Definition value_found (h : HHIVE) (KeyCell : CM_KEY_NODE)
    (e : KEY_VALUE_ENTRY) (c : CM_KEY_VALUE) : Prop :=
  exists Status ValueCellOffset,
    CmiScanKeyForValue h KeyCell (ValueName e) = (Status, Some ValueCellOffset) /\
    NT_SUCCESS Status = true /\
    get_value_cell h ValueCellOffset = Some c /\
    value_data_stored h c.

End MultipleValues.

(* ===================================================================== *)
(** * A second kernel                                                     *)
(* ===================================================================== *)

Module Scenario.

(** A callback that lets every operation pass. *)
Definition observer : PEX_CALLBACK_FUNCTION := fun _ _ _ => STATUS_SUCCESS.

(** The value "m": eight bytes in the data cell at 0x70. *)
Definition m : CM_KEY_VALUE :=
  KeyValue.mk 1 8 0x70 3 REG_VALUE_NAME_PACKED [109].

(** The hive of the example with the value "m" and its data cell. *)
Definition cells : gmap Z HCELL :=
  <[0x68 := mkHCELL (-32) HvStable (ValueCellData m)]>
    (<[0x70 := mkHCELL (-16) HvStable (RawData [11; 12; 13; 14; 15; 16; 17; 18])]>
       Example.cells).

Definition hive : EREGISTRY_HIVE := RegHive.mk (mkHHIVE cells ∅) 0.

(** The key cell that [CmiAddSubKey] makes for the new key "N". *)
Definition N : CM_KEY_NODE := Example.leaf REG_KEY_NAME_PACKED [78].

Definition callback : REGISTRY_CALLBACK :=
  Callback.mk ExInitializeRundownProtection observer 7 500 false.

(** Key "A" open, one callback registered. *)
Definition st : Registry :=
  mkRegistry {[ 100 := Example.key 0 ]} {[ 200 := hive ]} [100] [500]
    {[ 500 := callback ]} [].

(** The names behind the object attributes 1, 2 and 3, and another one. *)
Definition name (ObjectAttributes : Z) : UNICODE_STRING :=
  if ObjectAttributes =? 1 then US.mk 2 4 (Some [65; 0])
  else if ObjectAttributes =? 2
  then US.mk 10 12 (Some [65; 92; 66; 92; 67; 0])
  else if ObjectAttributes =? 3 then US.mk 6 8 (Some [65; 92; 78; 0])
  else US.mk 2 4 (Some [88; 0]).

(** The kernel: calls come from user mode, the allocators deliver, the
    walk ends at key "A" and leaves what follows "A" in the name,
    [CmiAddSubKey] makes the key cell at 0x90, and copying a key fails. *)
#[local] Instance kernel : Externals := {|
  ExGetPreviousMode := UserMode;
  PsGetCurrentProcess := 1;
  PsInitialSystemProcess := 2;
  RtlMapGenericMask := fun m => m;
  ExCreateHandle := fun _ _ => 12;
  ObMarkHandleAsKernelHandle := fun h => h;
  ObReferenceObjectByHandle_lookup := fun Handle _ _ =>
    if Handle =? 4 then (STATUS_SUCCESS, 100) else (STATUS_INVALID_HANDLE, 0);
  ObpCaptureObjectAttributes := fun ObjectAttributes _ =>
    (STATUS_SUCCESS, mkCreateInfo 0 0, name ObjectAttributes);
  ProbeAndCaptureUnicodeString := fun _ _ => (STATUS_SUCCESS, US.empty);
  UserUnicodeString := fun _ => US.empty;
  CmFindObject_walk := fun _ ObjectName =>
    match US.Buffer ObjectName with
    | Some (65 :: 92 :: rest) =>
      (STATUS_SUCCESS, 100,
       US.mk (US.Length ObjectName - 2) (US.MaximumLength ObjectName - 2)
         (Some (92 :: rest)))
    | Some (65 :: _) => (STATUS_SUCCESS, 100, US.empty)
    | _ => (STATUS_OBJECT_NAME_NOT_FOUND, 0, US.empty)
    end;
  ObCreateObject_body := (STATUS_SUCCESS, 300);
  ObInsertObject_handle := fun _ _ => (STATUS_SUCCESS, 16);
  Probe_status := fun _ => STATUS_SUCCESS;
  Store_status := fun _ => STATUS_SUCCESS;
  hKey_indeterminate := 0;
  ExAllocatePoolWithTag := 600;
  KeQuerySystemTime := 2000;
  RtlpCreateUnicodeString := Example.create_unicode_string;
  wcsicmp := fun _ _ => 0;
  HvAllocateCell_choice := fun _ _ _ => (0x80, -16);
  CmiScanKeyForValue := fun _ _ ValueName =>
    match US.Buffer ValueName with
    | Some (110 :: _) => (STATUS_SUCCESS, Some 0x40)
    | Some (109 :: _) => (STATUS_SUCCESS, Some 0x68)
    | _ => (STATUS_OBJECT_NAME_NOT_FOUND, None)
    end;
  CmiAddValueToKey := fun h _ _ _ => (STATUS_INSUFFICIENT_RESOURCES, h, None);
  CmiDeleteValueFromKey := fun h _ _ _ => (STATUS_OBJECT_NAME_NOT_FOUND, h);
  CmiGetValueFromKeyByIndex := fun _ _ Index =>
    if Index =? 0 then (STATUS_SUCCESS, Some 0x40)
    else if Index =? 1 then (STATUS_SUCCESS, Some 0x68)
    else (STATUS_NO_MORE_ENTRIES, None);
  CmiGetNumberOfSubKeys := fun _ _ _ => 3;
  CmiGetMaxNameLength := fun _ _ _ => 2;
  CmiGetMaxClassLength := fun _ _ _ => 0;
  CmiGetMaxValueNameLength := fun _ _ => 2;
  CmiGetMaxValueDataLength := fun _ _ => 8;
  CmiFlushRegistryHive := fun h => (STATUS_SUCCESS, h);
  CmiCreateTempHive := (STATUS_SUCCESS, 900, RegHive.mk (mkHHIVE ∅ ∅) HIVE_NO_FILE);
  CmiCopyKey := fun dst _ _ => (STATUS_INSUFFICIENT_RESOURCES, dst);
  CmiSaveTempHive := fun _ _ => STATUS_SUCCESS;
  CmiAddSubKey := fun h _ _ _ _ _ =>
    (STATUS_SUCCESS,
     RegHive.set_Hive
       (mkHHIVE (<[0x90 := mkHCELL (-80) HvStable (KeyCellData N)]>
                   (Cells (RegHive.Hive h)))
          (DirtyVector (RegHive.Hive h))) h,
     0x90);
  CmiAddKeyToList := fun parent child =>
    KeyObject.mk (KeyObject.PointerCount parent) (KeyObject.HandleCount parent)
      (KeyObject.Flags parent) (KeyObject.Name parent)
      (KeyObject.RegistryHive parent) (KeyObject.KeyCellOffset parent)
      (KeyObject.ParentKey parent) (KeyObject.SubKeyCounts parent + 1)
      (KeyObject.SizeOfSubKeys parent) (KeyObject.SubKeys parent ++ [child])
|}.

End Scenario.

(* ===================================================================== *)
(** * NtInitializeRegistry                                                *)
(* ===================================================================== *)

(** What the call does outside ntfunc.c. *)
Inductive InitEvent :=
| EvSaveBootLogToFile
| EvInitHives (SetUpBoot : bool).

(** The flag [CmiRegistryInitialized] of ntfunc.c and the calls made. *)
Record InitState := mkInitState {
  CmiRegistryInitialized : bool;
  InitTrace : list InitEvent
}.

Section Initialization.
(** The status of [CmiInitHives] for a value of [SetUpBoot]. *)
Variable CmiInitHives : bool -> NTSTATUS.

Definition NtInitializeRegistry (SetUpBoot : bool) (s : InitState)
    : NTSTATUS * InitState :=
  if CmiRegistryInitialized s then (STATUS_ACCESS_DENIED, s)
  else
    (* Save boot log file *)
    let trace := InitTrace s ++ [EvSaveBootLogToFile] in
    let Status := CmiInitHives SetUpBoot in
    (Status, mkInitState true (trace ++ [EvInitHives SetUpBoot])).

(** A sequence of calls: the statuses returned and the final state. *)
Fixpoint NtInitializeRegistry_calls (flags : list bool) (s : InitState)
    : list NTSTATUS * InitState :=
  match flags with
  | [] => ([], s)
  | SetUpBoot :: flags =>
    let '(Status, s) := NtInitializeRegistry SetUpBoot s in
    let '(rest, s) := NtInitializeRegistry_calls flags s in
    (Status :: rest, s)
  end.

End Initialization.

(* ===================================================================== *)
(** * Properties                                                          *)
(* ===================================================================== *)

(** ** Running the monad *)

Lemma bind_run {A B} (m : M A) (k : A -> M B) (st st' : Registry) (a : A) :
  m st = Some (a, st') -> (m ≫= k) st = k a st'.
Proof. intros E. unfold mbind, M_bind. by rewrite E. Qed.

Lemma read_object_run (p : Z) (o : KEY_OBJECT) (st : Registry) :
  Objects st !! p = Some o -> read_object p st = Some (o, st).
Proof. intros E. unfold read_object, mbind, M_bind, get_state. by rewrite E. Qed.

Lemma read_hive_run (p : Z) (h : EREGISTRY_HIVE) (st : Registry) :
  Hives st !! p = Some h -> read_hive p st = Some (h, st).
Proof. intros E. unfold read_hive, mbind, M_bind, get_state. by rewrite E. Qed.

Lemma read_KeyCell_run (o : KEY_OBJECT) (h : EREGISTRY_HIVE) (k : CM_KEY_NODE)
    (st : Registry) :
  Hives st !! KeyObject.RegistryHive o = Some h ->
  get_key_cell (RegHive.Hive h) (KeyObject.KeyCellOffset o) = Some k ->
  read_KeyCell o st = Some (k, st).
Proof.
  intros Eh Ek. unfold read_KeyCell.
  rewrite (bind_run _ _ _ _ _ (read_hive_run _ _ _ Eh)). by rewrite Ek.
Qed.

Lemma ObReferenceObject_run (p : Z) (o : KEY_OBJECT) (st : Registry) :
  Objects st !! p = Some o ->
  ObReferenceObject p st =
    Some (tt, set_Objects
                (<[p := KeyObject.set_PointerCount (KeyObject.PointerCount o + 1) o]>
                   (Objects st)) st).
Proof.
  intros E. unfold ObReferenceObject.
  by rewrite (bind_run _ _ _ _ _ (read_object_run _ _ _ E)).
Qed.

Lemma ObDereferenceObject_run (p : Z) (o : KEY_OBJECT) (st : Registry) :
  Objects st !! p = Some o ->
  ObDereferenceObject p st =
    Some (tt, set_Objects
                (<[p := KeyObject.set_PointerCount (KeyObject.PointerCount o - 1) o]>
                   (Objects st)) st).
Proof.
  intros E. unfold ObDereferenceObject.
  by rewrite (bind_run _ _ _ _ _ (read_object_run _ _ _ E)).
Qed.

Section HandleLemmas.
Context `{Externals}.

(** A handle that resolves: the call holds one more reference. *)
Lemma ObReferenceObjectByHandle_run (Handle : HANDLE) (Access : ACCESS_MASK)
    (Mode : KPROCESSOR_MODE) (s : NTSTATUS) (p : Z) (o : KEY_OBJECT)
    (st : Registry) :
  ObReferenceObjectByHandle_lookup Handle Access Mode = (s, p) ->
  NT_SUCCESS s = true ->
  Objects st !! p = Some o ->
  ObReferenceObjectByHandle Handle Access Mode st =
    Some ((s, p),
          set_Objects
            (<[p := KeyObject.set_PointerCount (KeyObject.PointerCount o + 1) o]>
               (Objects st)) st).
Proof.
  intros El Es Eo. unfold ObReferenceObjectByHandle. rewrite El, Es.
  by rewrite (bind_run _ _ _ _ _ (ObReferenceObject_run _ _ _ Eo)).
Qed.

End HandleLemmas.

(** Taking a reference and dropping it again leaves the object as it was. *)
Lemma reference_dropped (o : KEY_OBJECT) (n : Z) :
  KeyObject.set_PointerCount (KeyObject.PointerCount o + 1 - 1)
    (KeyObject.set_PointerCount n o) = o.
Proof.
  destruct o. unfold KeyObject.set_PointerCount. simpl. f_equal. lia.
Qed.

(** The same for the map of objects. *)
Lemma reference_dropped_map (m : gmap Z KEY_OBJECT) (p : Z) (o : KEY_OBJECT) (n : Z) :
  m !! p = Some o ->
  <[p := KeyObject.set_PointerCount (KeyObject.PointerCount o + 1 - 1)
           (KeyObject.set_PointerCount n o)]>
    (<[p := KeyObject.set_PointerCount n o]> m) = m.
Proof.
  intros E. rewrite insert_insert_eq, reference_dropped. by apply insert_id.
Qed.

(** Unfolding of the monad and of the memory primitives. *)
Ltac munfold :=
  unfold CmiSyncHives, CmiRemoveRegistryHive, ObReferenceObject,
    ObDereferenceObject, read_KeyCell, write_KeyCell, update_HHIVE,
    read_object, read_hive, read_callback, write_object, write_hive,
    write_callback, emit, modify, get_state, deref, fault,
    mbind, M_bind, mret, M_ret in *.

#[local] Arguments NT_SUCCESS : simpl never.
#[local] Arguments nonzero : simpl never.
#[local] Arguments to_ULONG : simpl never.
#[local] Arguments to_LONG : simpl never.
#[local] Arguments ROUND_UP : simpl never.
#[local] Arguments IsNoFileHive : simpl never.
#[local] Arguments get_key_cell : simpl never.
#[local] Arguments get_value_cell : simpl never.
#[local] Arguments at_storage : simpl never.
#[local] Arguments Z.land : simpl never.
#[local] Arguments Z.lor : simpl never.
#[local] Arguments Z.eqb : simpl never.
#[local] Arguments Z.leb : simpl never.
#[local] Arguments Z.ltb : simpl never.
#[local] Arguments Z.add : simpl never.
#[local] Arguments Z.sub : simpl never.

(** One step of symbolic execution: use an equation of the context, or
    read back what was just stored. *)
Ltac mrun_step :=
  match goal with
  | H : ?x = _ |- context [?x] => rewrite H
  | |- context [<[?p := _]> _ !! ?p] => rewrite lookup_insert_eq
  end.

Ltac mrun := munfold; repeat (simpl; mrun_step); simpl.

(* ===================================================================== *)
(** ** Flushing a key                                                     *)
(* ===================================================================== *)

Section FlushKey.
Context `{Externals}.

(** C3. [NtFlushKey] on a valid key handle returns [STATUS_SUCCESS]: for a
    no-file hive nothing is flushed, and for any other hive the status that
    [CmiFlushRegistryHive] reports is observed in the trace but is not the
    status returned. *)
Theorem NtFlushKey_returns_success (KeyHandle : HANDLE) (st : Registry)
    (s : NTSTATUS) (KeyObject : Z) (o : KEY_OBJECT) (hive : EREGISTRY_HIVE) :
  ObReferenceObjectByHandle_lookup KeyHandle 0 ExGetPreviousMode = (s, KeyObject) ->
  NT_SUCCESS s = true ->
  Objects st !! KeyObject = Some o ->
  Hives st !! KeyObject.RegistryHive o = Some hive ->
  exists st',
    NtFlushKey KeyHandle st = Some (STATUS_SUCCESS, st') /\
    Objects st' = Objects st /\
    (if IsNoFileHive hive
     then Trace st' = Trace st /\ Hives st' = Hives st
     else Trace st' =
            Trace st ++ [EvFlushRegistryHive (KeyObject.RegistryHive o)
                           (CmiFlushRegistryHive hive).1]).
Proof.
  intros El Es Eo Eh. unfold NtFlushKey, ObReferenceObjectByHandle. mrun.
  destruct (IsNoFileHive hive) eqn:Enf; simpl.
  - mrun. eexists. split; [reflexivity|]. simpl.
    by rewrite reference_dropped_map.
  - destruct (CmiFlushRegistryHive hive) as [fs flushed] eqn:Ef. mrun.
    eexists. split; [reflexivity|]. simpl.
    by rewrite reference_dropped_map.
Qed.

End FlushKey.

(* ===================================================================== *)
(** ** The callback walk                                                  *)
(* ===================================================================== *)

(** Acquiring and releasing the rundown protection restores the block. *)
Lemma rundown_restored (cb : REGISTRY_CALLBACK) (r : EX_RUNDOWN_REF) :
  ExAcquireRundownProtection (Callback.RundownRef cb) = Some r ->
  Callback.set_RundownRef (ExReleaseRundownProtection r)
    (Callback.set_RundownRef r cb) = cb.
Proof.
  unfold ExAcquireRundownProtection, ExReleaseRundownProtection.
  destruct cb as [[c a] f x k d]. simpl. destruct a; [done|].
  intros [= <-]. unfold Callback.set_RundownRef. simpl.
  do 2 f_equal. lia.
Qed.

Lemma set_Trace_set_Trace (t t' : list Event) (st : Registry) :
  set_Trace t (set_Trace t' st) = set_Trace t st.
Proof. done. Qed.

(** The walk over [entries] is total on allocated entries; it changes the
    trace only, by one event per invocation, and answers the status of the
    last invocation. *)
Lemma callbacks_from_run (Argument1 : REG_NOTIFY_CLASS)
    (Argument2 : REG_INFORMATION) (pool : gmap Z REGISTRY_CALLBACK)
    (entries : list Z) :
  Forall (fun p => is_Some (pool !! p)) entries ->
  forall s0 : NTSTATUS,
  exists (s : NTSTATUS) (evs : list Event),
    (forall st, CallbackPool st = pool ->
       CmiCallRegisteredCallbacks_from entries Argument1 Argument2 s0 st =
         Some (s, set_Trace (Trace st ++ evs) st)) /\
    Forall (is_invocation Argument1 Argument2) evs /\
    (evs = [] -> s = s0) /\
    (evs <> [] -> exists evs' p, evs = evs' ++ [EvCallback p Argument1 Argument2 s]) /\
    (evs <> [] <-> existsb (invocable pool) entries = true).
Proof.
  induction 1 as [|p rest [cb Ecb] Hrest IH]; intros s0.
  - exists s0, []. split; [|by repeat split].
    intros st _. simpl. unfold mret, M_ret. destruct st; simpl.
    by rewrite app_nil_r.
  - simpl existsb. unfold invocable at 1. rewrite Ecb.
    destruct (Callback.PendingDelete cb) eqn:Ep.
    { destruct (IH s0) as (s & evs & Hrun & Hev & Hnil & Hlast & Hlive).
      simpl. exists s, evs. split; [|repeat split; try done; apply Hlive].
      intros st Est. simpl. munfold. rewrite Est, Ecb. simpl. rewrite Ep.
      by apply Hrun. }
    destruct (ExAcquireRundownProtection (Callback.RundownRef cb)) as [r|] eqn:Ea.
    2:{ destruct (IH s0) as (s & evs & Hrun & Hev & Hnil & Hlast & Hlive).
        assert (RundownActive (Callback.RundownRef cb) = true) as ->.
        { unfold ExAcquireRundownProtection in Ea.
          by destruct (RundownActive (Callback.RundownRef cb)). }
        simpl. exists s, evs. split; [|repeat split; try done; apply Hlive].
        intros st Est. simpl. munfold. rewrite Est, Ecb. simpl. rewrite Ep, Ea.
        by apply Hrun. }
    assert (RundownActive (Callback.RundownRef cb) = false) as ->.
    { unfold ExAcquireRundownProtection in Ea.
      by destruct (RundownActive (Callback.RundownRef cb)). }
    cbn [negb andb orb].
    set (s1 := Callback.Function cb (Callback.Context cb) Argument1 Argument2).
    set (e := EvCallback p Argument1 Argument2 s1).
    assert (Hstep : forall st, CallbackPool st = pool ->
      set_CallbackPool
        (<[p := Callback.set_RundownRef (ExReleaseRundownProtection r)
                  (Callback.set_RundownRef r cb)]>
           (<[p := Callback.set_RundownRef r cb]> (CallbackPool st)))
        (set_Trace (Trace st ++ [e])
           (set_CallbackPool (<[p := Callback.set_RundownRef r cb]> (CallbackPool st)) st))
      = set_Trace (Trace st ++ [e]) st).
    { intros st Est. rewrite (rundown_restored _ _ Ea), insert_insert_eq.
      rewrite Est, (insert_id _ _ _ Ecb). rewrite <- Est. by destruct st. }
    assert (Hhead : forall st, CallbackPool st = pool ->
      CmiCallRegisteredCallbacks_from (p :: rest) Argument1 Argument2 s0 st =
      if negb (NT_SUCCESS s1) then Some (s1, set_Trace (Trace st ++ [e]) st)
      else CmiCallRegisteredCallbacks_from rest Argument1 Argument2 s1
             (set_Trace (Trace st ++ [e]) st)).
    { intros st Est. simpl. munfold. rewrite Est, Ecb. simpl.
      rewrite Ep, Ea. simpl. rewrite lookup_insert_eq. simpl.
      fold s1. fold e. rewrite (Hstep st Est).
      by destruct (NT_SUCCESS s1). }
    destruct (NT_SUCCESS s1) eqn:Es1.
    + destruct (IH s1) as (s & evs & Hrun & Hev & Hnil & Hlast & Hlive).
      exists s, (e :: evs). split; [|split; [|split; [|split]]].
      * intros st Est. rewrite (Hhead st Est). simpl.
        rewrite Hrun by done. simpl. by rewrite <- app_assoc.
      * constructor; [by exists p, s1|done].
      * done.
      * intros _. destruct evs as [|e' evs'].
        -- exists [], p. simpl. by rewrite (Hnil eq_refl).
        -- destruct Hlast as (l & q & ->); [done|].
           by exists (e :: l), q.
      * done.
    + exists s1, [e]. split; [|split; [|split; [|split]]].
      * intros st Est. by rewrite (Hhead st Est).
      * constructor; [by exists p, s1|done].
      * done.
      * intros _. by exists [], p.
      * done.
Qed.

#[local] Arguments CmiCallRegisteredCallbacks : simpl never.

Section Callbacks.
Context `{Externals}.

(** A whole walk: it is total on a well-formed list, depends on the list
    and the pool only, and leaves everything but the trace as it was. *)
Lemma callbacks_run (Argument1 : REG_NOTIFY_CLASS) (Argument2 : REG_INFORMATION)
    (st : Registry) :
  callback_list_ok st ->
  exists (s : NTSTATUS) (evs : list Event),
    (forall st', CmiCallbackHead st' = CmiCallbackHead st ->
       CallbackPool st' = CallbackPool st ->
       CmiCallRegisteredCallbacks Argument1 Argument2 st' =
         Some (s, set_Trace (Trace st' ++ evs) st')) /\
    Forall (is_invocation Argument1 Argument2) evs /\
    (evs = [] -> s = STATUS_SUCCESS) /\
    (evs <> [] -> exists evs' p, evs = evs' ++ [EvCallback p Argument1 Argument2 s]) /\
    (evs <> [] <-> existsb (invocable (CallbackPool st)) (CmiCallbackHead st) = true).
Proof.
  intros Hok.
  destruct (callbacks_from_run Argument1 Argument2 _ _ Hok STATUS_SUCCESS)
    as (s & evs & Hrun & Hrest).
  exists s, evs. split; [|done].
  intros st' Ehead Epool. unfold CmiCallRegisteredCallbacks. munfold.
  rewrite Ehead. by apply Hrun.
Qed.

(** The walk that answers [s] in [st] answers [s] in every state with the
    same callback list, with the same events. *)
Lemma callbacks_answer (Argument1 : REG_NOTIFY_CLASS) (Argument2 : REG_INFORMATION)
    (st : Registry) (s : NTSTATUS) :
  callback_list_ok st ->
  fst <$> CmiCallRegisteredCallbacks Argument1 Argument2 st = Some s ->
  exists evs : list Event,
    (forall st', CmiCallbackHead st' = CmiCallbackHead st ->
       CallbackPool st' = CallbackPool st ->
       CmiCallRegisteredCallbacks Argument1 Argument2 st' =
         Some (s, set_Trace (Trace st' ++ evs) st')) /\
    Forall (is_invocation Argument1 Argument2) evs /\
    (evs = [] -> s = STATUS_SUCCESS) /\
    (evs <> [] -> exists evs' p, evs = evs' ++ [EvCallback p Argument1 Argument2 s]) /\
    (evs <> [] <-> existsb (invocable (CallbackPool st)) (CmiCallbackHead st) = true).
Proof.
  intros Hok Hs.
  destruct (callbacks_run Argument1 Argument2 st Hok) as (s' & evs & Hrun & Hrest).
  rewrite (Hrun st eq_refl eq_refl) in Hs. injection Hs as ->.
  by exists evs.
Qed.

End Callbacks.

(** The walk from [entries] onwards makes the invocations that
    [walk_invocations] lists and nothing else. *)
Lemma walk_from_trace (Argument1 : REG_NOTIFY_CLASS)
    (Argument2 : REG_INFORMATION) (pool : gmap Z REGISTRY_CALLBACK)
    (entries : list Z) :
  Forall (fun p => is_Some (pool !! p)) entries ->
  forall (s0 : NTSTATUS) (st : Registry),
    CallbackPool st = pool ->
    CmiCallRegisteredCallbacks_from entries Argument1 Argument2 s0 st =
      Some (walk_status s0 (walk_invocations pool entries Argument1 Argument2),
            set_Trace (Trace st
                       ++ walk_invocations pool entries Argument1 Argument2) st).
Proof.
  induction 1 as [|p rest [cb Ecb] Hrest IH]; intros s0 st Est.
  - simpl. unfold mret, M_ret, walk_status. simpl. destruct st; simpl.
    by rewrite app_nil_r.
  - simpl. munfold. rewrite Est, Ecb. simpl.
    destruct (Callback.PendingDelete cb) eqn:Ep; simpl.
    { by apply IH. }
    unfold ExAcquireRundownProtection.
    destruct (RundownActive (Callback.RundownRef cb)) eqn:Ea; simpl.
    { by apply IH. }
    rewrite lookup_insert_eq. simpl.
    set (s1 := Callback.Function cb (Callback.Context cb) Argument1 Argument2).
    set (e := EvCallback p Argument1 Argument2 s1).
    rewrite insert_insert_eq.
    match goal with
    | |- context [<[p := ?c]> (CallbackPool st)] =>
      replace c with cb
        by (destruct cb as [[c0 a] f x k d]; simpl in *; subst a;
            unfold Callback.set_RundownRef, ExReleaseRundownProtection; simpl;
            do 2 f_equal; lia)
    end.
    rewrite Est, (insert_id _ _ _ Ecb).
    assert (Hback : forall q,
      set_CallbackPool pool
        (set_Trace (Trace st ++ [e]) (set_CallbackPool q st))
      = set_Trace (Trace st ++ [e]) st).
    { intros q. rewrite <- Est. by destruct st. }
    rewrite Hback.
    destruct (NT_SUCCESS s1) eqn:Es1; simpl.
    + rewrite (IH s1 (set_Trace (Trace st ++ [e]) st) Est). simpl.
      f_equal. f_equal.
      destruct st; simpl. by rewrite <- app_assoc.
    + done.
Qed.

(** A whole walk, in any state with this list and pool. *)
Lemma walk_trace (Argument1 : REG_NOTIFY_CLASS) (Argument2 : REG_INFORMATION)
    (st : Registry) :
  callback_list_ok st ->
  CmiCallRegisteredCallbacks Argument1 Argument2 st =
    Some (walk_status STATUS_SUCCESS
            (walk_invocations (CallbackPool st) (CmiCallbackHead st)
               Argument1 Argument2),
          set_Trace (Trace st
                     ++ walk_invocations (CallbackPool st) (CmiCallbackHead st)
                          Argument1 Argument2) st).
Proof.
  intros Hok. unfold CmiCallRegisteredCallbacks. munfold.
  by apply walk_from_trace.
Qed.

(* ===================================================================== *)
(** ** Deleting a key                                                     *)
(* ===================================================================== *)

(** Setting bit 0 makes the test of bit 0 succeed. *)
Lemma marked_for_delete_set (f : Z) :
  nonzero (Z.land (Z.lor f KO_MARKED_FOR_DELETE) KO_MARKED_FOR_DELETE) = true.
Proof.
  unfold nonzero, KO_MARKED_FOR_DELETE.
  rewrite Z.land_lor_distr_l. change (Z.land 1 1) with 1.
  destruct (Z.lor (Z.land f 1) 1 =? 0) eqn:E; [|done].
  apply Z.eqb_eq, Z.lor_eq_0_iff in E. by destruct E.
Qed.

Section DeleteKey.
Context `{Externals}.

(** C1. [NtDeleteKey] on a valid key handle whose pre-callback succeeds:
    when the stable and volatile subkey counts of the key cell do not sum
    to zero the call returns [STATUS_CANNOT_DELETE] and the flags of the key
    object are unchanged; otherwise it sets [KO_MARKED_FOR_DELETE] and
    returns [STATUS_SUCCESS].  In both cases every hive, and so the key
    cell, is as before the call. *)
Theorem NtDeleteKey_marks_or_refuses (KeyHandle : HANDLE) (st : Registry)
    (s spre : NTSTATUS) (KeyObject : Z) (o parent : KEY_OBJECT)
    (hive : EREGISTRY_HIVE) (KeyCell : CM_KEY_NODE) :
  let Stable := at_storage (KeyNode.SubKeyCounts KeyCell) HvStable in
  let Volatile := at_storage (KeyNode.SubKeyCounts KeyCell) HvVolatile in
  ObReferenceObjectByHandle_lookup KeyHandle DELETE ExGetPreviousMode
    = (s, KeyObject) ->
  NT_SUCCESS s = true ->
  Objects st !! KeyObject = Some o ->
  Objects st !! KeyObject.ParentKey o = Some parent ->
  Hives st !! KeyObject.RegistryHive o = Some hive ->
  get_key_cell (RegHive.Hive hive) (KeyObject.KeyCellOffset o) = Some KeyCell ->
  0 <= Stable -> 0 <= Volatile ->
  callback_list_ok st ->
  fst <$> CmiCallRegisteredCallbacks RegNtPreDeleteKey
            (REG_DELETE_KEY_INFORMATION KeyObject) st = Some spre ->
  NT_SUCCESS spre = true ->
  exists (st' : Registry) (o' : KEY_OBJECT),
    NtDeleteKey KeyHandle st =
      Some (if decide (Stable + Volatile = 0)
            then STATUS_SUCCESS else STATUS_CANNOT_DELETE, st') /\
    Objects st' !! KeyObject = Some o' /\
    Hives st' = Hives st /\
    (Stable + Volatile <> 0 -> KeyObject.Flags o' = KeyObject.Flags o) /\
    (Stable + Volatile = 0 ->
       KeyObject.Flags o' = Z.lor (KeyObject.Flags o) KO_MARKED_FOR_DELETE /\
       nonzero (Z.land (KeyObject.Flags o') KO_MARKED_FOR_DELETE) = true).
Proof.
  intros Stable Volatile El Es Eo Ep Eh Ek Hs Hv Hok Hpre Espre.
  destruct (callbacks_answer _ _ _ _ Hok Hpre) as (evs1 & Hrun1 & _).
  unfold NtDeleteKey, ObReferenceObjectByHandle. mrun.
  rewrite Hrun1 by done. mrun.
  fold Stable Volatile.
  assert (Hcase : nonzero Stable || nonzero Volatile
                  = if decide (Stable + Volatile = 0) then false else true).
  { unfold nonzero. case_decide.
    - assert (Stable = 0 /\ Volatile = 0) as [-> ->] by lia. done.
    - destruct (Stable =? 0) eqn:E1, (Volatile =? 0) eqn:E2; try done.
      apply Z.eqb_eq in E1, E2. lia. }
  rewrite Hcase. clear Hcase.
  case_decide as Hsum.
  - (* no subkeys: the object is marked *)
    set (info := REG_POST_OPERATION_INFORMATION KeyObject STATUS_SUCCESS).
    destruct (callbacks_run RegNtPostDeleteKey info st Hok)
      as (s2 & evs2 & Hrun2 & _).
    mrun. rewrite !insert_insert_eq.
    destruct (decide (KeyObject.ParentKey o = KeyObject)) as [Epar|Epar].
    + rewrite Epar. mrun.
      rewrite Z.eqb_refl. mrun. rewrite Hrun2 by done. mrun.
      eexists _, _. split; [reflexivity|]. simpl.
      rewrite lookup_insert_eq. split; [reflexivity|]. split; [done|].
      split; [done|]. intros _. simpl. split; [done|].
      apply marked_for_delete_set.
    + rewrite lookup_insert_ne by done. mrun.
      destruct (KeyObject.RegistryHive o =? KeyObject.RegistryHive parent); mrun;
        rewrite Hrun2 by done; mrun;
        (eexists _, _; split; [reflexivity|]; simpl;
         rewrite lookup_insert_eq; split; [reflexivity|]; split; [done|];
         split; [done|]; intros _; simpl; split; [done|];
         apply marked_for_delete_set).
  - (* subkeys: the flags stay *)
    set (info := REG_POST_OPERATION_INFORMATION KeyObject STATUS_CANNOT_DELETE).
    destruct (callbacks_run RegNtPostDeleteKey info st Hok)
      as (s2 & evs2 & Hrun2 & _).
    mrun. rewrite ?insert_insert_eq.
    destruct (decide (KeyObject.ParentKey o = KeyObject)) as [Epar|Epar].
    + rewrite Epar. mrun.
      rewrite Z.eqb_refl. mrun. rewrite Hrun2 by done. mrun.
      eexists _, _. split; [reflexivity|]. simpl.
      rewrite lookup_insert_eq. split; [reflexivity|]. split; [done|].
      split; [done|]. intros E. by destruct Hsum.
    + rewrite lookup_insert_ne by done. mrun.
      destruct (KeyObject.RegistryHive o =? KeyObject.RegistryHive parent); mrun;
        rewrite Hrun2 by done; mrun;
        (eexists _, _; split; [reflexivity|]; simpl;
         rewrite lookup_insert_eq; split; [reflexivity|]; split; [done|];
         split; [done|]; intros E; by destruct Hsum).
Qed.

End DeleteKey.

(** ** Stores into cells *)

Lemma get_key_cell_inv (h : HHIVE) (i : HCELL_INDEX) (k : CM_KEY_NODE) :
  get_key_cell h i = Some k ->
  exists c, Cells h !! i = Some c /\ Data c = KeyCellData k.
Proof.
  unfold get_key_cell, HvGetCell. destruct (Cells h !! i) as [c|]; [|done].
  simpl. destruct (Data c) eqn:E; try done. intros [= ->]. by exists c.
Qed.

Lemma get_key_cell_write_cell (h : HHIVE) (i : HCELL_INDEX) (k k' : CM_KEY_NODE) :
  get_key_cell h i = Some k ->
  get_key_cell (write_cell h i (KeyCellData k')) i = Some k'.
Proof.
  intros (c & Ec & _)%get_key_cell_inv.
  unfold get_key_cell, HvGetCell, write_cell. simpl.
  rewrite lookup_alter_eq, Ec. done.
Qed.

Lemma get_key_cell_HvMarkCellDirty (h : HHIVE) (i j : HCELL_INDEX) :
  get_key_cell (HvMarkCellDirty h j) i = get_key_cell h i.
Proof. done. Qed.

Section SetInformationKey.
Context `{Externals}.

(** C9. [NtSetInformationKey] on a valid handle whose pre-callback succeeds
    returns [STATUS_SUCCESS] whatever the inner branch produced.  The trace
    is the walk of the pre-callbacks, then the walk of the post-callbacks,
    which are given the inner status: every callback that is invocable is
    invoked with it.  For a class other than [KeyWriteTimeInformation], or a
    length other than [sizeof(KEY_WRITE_TIME_INFORMATION)], the inner status
    is [STATUS_INVALID_INFO_CLASS] or [STATUS_INFO_LENGTH_MISMATCH], the
    hives are not synchronised and nothing but the trace differs after the
    call.  Only in the valid case is the [LastWriteTime] of the key cell
    the time given by the caller, every other field and every other cell
    being as before, and the key cell marked dirty. *)
Theorem NtSetInformationKey_returns_success (KeyHandle : HANDLE)
    (KeyInformationClass : KEY_SET_INFORMATION_CLASS)
    (KeyInformation : LARGE_INTEGER) (KeyInformationLength : ULONG)
    (st : Registry) (s spre : NTSTATUS) (KeyObject : Z) (o : KEY_OBJECT)
    (hive : EREGISTRY_HIVE) (KeyCell : CM_KEY_NODE) :
  let valid :=
    match KeyInformationClass with
    | KeyWriteTimeInformation =>
      KeyInformationLength =? sizeof_KEY_WRITE_TIME_INFORMATION
    | KeySetOtherInformation _ => false
    end in
  let inner :=
    match KeyInformationClass with
    | KeySetOtherInformation _ => STATUS_INVALID_INFO_CLASS
    | KeyWriteTimeInformation =>
      if KeyInformationLength =? sizeof_KEY_WRITE_TIME_INFORMATION
      then spre else STATUS_INFO_LENGTH_MISMATCH
    end in
  let pre :=
    walk_invocations (CallbackPool st) (CmiCallbackHead st)
      RegNtPreSetInformationKey
      (REG_SET_INFORMATION_KEY_INFORMATION KeyObject KeyInformationClass
         KeyInformation KeyInformationLength) in
  let post :=
    walk_invocations (CallbackPool st) (CmiCallbackHead st)
      RegNtPostSetInformationKey
      (REG_POST_OPERATION_INFORMATION KeyObject inner) in
  ObReferenceObjectByHandle_lookup KeyHandle KEY_SET_VALUE ExGetPreviousMode
    = (s, KeyObject) ->
  NT_SUCCESS s = true ->
  Objects st !! KeyObject = Some o ->
  Hives st !! KeyObject.RegistryHive o = Some hive ->
  get_key_cell (RegHive.Hive hive) (KeyObject.KeyCellOffset o) = Some KeyCell ->
  callback_list_ok st ->
  fst <$> CmiCallRegisteredCallbacks RegNtPreSetInformationKey
            (REG_SET_INFORMATION_KEY_INFORMATION KeyObject KeyInformationClass
               KeyInformation KeyInformationLength) st = Some spre ->
  NT_SUCCESS spre = true ->
  exists st' : Registry,
    NtSetInformationKey KeyHandle KeyInformationClass KeyInformation
      KeyInformationLength st = Some (STATUS_SUCCESS, st') /\
    Objects st' = Objects st /\
    CmiKeyObjectListHead st' = CmiKeyObjectListHead st /\
    CmiCallbackHead st' = CmiCallbackHead st /\
    CallbackPool st' = CallbackPool st /\
    Trace st' = Trace st ++ pre ++ post
                ++ (if NT_SUCCESS inner then [EvSyncHives] else []) /\
    Forall (is_invocation RegNtPreSetInformationKey
              (REG_SET_INFORMATION_KEY_INFORMATION KeyObject KeyInformationClass
                 KeyInformation KeyInformationLength)) pre /\
    Forall (is_invocation RegNtPostSetInformationKey
              (REG_POST_OPERATION_INFORMATION KeyObject inner)) post /\
    (post <> [] <->
     existsb (invocable (CallbackPool st)) (CmiCallbackHead st) = true) /\
    (valid = false ->
     inner <> STATUS_SUCCESS /\ NT_SUCCESS inner = false) /\
    if valid
    then exists hive',
           Hives st' = <[KeyObject.RegistryHive o := hive']> (Hives st) /\
           RegHive.Flags hive' = RegHive.Flags hive /\
           get_key_cell (RegHive.Hive hive') (KeyObject.KeyCellOffset o)
             = Some (KeyNode.mk (KeyNode.Flags KeyCell) KeyInformation
                       (KeyNode.Parent KeyCell) (KeyNode.SubKeyCounts KeyCell)
                       (KeyNode.SubKeyLists KeyCell)
                       (KeyNode.ValueListCount KeyCell)
                       (KeyNode.ValueListOffset KeyCell)
                       (KeyNode.SecurityKeyOffset KeyCell)
                       (KeyNode.ClassNameOffset KeyCell)
                       (KeyNode.NameSize KeyCell) (KeyNode.ClassSize KeyCell)
                       (KeyNode.Name KeyCell)) /\
           (forall i, i <> KeyObject.KeyCellOffset o ->
              Cells (RegHive.Hive hive') !! i = Cells (RegHive.Hive hive) !! i) /\
           DirtyVector (RegHive.Hive hive')
             = {[ KeyObject.KeyCellOffset o ]} ∪ DirtyVector (RegHive.Hive hive)
    else Hives st' = Hives st.
Proof.
  intros valid inner pre post El Es Eo Eh Ek Hok Hpre Espre.
  destruct (callbacks_answer _ _ _ _ Hok Hpre)
    as (evs1 & Hrun1 & Hev1 & _).
  destruct (callbacks_run RegNtPostSetInformationKey
              (REG_POST_OPERATION_INFORMATION KeyObject inner) st Hok)
    as (s2 & evs2 & Hrun2 & Hev2 & _ & _ & Hlive2).
  assert (evs1 = pre) as Epre.
  { pose proof (Hrun1 st eq_refl eq_refl) as E1.
    rewrite (walk_trace _ _ st Hok) in E1. injection E1 as _ E1.
    symmetry. by apply app_inv_head in E1. }
  assert (evs2 = post) as Epost.
  { pose proof (Hrun2 st eq_refl eq_refl) as E2.
    rewrite (walk_trace _ _ st Hok) in E2. injection E2 as _ E2.
    symmetry. by apply app_inv_head in E2. }
  clearbody pre post. subst evs1 evs2.
  unfold NtSetInformationKey, ObReferenceObjectByHandle. mrun.
  rewrite Hrun1 by done. mrun.
  subst valid inner.
  destruct KeyInformationClass as [|n].
  - destruct (KeyInformationLength =? sizeof_KEY_WRITE_TIME_INFORMATION) eqn:Elen.
    + mrun. rewrite Hrun2 by done. mrun.
      eexists. split; [reflexivity|]. simpl.
      split; [by rewrite reference_dropped_map|].
      do 3 (split; [done|]).
      split; [by rewrite <- !app_assoc|]. do 3 (split; [done|]).
      split; [done|].
      destruct (get_key_cell_inv _ _ _ Ek) as (c & Ec & Edata).
      eexists. split; [by rewrite !insert_insert_eq|]. simpl.
      split; [done|]. split.
      * unfold get_key_cell, HvGetCell. simpl.
        by rewrite lookup_alter_eq, Ec.
      * split; [|done]. intros i Hi. by rewrite lookup_alter_ne.
    + mrun. rewrite Hrun2 by done. mrun.
      eexists. split; [reflexivity|]. simpl.
      split; [by rewrite reference_dropped_map|].
      do 3 (split; [done|]).
      split; [by rewrite <- !app_assoc, app_nil_r|]. do 3 (split; [done|]).
      split; [by intros _|]. done.
  - mrun. rewrite Hrun2 by done. mrun.
    eexists. split; [reflexivity|]. simpl.
    split; [by rewrite reference_dropped_map|].
    do 3 (split; [done|]).
    split; [by rewrite <- !app_assoc, app_nil_r|]. do 3 (split; [done|]).
    split; [by intros _|]. done.
Qed.

End SetInformationKey.

(* ===================================================================== *)
(** ** Saving a key                                                       *)
(* ===================================================================== *)

Section SaveKey.
Context `{Externals}.

(** C10. [NtSaveKey] on a valid handle of a non-volatile key, when
    [CmiCreateTempHive] and [CmiCopyKey] succeed: the call returns
    [STATUS_SUCCESS] whatever [CmiSaveTempHive] reports; that status is
    only observed in the trace, and the temporary hive is removed. *)
Theorem NtSaveKey_discards_save_status (KeyHandle FileHandle : HANDLE)
    (st : Registry) (s screate scopy : NTSTATUS) (KeyObject TempHive : Z)
    (o : KEY_OBJECT) (hive created copied : EREGISTRY_HIVE)
    (KeyCell : CM_KEY_NODE) :
  ObReferenceObjectByHandle_lookup KeyHandle 0 ExGetPreviousMode = (s, KeyObject) ->
  NT_SUCCESS s = true ->
  Objects st !! KeyObject = Some o ->
  Hives st !! KeyObject.RegistryHive o = Some hive ->
  get_key_cell (RegHive.Hive hive) (KeyObject.KeyCellOffset o) = Some KeyCell ->
  nonzero (Z.land (KeyNode.Flags KeyCell) REG_KEY_VOLATILE_CELL) = false ->
  CmiCreateTempHive = (screate, TempHive, created) ->
  NT_SUCCESS screate = true ->
  Hives st !! TempHive = None ->
  CmiCopyKey created hive KeyCell = (scopy, copied) ->
  NT_SUCCESS scopy = true ->
  exists st',
    NtSaveKey KeyHandle FileHandle st = Some (STATUS_SUCCESS, st') /\
    Hives st' = Hives st /\
    Objects st' = Objects st /\
    Trace st' = Trace st ++ [EvSaveTempHive TempHive FileHandle
                               (CmiSaveTempHive copied FileHandle);
                             EvRemoveRegistryHive TempHive].
Proof.
  intros El Es Eo Eh Ek Evol Ecreate Escreate Efresh Ecopy Escopy.
  assert (Hne : TempHive <> KeyObject.RegistryHive o) by congruence.
  unfold NtSaveKey, ObReferenceObjectByHandle. mrun.
  rewrite lookup_insert_ne by done. mrun.
  eexists. split; [reflexivity|]. simpl.
  rewrite insert_insert_eq, delete_insert_id by done.
  rewrite reference_dropped_map by done. by rewrite <- app_assoc.
Qed.

End SaveKey.

(* ===================================================================== *)
(** ** Enumeration                                                        *)
(* ===================================================================== *)

Lemma to_ULONG_small (z : Z) : 0 <= z < 2 ^ 32 -> to_ULONG z = z.
Proof. intros Hz. unfold to_ULONG. by apply Z.mod_small. Qed.

Lemma subkeys_lookup (h : HHIVE) (KeyCell : CM_KEY_NODE)
    (Storage : HV_STORAGE_TYPE) (keys : list CM_KEY_NODE) (i : Z)
    (c : CM_KEY_NODE) :
  subkeys h KeyCell Storage keys ->
  0 <= i ->
  keys !! Z.to_nat i = Some c ->
  (at_storage (KeyNode.SubKeyLists KeyCell) Storage =? HCELL_NULL) = false /\
  exists Table,
    get_hash_table h (at_storage (KeyNode.SubKeyLists KeyCell) Storage)
      = Some Table /\
    CmiGetKeyFromHashByIndex h Table i = Some c.
Proof.
  intros [_ Hlist] Hi Hc.
  destruct Hlist as (Hnull & Table & Htable & Hall).
  { intros ->. by rewrite lookup_nil in Hc. }
  split; [by apply Z.eqb_neq|].
  exists Table. split; [done|].
  destruct (Forall2_lookup_r _ _ _ _ _ Hall Hc) as (r & Hr & Hcell).
  unfold CmiGetKeyFromHashByIndex. by rewrite Hr.
Qed.

#[local] Arguments NtEnumerateKey_SubKeyCell : simpl never.
#[local] Arguments NtEnumerateKey_information : simpl never.

Section EnumerateKey.
Context `{Externals}.

(** The choice of the subkey, lines "Check for hightest possible sub key
    index" to [CmiGetKeyFromHashByIndex], on a key cell with the stable
    subkeys [stable] and the volatile subkeys [volatile]. *)
Lemma NtEnumerateKey_SubKeyCell_spec (h : HHIVE) (KeyCell : CM_KEY_NODE)
    (stable volatile : list CM_KEY_NODE) (Index : ULONG) :
  let s := Z.of_nat (length stable) in
  let v := Z.of_nat (length volatile) in
  subkeys h KeyCell HvStable stable ->
  subkeys h KeyCell HvVolatile volatile ->
  s + v < 2 ^ 32 ->
  0 <= Index < 2 ^ 32 ->
  NtEnumerateKey_SubKeyCell h KeyCell Index =
    Some (if s + v <=? Index then NoMoreEntries
          else match (if Index <? s then stable !! Z.to_nat Index
                      else volatile !! Z.to_nat (Index - s)) with
               | Some c => SubKey c
               | None => NoMoreEntries
               end).
Proof.
  intros s v Hs Hv Hsum Hi. unfold NtEnumerateKey_SubKeyCell.
  rewrite (proj1 Hs), (proj1 Hv). fold s v.
  rewrite to_ULONG_small by lia.
  destruct (s + v <=? Index) eqn:Ege; [done|].
  apply Z.leb_gt in Ege.
  destruct (s <=? Index) eqn:Es.
  - apply Z.leb_le in Es.
    assert ((Index <? s) = false) as -> by lia.
    rewrite to_ULONG_small by lia.
    destruct (lookup_lt_is_Some_2 volatile (Z.to_nat (Index - s))) as [c Hc];
      [subst v; lia|].
    rewrite Hc.
    destruct (subkeys_lookup _ _ _ _ (Index - s) c Hv) as (-> & T & -> & ->);
      [lia|done|done].
  - apply Z.leb_gt in Es.
    assert ((Index <? s) = true) as -> by lia.
    destruct (lookup_lt_is_Some_2 stable (Z.to_nat Index)) as [c Hc];
      [subst s; lia|].
    rewrite Hc.
    destruct (subkeys_lookup _ _ _ _ Index c Hs) as (-> & T & -> & ->);
      [lia|done|done].
Qed.

(** C4. [NtEnumerateKey] with index [Index] on a key whose cell has the
    stable subkeys [stable] and the volatile subkeys [volatile]: an index
    of at least their total number returns [STATUS_NO_MORE_ENTRIES]; an
    index below the number of stable subkeys enumerates the entry of that
    index in the stable list; any other index enumerates entry
    [Index - length stable] of the volatile list.  The answer of the call is
    the information computed from that subkey cell. *)
Theorem NtEnumerateKey_index (KeyHandle : HANDLE) (Index : ULONG)
    (KeyInformationClass : KEY_INFORMATION_CLASS) (Length : ULONG)
    (st : Registry) (s spre : NTSTATUS) (KeyObject : Z) (o : KEY_OBJECT)
    (hive : EREGISTRY_HIVE) (KeyCell : CM_KEY_NODE)
    (stable volatile : list CM_KEY_NODE) :
  let h := RegHive.Hive hive in
  let ns := Z.of_nat (length stable) in
  let nv := Z.of_nat (length volatile) in
  ObReferenceObjectByHandle_lookup KeyHandle KEY_ENUMERATE_SUB_KEYS
    ExGetPreviousMode = (s, KeyObject) ->
  NT_SUCCESS s = true ->
  Objects st !! KeyObject = Some o ->
  Hives st !! KeyObject.RegistryHive o = Some hive ->
  get_key_cell h (KeyObject.KeyCellOffset o) = Some KeyCell ->
  callback_list_ok st ->
  fst <$> CmiCallRegisteredCallbacks RegNtPreEnumerateKey
            (REG_ENUMERATE_KEY_INFORMATION KeyObject Index KeyInformationClass
               Length) st = Some spre ->
  NT_SUCCESS spre = true ->
  subkeys h KeyCell HvStable stable ->
  subkeys h KeyCell HvVolatile volatile ->
  ns + nv < 2 ^ 32 ->
  0 <= Index < 2 ^ 32 ->
  (ns + nv <= Index ->
   exists st',
     NtEnumerateKey KeyHandle Index KeyInformationClass Length st =
       Some (mkKeyQuery STATUS_NO_MORE_ENTRIES None None, st')) /\
  (Index < ns ->
   exists SubKeyCell,
     stable !! Z.to_nat Index = Some SubKeyCell /\
     NtEnumerateKey_SubKeyCell h KeyCell Index = Some (SubKey SubKeyCell) /\
     forall r,
       NtEnumerateKey_information KeyObject h KeyCell SubKeyCell Index
         KeyInformationClass Length = Some r ->
       exists st',
         NtEnumerateKey KeyHandle Index KeyInformationClass Length st
           = Some (r, st')) /\
  (ns <= Index < ns + nv ->
   exists SubKeyCell,
     volatile !! Z.to_nat (Index - ns) = Some SubKeyCell /\
     NtEnumerateKey_SubKeyCell h KeyCell Index = Some (SubKey SubKeyCell) /\
     forall r,
       NtEnumerateKey_information KeyObject h KeyCell SubKeyCell Index
         KeyInformationClass Length = Some r ->
       exists st',
         NtEnumerateKey KeyHandle Index KeyInformationClass Length st
           = Some (r, st')).
Proof.
  intros h ns nv El Es Eo Eh Ek Hok Hpre Espre Hs Hv Hsum Hi. subst h.
  pose proof (NtEnumerateKey_SubKeyCell_spec (RegHive.Hive hive) KeyCell stable volatile Index
                Hs Hv Hsum Hi) as Hsel.
  cbv zeta in Hsel. fold ns nv in Hsel.
  destruct (callbacks_answer _ _ _ _ Hok Hpre) as (evs1 & Hrun1 & _).
  assert (Hcall : forall chosen r,
    NtEnumerateKey_SubKeyCell (RegHive.Hive hive) KeyCell Index = Some chosen ->
    match chosen with
    | NoMoreEntries => Some (mkKeyQuery STATUS_NO_MORE_ENTRIES None None)
    | SubKey c =>
      NtEnumerateKey_information KeyObject (RegHive.Hive hive) KeyCell c Index KeyInformationClass
        Length
    end = Some r ->
    exists st',
      NtEnumerateKey KeyHandle Index KeyInformationClass Length st = Some (r, st')).
  { intros chosen r Hchosen Hr.
    destruct (callbacks_run RegNtPostEnumerateKey
                (REG_POST_OPERATION_INFORMATION KeyObject (kq_Status r)) st Hok)
      as (s2 & evs2 & Hrun2 & _).
    unfold NtEnumerateKey, ObReferenceObjectByHandle. mrun.
    rewrite Hrun1 by done. mrun.
    destruct chosen as [|c].
    - injection Hr as <-. simpl in Hrun2. mrun.
      rewrite Hrun2 by done. mrun. by eexists.
    - rewrite Hr. mrun. rewrite Hrun2 by done. mrun. by eexists. }
  split; [|split].
  - intros Hge. assert ((ns + nv <=? Index) = true) as E by lia.
    rewrite E in Hsel. by apply (Hcall NoMoreEntries).
  - intros Hlt.
    assert ((ns + nv <=? Index) = false) as E by lia.
    assert ((Index <? ns) = true) as E' by lia.
    rewrite E, E' in Hsel.
    destruct (lookup_lt_is_Some_2 stable (Z.to_nat Index)) as [c Hc];
      [subst ns; lia|].
    rewrite Hc in Hsel. exists c. split; [done|]. split; [done|].
    intros r Hr. by apply (Hcall (SubKey c)).
  - intros [Hge Hlt].
    assert ((ns + nv <=? Index) = false) as E by lia.
    assert ((Index <? ns) = false) as E' by lia.
    rewrite E, E' in Hsel.
    destruct (lookup_lt_is_Some_2 volatile (Z.to_nat (Index - ns))) as [c Hc];
      [subst nv; lia|].
    rewrite Hc in Hsel. exists c. split; [done|]. split; [done|].
    intros r Hr. by apply (Hcall (SubKey c)).
Qed.

End EnumerateKey.

(* ===================================================================== *)
(** ** Opening a key that is marked for delete                            *)
(* ===================================================================== *)

#[local] Arguments NtOpenKey_ObjectName : simpl never.
#[local] Arguments NtOpenKey_RemainingPath_first : simpl never.

Section MarkedForDelete.
Context `{Externals}.

(** C2. On a key object that has [KO_MARKED_FOR_DELETE] set: an
    [NtCreateKey] whose walk ends at the object with an empty remaining
    path, and an [NtOpenKey] whose walk ends at the object, both return
    [STATUS_UNSUCCESSFUL] and issue no handle; a handle that already
    resolves to the object is still referenced successfully. *)
Theorem marked_for_delete_blocks_opens (st : Registry) (Object : Z)
    (found : KEY_OBJECT) :
  Objects st !! Object = Some found ->
  nonzero (Z.land (KeyObject.Flags found) KO_MARKED_FOR_DELETE) = true ->
  Object <> 0 ->
  callback_list_ok st ->
  (* NtCreateKey *)
  (forall (KeyHandle : Z) (DesiredAccess : ACCESS_MASK) (ObjectAttributes : Z)
          (TitleIndex : ULONG) (Class : Z) (CreateOptions : ULONG)
          (Disposition : Z) (scapture spre swalk : NTSTATUS)
          (ObjectCreateInfo : OBJECT_CREATE_INFORMATION)
          (ObjectName RemainingPath : UNICODE_STRING),
     match ExGetPreviousMode with
     | KernelMode => True
     | UserMode =>
       NT_SUCCESS (Probe_status KeyHandle) = true /\
       (Disposition <> 0 -> NT_SUCCESS (Probe_status Disposition) = true)
     end ->
     (Class <> 0 ->
      NT_SUCCESS (ProbeAndCaptureUnicodeString ExGetPreviousMode Class).1 = true) ->
     ObpCaptureObjectAttributes ObjectAttributes ExGetPreviousMode
       = (scapture, ObjectCreateInfo, ObjectName) ->
     NT_SUCCESS scapture = true ->
     fst <$> CmiCallRegisteredCallbacks RegNtPreCreateKey
               (REG_PRE_CREATE_KEY_INFORMATION ObjectName) st = Some spre ->
     NT_SUCCESS spre = true ->
     CmFindObject_walk ObjectCreateInfo ObjectName = (swalk, Object, RemainingPath) ->
     NT_SUCCESS swalk = true ->
     US.Length RemainingPath = 0 ->
     exists r st',
       NtCreateKey KeyHandle DesiredAccess ObjectAttributes TitleIndex Class
         CreateOptions Disposition st = Some (r, st') /\
       kh_Status r = STATUS_UNSUCCESSFUL /\
       no_handle_issued r st st') /\
  (* NtOpenKey *)
  (forall (KeyHandle : Z) (DesiredAccess : ACCESS_MASK) (ObjectAttributes : Z)
          (scapture spre swalk : NTSTATUS)
          (ObjectCreateInfo : OBJECT_CREATE_INFORMATION)
          (Captured ObjectName RemainingPath : UNICODE_STRING),
     KeyHandle <> 0 ->
     match ExGetPreviousMode with
     | KernelMode => True
     | UserMode => NT_SUCCESS (Probe_status KeyHandle) = true
     end ->
     ObpCaptureObjectAttributes ObjectAttributes ExGetPreviousMode
       = (scapture, ObjectCreateInfo, Captured) ->
     NT_SUCCESS scapture = true ->
     NtOpenKey_ObjectName Captured = Some ObjectName ->
     fst <$> CmiCallRegisteredCallbacks RegNtPreOpenKey
               (REG_PRE_OPEN_KEY_INFORMATION ObjectName) st = Some spre ->
     NT_SUCCESS spre = true ->
     CmFindObject_walk ObjectCreateInfo ObjectName = (swalk, Object, RemainingPath) ->
     NT_SUCCESS swalk = true ->
     NtOpenKey_RemainingPath_first RemainingPath = Some 0 ->
     exists r st',
       NtOpenKey KeyHandle DesiredAccess ObjectAttributes st = Some (r, st') /\
       kh_Status r = STATUS_UNSUCCESSFUL /\
       no_handle_issued r st st') /\
  (* a handle that exists *)
  (forall (Handle : HANDLE) (DesiredAccess : ACCESS_MASK) (Mode : KPROCESSOR_MODE)
          (s : NTSTATUS),
     ObReferenceObjectByHandle_lookup Handle DesiredAccess Mode = (s, Object) ->
     NT_SUCCESS s = true ->
     exists st',
       ObReferenceObjectByHandle Handle DesiredAccess Mode st
         = Some ((s, Object), st') /\
       KeyObject.Flags <$> Objects st' !! Object = Some (KeyObject.Flags found)).
Proof.
  intros Eo Eflag Hnz Hok. split; [|split].
  - intros KeyHandle DesiredAccess ObjectAttributes TitleIndex Class
      CreateOptions Disposition scapture spre swalk ObjectCreateInfo ObjectName
      RemainingPath Hprobe Hclass Ecap Escap Hpre Espre Ewalk Eswalk Elen.
    destruct (callbacks_answer _ _ _ _ Hok Hpre) as (evs1 & Hrun1 & _).
    destruct (callbacks_run RegNtPostCreateKey
                (REG_POST_CREATE_KEY_INFORMATION ObjectName 0 STATUS_UNSUCCESSFUL)
                st Hok) as (s2 & evs2 & Hrun2 & _).
    assert (Hentry :
      NT_SUCCESS
        match ExGetPreviousMode with
        | KernelMode => STATUS_SUCCESS
        | UserMode =>
          if NT_SUCCESS (Probe_status KeyHandle) && negb (Disposition =? 0)
          then Probe_status Disposition else Probe_status KeyHandle
        end = true).
    { destruct ExGetPreviousMode; [done|]. destruct Hprobe as [Hk Hd].
      rewrite Hk. simpl. destruct (Disposition =? 0) eqn:Ed; [done|].
      apply Hd. by apply Z.eqb_neq. }
    unfold NtCreateKey, CmFindObject. rewrite Hentry. cbn [negb].
    assert (Hcls :
      exists sc cc,
        (if negb (Class =? 0)
         then ProbeAndCaptureUnicodeString ExGetPreviousMode Class
         else (match ExGetPreviousMode with
               | KernelMode => STATUS_SUCCESS
               | UserMode =>
                 if NT_SUCCESS (Probe_status KeyHandle) && negb (Disposition =? 0)
                 then Probe_status Disposition else Probe_status KeyHandle
               end, US.empty)) = (sc, cc) /\ NT_SUCCESS sc = true).
    { destruct (Class =? 0) eqn:Ec; simpl.
      - by eexists _, _.
      - destruct (ProbeAndCaptureUnicodeString ExGetPreviousMode Class)
          as [sc cc] eqn:Epc.
        exists sc, cc. split; [done|]. apply Z.eqb_neq in Ec.
        by specialize (Hclass Ec). }
    destruct Hcls as (sc & cc & -> & Esc). rewrite Esc. cbn [negb].
    rewrite Ecap, Escap. cbn [negb].
    rewrite (bind_run _ _ _ _ _ (Hrun1 st eq_refl eq_refl)).
    rewrite Espre. cbn [negb].
    rewrite Ewalk, Eswalk. mrun.
    rewrite Hrun2 by done. mrun.
    eexists _, _. split; [reflexivity|]. split; [done|]. split.
    + simpl. destruct ExGetPreviousMode; auto.
    + intros p. simpl. destruct (decide (p = Object)) as [->|Hp].
      * by rewrite lookup_insert_eq, Eo.
      * by rewrite lookup_insert_ne.
  - intros KeyHandle DesiredAccess ObjectAttributes scapture spre swalk
      ObjectCreateInfo Captured ObjectName RemainingPath Hkh Hprobe Ecap Escap
      Ename Hpre Espre Ewalk Eswalk Efirst.
    destruct (callbacks_answer _ _ _ _ Hok Hpre) as (evs1 & Hrun1 & _).
    destruct (callbacks_run RegNtPostOpenKey
                (REG_POST_OPEN_KEY_INFORMATION ObjectName 0 STATUS_UNSUCCESSFUL)
                st Hok) as (s2 & evs2 & Hrun2 & _).
    assert (Hentry :
      NT_SUCCESS
        match ExGetPreviousMode with
        | KernelMode => STATUS_SUCCESS
        | UserMode => Probe_status KeyHandle
        end = true).
    { by destruct ExGetPreviousMode. }
    unfold NtOpenKey, CmFindObject.
    assert ((KeyHandle =? 0) = false) as -> by by apply Z.eqb_neq.
    rewrite Hentry. cbn [negb].
    rewrite Ecap, Escap. cbn [negb]. rewrite Ename. mrun.
    rewrite Hrun1 by done. mrun.
    rewrite Hrun2 by done. mrun.
    assert ((Object =? 0) = false) as -> by by apply Z.eqb_neq.
    mrun.
    eexists _, _. split; [reflexivity|]. split; [done|]. split.
    + simpl. destruct ExGetPreviousMode; auto.
    + intros p. simpl. by rewrite reference_dropped_map.
  - intros Handle DesiredAccess Mode s El Es.
    eexists. split.
    + by apply (ObReferenceObjectByHandle_run _ _ _ _ _ _ _ El Es Eo).
    + simpl. by rewrite lookup_insert_eq.
Qed.

End MarkedForDelete.

(* ===================================================================== *)
(** ** Unregistering a callback                                           *)
(* ===================================================================== *)

(** The walk passes over entries with another cookie. *)
Lemma unregister_from_skip (Cookie : Z) (st : Registry) (skipped rest : list Z) :
  (forall q, q ∈ skipped ->
     exists cb, CallbackPool st !! q = Some cb /\ Callback.Cookie cb <> Cookie) ->
  CmUnRegisterCallback_from (skipped ++ rest) Cookie st
    = CmUnRegisterCallback_from rest Cookie st.
Proof.
  induction skipped as [|q l IH]; intros Hskip; [done|].
  destruct (Hskip q) as (cb & Ecb & Hne); [by left|].
  simpl. munfold. rewrite Ecb. simpl.
  apply Z.eqb_neq in Hne. rewrite Hne.
  apply IH. intros r Hr. apply Hskip. by right.
Qed.

(** The walk reaches the entry that carries the cookie. *)
Lemma unregister_reaches (Cookie : Z) (st : Registry) (p : Z)
    (cb : REGISTRY_CALLBACK) :
  callback_list_ok st -> cookies_unique st ->
  p ∈ CmiCallbackHead st ->
  CallbackPool st !! p = Some cb ->
  Callback.Cookie cb = Cookie ->
  exists rest,
    CmUnRegisterCallback Cookie st = CmUnRegisterCallback_from (p :: rest) Cookie st.
Proof.
  intros Hok Huniq Hin Ecb Ecookie.
  destruct (list_elem_of_split_l _ _ Hin) as (l1 & l2 & Hsplit & Hnot).
  exists l2. unfold CmUnRegisterCallback. munfold. rewrite Hsplit.
  apply unregister_from_skip. intros q Hq.
  assert (Hq' : q ∈ CmiCallbackHead st).
  { rewrite Hsplit. apply elem_of_app. by left. }
  destruct (proj1 (Forall_forall _ _) Hok q Hq') as [cbq Ecbq].
  exists cbq. split; [done|]. intros Heq.
  assert (q = p) as -> by (eapply Huniq; eauto; congruence).
  done.
Qed.

Section Unregister.
Context `{Externals}.

(** C8. [CmUnRegisterCallback] on a list whose cookies are unique.
    - No entry carries the cookie: [STATUS_UNSUCCESSFUL], nothing changes.
    - The entry that carries it is already pending delete:
      [STATUS_UNSUCCESSFUL], nothing changes (nothing is removed).
    - Otherwise the entry is marked pending delete and the call waits for
      its rundown protection: while the protection is held the call is
      blocked, the entry marked but still linked and allocated; once it is
      released the entry is unlinked and freed and the call returns
      [STATUS_SUCCESS]. *)
Theorem CmUnRegisterCallback_outcomes (Cookie : Z) (st : Registry) :
  callback_list_ok st ->
  cookies_unique st ->
  ((forall p cb, p ∈ CmiCallbackHead st -> CallbackPool st !! p = Some cb ->
      Callback.Cookie cb <> Cookie) ->
   CmUnRegisterCallback Cookie st = Some (Returned STATUS_UNSUCCESSFUL, st)) /\
  (forall p cb,
     p ∈ CmiCallbackHead st -> CallbackPool st !! p = Some cb ->
     Callback.Cookie cb = Cookie ->
     if Callback.PendingDelete cb
     then CmUnRegisterCallback Cookie st = Some (Returned STATUS_UNSUCCESSFUL, st)
     else
       let waiting :=
         Callback.set_RundownRef
           (ExWaitForRundownProtectionRelease (Callback.RundownRef cb))
           (Callback.set_PendingDelete true cb) in
       if rundown_released (Callback.RundownRef cb)
       then
         CmUnRegisterCallback Cookie st =
           Some (Returned STATUS_SUCCESS,
                 mkRegistry (Objects st) (Hives st) (CmiKeyObjectListHead st)
                   (RemoveEntryList (CmiCallbackHead st) p)
                   (delete p (CallbackPool st))
                   (Trace st ++ [EvWaitForRundown p; EvFreePool p])) /\
         p ∉ RemoveEntryList (CmiCallbackHead st) p
       else
         CmUnRegisterCallback Cookie st =
           Some (Blocked p,
                 mkRegistry (Objects st) (Hives st) (CmiKeyObjectListHead st)
                   (CmiCallbackHead st)
                   (<[p := waiting]> (CallbackPool st))
                   (Trace st ++ [EvWaitForRundown p])) /\
         Callback.PendingDelete waiting = true).
Proof.
  intros Hok Huniq. split.
  - intros Hnone. unfold CmUnRegisterCallback. munfold.
    rewrite <- (app_nil_r (CmiCallbackHead st)).
    rewrite unregister_from_skip; [done|].
    intros q Hq. destruct (proj1 (Forall_forall _ _) Hok q Hq) as [cbq Ecbq].
    exists cbq. split; [done|]. by eapply Hnone.
  - intros p cb Hin Ecb Ecookie.
    destruct (unregister_reaches Cookie st p cb Hok Huniq Hin Ecb Ecookie)
      as [rest Hreach].
    rewrite Hreach. simpl. munfold. rewrite Ecb. simpl.
    apply Z.eqb_eq in Ecookie. rewrite Ecookie.
    destruct (Callback.PendingDelete cb) eqn:Ep; simpl; [done|].
    destruct (rundown_released (Callback.RundownRef cb)) eqn:Er; simpl.
    + split.
      * rewrite delete_insert_eq. by rewrite <- app_assoc.
      * unfold RemoveEntryList. rewrite list_elem_of_filter. by intros [? _].
    + done.
Qed.

End Unregister.

(* ===================================================================== *)
(** ** A pre-callback that fails                                          *)
(* ===================================================================== *)

Lemma set_Objects_same (st : Registry) (t : list Event) :
  set_Objects (Objects st) (set_Trace t st) = set_Trace t st.
Proof. by destruct st. Qed.

Section PreCallbackFailure.
Context `{Externals}.

(** A failing pre-callback walk, followed by the post-callback walk: the
    latter invokes at least one callback. *)
Lemma failing_walk_then_post (st : Registry) (Pre Post : REG_NOTIFY_CLASS)
    (PreInfo PostInfo : REG_INFORMATION) (F : NTSTATUS) :
  callback_list_ok st ->
  fst <$> CmiCallRegisteredCallbacks Pre PreInfo st = Some F ->
  NT_SUCCESS F = false ->
  exists (pre post : list Event) (s2 : NTSTATUS),
    (forall st', CmiCallbackHead st' = CmiCallbackHead st ->
       CallbackPool st' = CallbackPool st ->
       CmiCallRegisteredCallbacks Pre PreInfo st' =
         Some (F, set_Trace (Trace st' ++ pre) st')) /\
    (forall st', CmiCallbackHead st' = CmiCallbackHead st ->
       CallbackPool st' = CallbackPool st ->
       CmiCallRegisteredCallbacks Post PostInfo st' =
         Some (s2, set_Trace (Trace st' ++ post) st')) /\
    Forall (is_invocation Pre PreInfo) pre /\
    post <> [] /\
    Forall (is_invocation Post PostInfo) post.
Proof.
  intros Hok Hpre HF.
  destruct (callbacks_answer _ _ _ _ Hok Hpre)
    as (pre & Hrun1 & Hev1 & Hnil1 & _ & Hlive1).
  destruct (callbacks_run Post PostInfo st Hok)
    as (s2 & post & Hrun2 & Hev2 & _ & _ & Hlive2).
  exists pre, post, s2. repeat split; try done.
  apply Hlive2, Hlive1. intros ->.
  rewrite (Hnil1 eq_refl) in HF. done.
Qed.

Lemma on_handle_inv (st : Registry) (KeyHandle : HANDLE)
    (DesiredAccess : ACCESS_MASK) (Pre Post : REG_NOTIFY_CLASS)
    (PreInfo : Z -> REG_INFORMATION) (n : Notification) :
  on_handle st KeyHandle DesiredAccess Pre Post PreInfo = Some n ->
  exists s KeyObject o,
    ObReferenceObjectByHandle_lookup KeyHandle DesiredAccess ExGetPreviousMode
      = (s, KeyObject) /\
    NT_SUCCESS s = true /\
    Objects st !! KeyObject = Some o /\
    n = mkNotification Pre (PreInfo KeyObject) Post
          (REG_POST_OPERATION_INFORMATION KeyObject).
Proof.
  unfold on_handle.
  destruct (ObReferenceObjectByHandle_lookup _ _ _) as [s KeyObject].
  destruct (NT_SUCCESS s) eqn:Es; [|done]. simpl.
  case_bool_decide as Ho; [|done]. destruct Ho as [o Ho].
  intros [= <-]. by exists s, KeyObject, o.
Qed.

(** A call on a handle, from the reference taken on the handle to the
    dereference after the post-callback: only the trace has grown. *)
Ltac short_circuit_on_handle Hn Hrun1 Hrun2 :=
  apply on_handle_inv in Hn as (s & KeyObject & o & El & Es & Eo & ->);
  simpl in Hrun1, Hrun2 |- *;
  unfold NtDeleteKey, NtEnumerateKey, NtEnumerateValueKey, NtQueryKey,
    NtQueryValueKey, NtSetValueKey, NtQueryMultipleValueKey,
    NtSetInformationKey, fmap, M_fmap, ObReferenceObjectByHandle; mrun;
  rewrite Hrun1 by done; mrun;
  rewrite Hrun2 by done; mrun;
  rewrite reference_dropped_map by done;
  match goal with
  | |- _ = Some (_, set_Trace _ ?st) => destruct st
  end;
  simpl; by rewrite <- app_assoc.

(** C7. For every call of an entry point that notifies the callbacks, when
    the pre-callback walk answers a status [F] that is not a success: the
    call returns [F]; the state is the state before the call but for the
    trace, so the operation is skipped and nothing of the registry has
    changed; and the trace has grown by the pre-callback invocations
    followed by at least one post-callback invocation, every one of which
    carries [F]. *)
Theorem pre_callback_failure_short_circuits (c : DispatcherCall) (st : Registry)
    (n : Notification) (F : NTSTATUS) :
  callback_list_ok st ->
  notifications c st = Some n ->
  fst <$> CmiCallRegisteredCallbacks (n_Pre n) (n_PreInfo n) st = Some F ->
  NT_SUCCESS F = false ->
  exists pre post : list Event,
    dispatch c st = Some (F, set_Trace (Trace st ++ pre ++ post) st) /\
    Forall (is_invocation (n_Pre n) (n_PreInfo n)) pre /\
    post <> [] /\
    Forall (is_invocation (n_Post n) (n_PostInfo n F)) post.
Proof.
  intros Hok Hn Hpre HF.
  destruct (failing_walk_then_post st (n_Pre n) (n_Post n) (n_PreInfo n)
              (n_PostInfo n F) F Hok Hpre HF)
    as (pre & post & s2 & Hrun1 & Hrun2 & Hev).
  exists pre, post. split; [|done]. clear Hev Hpre.
  destruct c; simpl in Hn.
  - (* NtCreateKey *)
    destruct (ObpCaptureObjectAttributes ObjectAttributes ExGetPreviousMode)
      as [[scapture ObjectCreateInfo] ObjectName] eqn:Ecap.
    destruct (NT_SUCCESS scapture) eqn:Escap;
      [|by rewrite andb_false_r in Hn].
    rewrite andb_true_r in Hn.
    match type of Hn with
    | (if ?c then _ else _) = _ => destruct c eqn:Hcond; [|done]
    end.
    injection Hn as <-.
    apply andb_true_iff in Hcond as [Hprobe Hclass].
    simpl in Hrun1, Hrun2 |- *.
    unfold NtCreateKey, fmap, M_fmap.
    assert (Hentry :
      NT_SUCCESS
        match ExGetPreviousMode with
        | KernelMode => STATUS_SUCCESS
        | UserMode =>
          if NT_SUCCESS (Probe_status KeyHandle) && negb (Disposition =? 0)
          then Probe_status Disposition else Probe_status KeyHandle
        end = true).
    { destruct ExGetPreviousMode; [done|].
      apply andb_true_iff in Hprobe as [Hk Hd]. rewrite Hk. simpl.
      destruct (Disposition =? 0); [done|]. done. }
    rewrite Hentry. cbn [negb].
    assert (Hcls :
      exists sc cc,
        (if negb (ClassPointer =? 0)
         then ProbeAndCaptureUnicodeString ExGetPreviousMode ClassPointer
         else (match ExGetPreviousMode with
               | KernelMode => STATUS_SUCCESS
               | UserMode =>
                 if NT_SUCCESS (Probe_status KeyHandle) && negb (Disposition =? 0)
                 then Probe_status Disposition else Probe_status KeyHandle
               end, US.empty)) = (sc, cc) /\ NT_SUCCESS sc = true).
    { destruct (ClassPointer =? 0) eqn:Ec; simpl.
      - by eexists _, _.
      - destruct (ProbeAndCaptureUnicodeString ExGetPreviousMode ClassPointer)
          as [sc cc] eqn:Epc.
        by exists sc, cc. }
    destruct Hcls as (sc & cc & -> & Esc). rewrite Esc. cbn [negb].
    rewrite Ecap, Escap. cbn [negb]. mrun.
    rewrite Hrun1 by done. mrun. rewrite Hrun2 by done. mrun.
    destruct st; simpl; by rewrite <- app_assoc.
  - (* NtOpenKey *)
    destruct (ObpCaptureObjectAttributes ObjectAttributes ExGetPreviousMode)
      as [[scapture ObjectCreateInfo] Captured] eqn:Ecap.
    match type of Hn with
    | (if ?c then _ else _) = _ => destruct c eqn:Hcond; [|done]
    end.
    destruct (NtOpenKey_ObjectName Captured) as [ObjectName|] eqn:Ename; [|done].
    injection Hn as <-.
    apply andb_true_iff in Hcond as [Hcond Escap].
    apply andb_true_iff in Hcond as [Hkh Hprobe].
    apply negb_true_iff in Hkh.
    simpl in Hrun1, Hrun2 |- *.
    unfold NtOpenKey, fmap, M_fmap. rewrite Hkh.
    assert (Hentry :
      NT_SUCCESS
        match ExGetPreviousMode with
        | KernelMode => STATUS_SUCCESS
        | UserMode => Probe_status KeyHandle
        end = true).
    { by destruct ExGetPreviousMode. }
    rewrite Hentry. cbn [negb]. rewrite Ecap, Escap. cbn [negb].
    rewrite Ename. mrun.
    rewrite Hrun1 by done. mrun. rewrite Hrun2 by done. mrun.
    destruct st; simpl; by rewrite <- app_assoc.
  - short_circuit_on_handle Hn Hrun1 Hrun2.
  - short_circuit_on_handle Hn Hrun1 Hrun2.
  - short_circuit_on_handle Hn Hrun1 Hrun2.
  - short_circuit_on_handle Hn Hrun1 Hrun2.
  - short_circuit_on_handle Hn Hrun1 Hrun2.
  - short_circuit_on_handle Hn Hrun1 Hrun2.
  - (* NtDeleteValueKey *)
    match type of Hn with
    | context [ProbeAndCaptureUnicodeString ?m ?v] =>
      destruct (ProbeAndCaptureUnicodeString m v)
        as [scapture CapturedValueName] eqn:Ecap
    end.
    destruct (NT_SUCCESS scapture) eqn:Escap; [|done].
    apply on_handle_inv in Hn as (s & KeyObject & o & El & Es & Eo & ->).
    simpl in Hrun1, Hrun2 |- *.
    unfold NtDeleteValueKey, ObReferenceObjectByHandle. mrun.
    rewrite Hrun1 by done. mrun. rewrite Hrun2 by done. mrun.
    rewrite reference_dropped_map by done.
    destruct st; simpl; by rewrite <- app_assoc.
  - short_circuit_on_handle Hn Hrun1 Hrun2.
  - short_circuit_on_handle Hn Hrun1 Hrun2.
Qed.

End PreCallbackFailure.

(* ===================================================================== *)
(** ** The theorems on the concrete registry                              *)
(* ===================================================================== *)

Example example_lookup :
  Objects Example.st !! 100 = Some (Example.key 0) /\
  get_key_cell (RegHive.Hive Example.hive) 0x20 = Some Example.A.
Proof. split; vm_compute; reflexivity. Qed.

(** Closing a goal about the concrete registry by evaluation. *)
Ltac evaluated := vm_compute; first [reflexivity | discriminate | done].

Lemma example_callback_list_ok : callback_list_ok Example.st.
Proof. constructor; [eexists; evaluated | constructor]. Defined.

Lemma example_marked_callback_list_ok : callback_list_ok Example.st_marked.
Proof. constructor; [eexists; evaluated | constructor]. Defined.

Lemma example_subkeys :
  subkeys (RegHive.Hive Example.hive) Example.A HvStable [Example.B; Example.C] /\
  subkeys (RegHive.Hive Example.hive) Example.A HvVolatile [Example.V].
Proof.
  split; (split; [evaluated|]); intros _; (split; [evaluated|]); eexists;
    (split; [evaluated|]); repeat constructor; evaluated.
Defined.

(** Discharging the hypotheses of a theorem instantiated on the concrete
    registry, one after the other: by evaluation, or from the context. *)
Ltac discharge W :=
  cbv zeta in W;
  repeat
    match type of W with
    | ?P -> _ =>
      let HP := fresh "HP" in
      assert (HP : P)
        by first [ evaluated | assumption ];
      specialize (W HP); clear HP
    end.

(** Deleting key "A", which has three subkeys, is refused. *)
Lemma NtDeleteKey_marks_or_refuses_witness :
  exists st' o',
    NtDeleteKey (H := Example.kernel) 4 Example.st
      = Some (STATUS_CANNOT_DELETE, st') /\
    Objects st' !! 100 = Some o' /\
    Hives st' = Hives Example.st /\
    KeyObject.Flags o' = 0.
Proof.
  pose proof example_callback_list_ok as Hok.
  pose proof (NtDeleteKey_marks_or_refuses (H := Example.kernel) 4 Example.st
                STATUS_SUCCESS STATUS_SUCCESS 100 (Example.key 0)
                (Example.key 0) Example.hive Example.A) as W.
  discharge W. destruct W as (st' & o' & Hrun & Ho & Hh & Hflags & _).
  exists st', o'. repeat split; try done. apply Hflags. evaluated.
Defined.

(** Flushing key "A" succeeds although the hive flush fails. *)
Lemma NtFlushKey_returns_success_witness :
  exists st',
    NtFlushKey (H := Example.kernel) 4 Example.st = Some (STATUS_SUCCESS, st') /\
    Trace st' = [EvFlushRegistryHive 200 STATUS_UNSUCCESSFUL].
Proof.
  pose proof (NtFlushKey_returns_success (H := Example.kernel) 4 Example.st
                STATUS_SUCCESS 100 (Example.key 0) Example.hive) as W.
  discharge W. destruct W as (st' & Hrun & _ & Htrace).
  exists st'. split; [done|]. exact Htrace.
Defined.

(** Key "A" has two stable subkeys and one volatile subkey: index 2
    enumerates the volatile subkey "V" and index 3 is past the end. *)
Lemma NtEnumerateKey_index_witness :
  (exists st',
     NtEnumerateKey (H := Example.kernel) 4 2 KeyBasicInformation 64 Example.st
       = Some (mkKeyQuery STATUS_SUCCESS (Some 18)
                 (Some (KEY_BASIC_INFORMATION 0 2 2 [86; 0])), st')) /\
  (exists st',
     NtEnumerateKey (H := Example.kernel) 4 3 KeyBasicInformation 64 Example.st
       = Some (mkKeyQuery STATUS_NO_MORE_ENTRIES None None, st')).
Proof.
  pose proof example_callback_list_ok as Hok.
  destruct example_subkeys as [Hstable Hvolatile].
  split.
  - pose proof (NtEnumerateKey_index (H := Example.kernel) 4 2
                  KeyBasicInformation 64 Example.st STATUS_SUCCESS
                  STATUS_SUCCESS 100 (Example.key 0) Example.hive Example.A
                  [Example.B; Example.C] [Example.V]) as W.
    discharge W. destruct W as (_ & _ & Hthird).
    destruct Hthird as (c & Hc & _ & Hcall); [evaluated|].
    injection Hc as <-. apply Hcall. evaluated.
  - pose proof (NtEnumerateKey_index (H := Example.kernel) 4 3
                  KeyBasicInformation 64 Example.st STATUS_SUCCESS
                  STATUS_SUCCESS 100 (Example.key 0) Example.hive Example.A
                  [Example.B; Example.C] [Example.V]) as W.
    discharge W. destruct W as (Hend & _).
    apply Hend. evaluated.
Defined.

Lemma example_cookies_unique : cookies_unique Example.st.
Proof.
  intros p q cb cb' Hp Hq _ _ _.
  change (p ∈ [500]) in Hp. change (q ∈ [500]) in Hq.
  apply list_elem_of_singleton in Hp, Hq. congruence.
Defined.

(** Saving key "A" succeeds although writing the temporary hive fails. *)
Lemma NtSaveKey_discards_save_status_witness :
  exists st',
    NtSaveKey (H := Example.kernel) 4 77 Example.st = Some (STATUS_SUCCESS, st') /\
    Hives st' = Hives Example.st /\
    Trace st' = [EvSaveTempHive 900 77 STATUS_UNSUCCESSFUL;
                 EvRemoveRegistryHive 900].
Proof.
  pose proof (NtSaveKey_discards_save_status (H := Example.kernel) 4 77
                Example.st STATUS_SUCCESS STATUS_SUCCESS STATUS_SUCCESS 100 900
                (Example.key 0) Example.hive
                (RegHive.mk (mkHHIVE ∅ ∅) HIVE_NO_FILE)
                (RegHive.mk (mkHHIVE ∅ ∅) HIVE_NO_FILE) Example.A) as W.
  discharge W. destruct W as (st' & Hrun & Hh & _ & Htrace).
  exists st'. split; [done|]. split; [done|]. exact Htrace.
Defined.

(** Setting the write time of key "A" to 777: the call succeeds, the key
    cell carries the new time, and the one registered callback is told
    [STATUS_SUCCESS] before the hives are synchronised. *)
Lemma NtSetInformationKey_returns_success_witness :
  exists st' hive',
    NtSetInformationKey (H := Example.kernel) 4 KeyWriteTimeInformation 777 8
      Example.st = Some (STATUS_SUCCESS, st') /\
    Hives st' = {[ 200 := hive' ]} /\
    KeyNode.LastWriteTime <$> get_key_cell (RegHive.Hive hive') 0x20 = Some 777 /\
    DirtyVector (RegHive.Hive hive') = {[ 0x20 ]} /\
    Trace st' =
      [EvCallback 500 RegNtPreSetInformationKey
         (REG_SET_INFORMATION_KEY_INFORMATION 100 KeyWriteTimeInformation 777 8)
         STATUS_SUCCESS;
       EvCallback 500 RegNtPostSetInformationKey
         (REG_POST_OPERATION_INFORMATION 100 STATUS_SUCCESS) STATUS_SUCCESS;
       EvSyncHives].
Proof.
  pose proof example_callback_list_ok as Hok.
  pose proof (NtSetInformationKey_returns_success (H := Example.kernel) 4
                KeyWriteTimeInformation 777 8 Example.st STATUS_SUCCESS
                STATUS_SUCCESS 100 (Example.key 0) Example.hive Example.A) as W.
  discharge W.
  destruct W as (st' & Hrun & _ & _ & _ & _ & Htrace & _ & _ & _ & _ & Hvalid).
  vm_compute in Hvalid.
  destruct Hvalid as (hive' & Hhives & _ & Hcell & _ & Hdirty).
  exists st', hive'. split; [exact Hrun|]. split; [exact Hhives|].
  split; [|split; [exact Hdirty|exact Htrace]].
  unfold get_key_cell, HvGetCell. unfold get_key_cell, HvGetCell in Hcell.
  vm_compute in Hcell |- *. by rewrite Hcell.
Defined.

(** Opening or creating key "A" while it is marked for delete fails. *)
Lemma marked_for_delete_blocks_opens_witness :
  (exists r st',
     NtCreateKey (H := Example.kernel) 1 0 0 0 0 0 0 Example.st_marked
       = Some (r, st') /\
     kh_Status r = STATUS_UNSUCCESSFUL /\ no_handle_issued r Example.st_marked st') /\
  (exists r st',
     NtOpenKey (H := Example.kernel) 1 0 0 Example.st_marked = Some (r, st') /\
     kh_Status r = STATUS_UNSUCCESSFUL /\ no_handle_issued r Example.st_marked st').
Proof.
  pose proof example_marked_callback_list_ok as Hok.
  pose proof (marked_for_delete_blocks_opens (H := Example.kernel)
                Example.st_marked 100 (Example.key KO_MARKED_FOR_DELETE)) as W.
  discharge W. destruct W as (Hcreate & Hopen & _). split.
  - pose proof (Hcreate 1 0 0 0 0 0 0 STATUS_SUCCESS STATUS_SUCCESS
                  STATUS_SUCCESS (mkCreateInfo 0 0) (US.mk 2 4 (Some [65; 0]))
                  US.empty) as W.
    discharge W. exact W.
  - pose proof (Hopen 1 0 0 STATUS_SUCCESS STATUS_SUCCESS STATUS_SUCCESS
                  (mkCreateInfo 0 0) (US.mk 2 4 (Some [65; 0]))
                  (US.mk 2 4 (Some [65; 0])) US.empty) as W.
    discharge W. exact W.
Defined.

(** The registered callback vetoes a value write on key "A": the write is
    skipped and the veto is the status of the call. *)
Lemma pre_callback_failure_short_circuits_witness :
  exists pre post : list Event,
    NtSetValueKey (H := Example.kernel) 4 (US.mk 2 4 (Some [110; 0])) 0 4
      [42; 0; 0; 0] 4 Example.st
      = Some (STATUS_ACCESS_DENIED,
              set_Trace (Trace Example.st ++ pre ++ post) Example.st) /\
    post <> [].
Proof.
  pose proof example_callback_list_ok as Hok.
  pose proof (pre_callback_failure_short_circuits (H := Example.kernel)
                (CallSetValueKey 4 (US.mk 2 4 (Some [110; 0])) 0 4
                   [42; 0; 0; 0] 4)
                Example.st
                (mkNotification RegNtPreSetValueKey
                   (REG_SET_VALUE_KEY_INFORMATION 100 (US.mk 2 4 (Some [110; 0]))
                      0 4 [42; 0; 0; 0] 4)
                   RegNtPostSetValueKey (REG_POST_OPERATION_INFORMATION 100))
                STATUS_ACCESS_DENIED) as W.
  discharge W. destruct W as (pre & post & Hrun & _ & Hpost & _).
  by exists pre, post.
Defined.

(** Unregistering the callback, which is not running: it is unlinked and
    freed. *)
Lemma CmUnRegisterCallback_outcomes_witness :
  CmUnRegisterCallback 500 Example.st =
    Some (Returned STATUS_SUCCESS,
          mkRegistry (Objects Example.st) (Hives Example.st) [100] []
            (delete 500 (CallbackPool Example.st))
            [EvWaitForRundown 500; EvFreePool 500]).
Proof.
  pose proof (CmUnRegisterCallback_outcomes 500 Example.st
                example_callback_list_ok example_cookies_unique) as [_ W].
  assert (Hin : 500 ∈ CmiCallbackHead Example.st) by (change (500 ∈ [500]); left).
  specialize (W 500 Example.callback Hin). discharge W.
  destruct W as [Hrun _]. exact Hrun.
Defined.

(* ===================================================================== *)
(** ** Buffer shape of NtQueryKey                                         *)
(* ===================================================================== *)

Section QueryKey.
Context `{Externals}.

(** [KeyBasicInformation]: the length reported by [NtQueryKey] is the
    fixed header alone, whatever the length of the name. *)
Lemma NtQueryKey_basic_result_length (KeyObject : Z) (o : KEY_OBJECT)
    (h : HHIVE) (KeyCell : CM_KEY_NODE) (Length : ULONG) (r : KeyQueryResult) :
  NtQueryKey_information KeyObject o h KeyCell KeyBasicInformation Length = Some r ->
  kq_ResultLength r = Some KEY_BASIC_INFORMATION_Name.
Proof.
  unfold NtQueryKey_information.
  destruct (Length <? KEY_BASIC_INFORMATION_Name); [by intros [= <-]|].
  destruct (to_ULONG (Length - KEY_BASIC_INFORMATION_Name) <? _);
    simpl; destruct (RtlCopyMemory _ _); simpl; by intros [= <-].
Qed.

(** [KeyNodeInformation]: [NtQueryKey] compares the length with the whole
    required size, so every length below it is [STATUS_BUFFER_TOO_SMALL]
    and no length is [STATUS_BUFFER_OVERFLOW]. *)
Lemma NtQueryKey_node_status (KeyObject : Z) (o : KEY_OBJECT)
    (h : HHIVE) (KeyCell : CM_KEY_NODE) (Length : ULONG) (r : KeyQueryResult) :
  let required := KEY_NODE_INFORMATION_Name + US.Length (KeyObject.Name o)
                  + KeyNode.ClassSize KeyCell in
  0 <= US.Length (KeyObject.Name o) -> 0 <= KeyNode.ClassSize KeyCell ->
  required < 2 ^ 32 -> 0 <= Length < 2 ^ 32 ->
  NtQueryKey_information KeyObject o h KeyCell KeyNodeInformation Length = Some r ->
  kq_ResultLength r = Some required /\
  kq_Status r = if Length <? required then STATUS_BUFFER_TOO_SMALL
                else STATUS_SUCCESS.
Proof.
  intros required HN HC Hreq HL. subst required.
  unfold NtQueryKey_information, KEY_NODE_INFORMATION_Name in *.
  rewrite (to_ULONG_small (24 + _ + _)) by lia.
  destruct (Length <? _) eqn:Hsmall; [by intros [= <-]|].
  apply Z.ltb_ge in Hsmall.
  rewrite (to_ULONG_small (Length - 24)) by lia.
  rewrite (to_ULONG_small (Length - 24 - _)) by lia.
  assert (Hname : (Length - 24 <? US.Length (KeyObject.Name o)) = false)
    by (apply Z.ltb_ge; lia).
  assert (Hclass : (Length - 24 - US.Length (KeyObject.Name o)
                    <? KeyNode.ClassSize KeyCell) = false)
    by (apply Z.ltb_ge; lia).
  rewrite Hname, Hclass. simpl.
  destruct (RtlCopyMemory _ _); simpl; [|done].
  destruct (copy_class _ _ _); simpl; [|done]. by intros [= <-].
Qed.

(** [KeyFullInformation]: the buffer shape failures of [NtQueryKey] are
    the described ones. *)
Lemma NtQueryKey_full_buffer_shape (KeyObject : Z) (o : KEY_OBJECT)
    (h : HHIVE) (KeyCell : CM_KEY_NODE) (Length : ULONG) (r : KeyQueryResult) :
  let required := KEY_FULL_INFORMATION_Class + KeyNode.ClassSize KeyCell in
  0 <= KeyNode.ClassSize KeyCell -> required < 2 ^ 32 -> 0 <= Length < 2 ^ 32 ->
  NtQueryKey_information KeyObject o h KeyCell KeyFullInformation Length = Some r ->
  kq_ResultLength r = Some required /\
  kq_Status r = if Length <? KEY_FULL_INFORMATION_Class then STATUS_BUFFER_TOO_SMALL
                else if Length <? required then STATUS_BUFFER_OVERFLOW
                else STATUS_SUCCESS.
Proof.
  intros required HC Hreq HL. subst required.
  unfold NtQueryKey_information, KEY_FULL_INFORMATION_Class in *.
  rewrite (to_ULONG_small (44 + _)) by lia.
  destruct (Length <? 44) eqn:Hsmall; [by intros [= <-]|].
  apply Z.ltb_ge in Hsmall.
  rewrite (to_ULONG_small (Length - 44)) by lia.
  assert (Hsame : (Length - 44 <? KeyNode.ClassSize KeyCell)
                  = (Length <? 44 + KeyNode.ClassSize KeyCell)).
  { destruct (Z.ltb_spec (Length - 44) (KeyNode.ClassSize KeyCell));
      destruct (Z.ltb_spec Length (44 + KeyNode.ClassSize KeyCell)); lia. }
  rewrite Hsame.
  destruct (Length <? 44 + _); simpl;
    (destruct (copy_class _ _ _); simpl; [|done]); by intros [= <-].
Qed.

(** [NtEnumerateKey], for comparison: with [KeyBasicInformation] it
    reports the header plus the whole name. *)
Lemma NtEnumerateKey_basic_result_length (KeyObject : Z) (h : HHIVE)
    (KeyCell SubKeyCell : CM_KEY_NODE) (Index Length : ULONG)
    (r : KeyQueryResult) :
  NtEnumerateKey_information KeyObject h KeyCell SubKeyCell Index
    KeyBasicInformation Length = Some r ->
  kq_ResultLength r =
    Some (to_ULONG (KEY_BASIC_INFORMATION_Name
                    + if nonzero (Z.land (KeyNode.Flags SubKeyCell)
                                    REG_KEY_NAME_PACKED)
                      then to_ULONG (KeyNode.NameSize SubKeyCell * sizeof_WCHAR)
                      else KeyNode.NameSize SubKeyCell)).
Proof.
  unfold NtEnumerateKey_information.
  destruct (Length <? KEY_BASIC_INFORMATION_Name); [by intros [= <-]|].
  destruct (to_ULONG (Length - KEY_BASIC_INFORMATION_Name) <? _);
    simpl; destruct (copy_key_name _ _); simpl; by intros [= <-].
Qed.

End QueryKey.

(** C5. [NtQueryKey] on key "A", whose name takes 2 bytes and which has no
    class.
    - [KeyBasicInformation] with a 16-byte buffer: the header fits and the
      name is cut, the status is [STATUS_BUFFER_OVERFLOW], and the reported
      length is 16, the header alone, while 18 bytes are required.
    - [KeyNodeInformation] with a 24-byte buffer: the header fits, and the
      status is [STATUS_BUFFER_TOO_SMALL] (the reported length is the
      required 26).
    - [KeyFullInformation] behaves as described: a 43-byte buffer is too
      small and the reported length is the required 44. *)
Theorem NtQueryKey_buffer_shape_on_example :
  fst <$> NtQueryKey (H := Example.kernel) 4 KeyBasicInformation 16 Example.st
    = Some (mkKeyQuery STATUS_BUFFER_OVERFLOW (Some 16)
              (Some (KEY_BASIC_INFORMATION 0 0 2 []))) /\
  fst <$> NtQueryKey (H := Example.kernel) 4 KeyNodeInformation 24 Example.st
    = Some (mkKeyQuery STATUS_BUFFER_TOO_SMALL (Some 26) None) /\
  fst <$> NtQueryKey (H := Example.kernel) 4 KeyFullInformation 43 Example.st
    = Some (mkKeyQuery STATUS_BUFFER_TOO_SMALL (Some 44) None).
Proof. repeat split; evaluated. Qed.

(** The enumeration of subkey "B" of key "A", whose name also takes 2
    bytes, with the same buffers: the header fits in both, the status is
    [STATUS_BUFFER_OVERFLOW] and the reported length the required one. *)
Example NtEnumerateKey_buffer_shape_on_example :
  kq_ResultLength <$>
    (fst <$> NtEnumerateKey (H := Example.kernel) 4 0 KeyBasicInformation 16
               Example.st) = Some (Some 18) /\
  kq_Status <$>
    (fst <$> NtEnumerateKey (H := Example.kernel) 4 0 KeyBasicInformation 16
               Example.st) = Some STATUS_BUFFER_OVERFLOW /\
  kq_ResultLength <$>
    (fst <$> NtEnumerateKey (H := Example.kernel) 4 0 KeyNodeInformation 24
               Example.st) = Some (Some 26) /\
  kq_Status <$>
    (fst <$> NtEnumerateKey (H := Example.kernel) 4 0 KeyNodeInformation 24
               Example.st) = Some STATUS_BUFFER_OVERFLOW.
Proof. repeat split; evaluated. Qed.

(* ===================================================================== *)
(** ** Where NtSetValueKey puts the data                                  *)
(* ===================================================================== *)

Section SetValueKey.
Context `{Externals}.

(** The size word stored for out-of-line data has [REG_DATA_IN_OFFSET]
    clear. *)
Lemma out_of_line_size_bit (DataSize : ULONG) :
  Z.land (Z.land DataSize REG_DATA_SIZE_MASK) REG_DATA_IN_OFFSET = 0.
Proof.
  rewrite <- Z.land_assoc.
  change (Z.land REG_DATA_SIZE_MASK REG_DATA_IN_OFFSET) with 0.
  apply Z.land_0_r.
Qed.

(** The size word stored for inline data has [REG_DATA_IN_OFFSET] set. *)
Lemma inline_size_bit (DataSize : ULONG) :
  0 <= DataSize <= sizeof_HCELL_INDEX ->
  nonzero (Z.land (Z.lor DataSize REG_DATA_IN_OFFSET) REG_DATA_IN_OFFSET) = true.
Proof.
  unfold sizeof_HCELL_INDEX. intros Hn.
  assert (Hcases : DataSize = 0 \/ DataSize = 1 \/ DataSize = 2 \/ DataSize = 3
                   \/ DataSize = 4) by lia.
  by destruct Hcases as [->|[->|[->|[->| ->]]]].
Qed.

(** Data of at most [sizeof(HCELL_INDEX)] bytes goes into the offset field
    of the value cell, and a data cell the value had is freed. *)
Lemma NtSetValueKey_data_inline (h : HHIVE) (ValueCellOffset : HCELL_INDEX)
    (ValueCell : CM_KEY_VALUE) (Type_ : ULONG) (Data : list UCHAR)
    (DataSize : ULONG) (outcome : StoreOutcome) :
  DataSize <= sizeof_HCELL_INDEX ->
  NtSetValueKey_data h ValueCellOffset ValueCell Type_ Data DataSize
    = Some outcome ->
  exists inline,
    copy_into_ULONG (KeyValue.DataOffset ValueCell) Data DataSize = Some inline /\
    outcome =
      Stored
        (HvMarkCellDirty
           (write_cell
              (if out_of_line ValueCell
               then HvFreeCell h (KeyValue.DataOffset ValueCell) else h)
              ValueCellOffset
              (ValueCellData
                 (KeyValue.set_data (Z.lor DataSize REG_DATA_IN_OFFSET) inline
                    Type_ ValueCell)))
           ValueCellOffset).
Proof.
  intros Hn. apply Z.leb_le in Hn.
  unfold NtSetValueKey_data, out_of_line.
  destruct (negb _ && negb _); simpl.
  - destruct (HvGetCellSize _ _); simpl; [|done]. rewrite Hn.
    destruct (copy_into_ULONG _ _ _) as [inline|]; simpl; [|done].
    intros [= <-]. by exists inline.
  - rewrite Hn.
    destruct (copy_into_ULONG _ _ _) as [inline|]; simpl; [|done].
    intros [= <-]. by exists inline.
Qed.

(** Larger data that does not fit the data cell of the value (none counts
    as size 0), with an allocator that delivers: the data goes into a new
    stable cell, the data cell the value had is freed, and the size word
    is stored with [REG_DATA_IN_OFFSET] clear. *)
Lemma NtSetValueKey_data_grows (h : HHIVE) (ValueCellOffset : HCELL_INDEX)
    (ValueCell : CM_KEY_VALUE) (Type_ : ULONG) (Data : list UCHAR)
    (DataSize : ULONG) (outcome : StoreOutcome)
    (NewOffset : HCELL_INDEX) (Header : Z) (DataCellSize : Z) :
  sizeof_HCELL_INDEX < DataSize ->
  (if out_of_line ValueCell
   then (fun size => to_ULONG (- size))
          <$> HvGetCellSize h (KeyValue.DataOffset ValueCell)
   else Some 0) = Some DataCellSize ->
  DataCellSize < DataSize ->
  HvAllocateCell_choice h DataSize HvStable = (NewOffset, Header) ->
  NewOffset <> HCELL_NULL ->
  NtSetValueKey_data h ValueCellOffset ValueCell Type_ Data DataSize
    = Some outcome ->
  let allocated :=
    mkHHIVE (<[NewOffset := mkHCELL Header HvStable (RawData [])]> (Cells h))
      (DirtyVector h) in
  exists stored,
    copy_into_cell
      (if out_of_line ValueCell
       then HvFreeCell allocated (KeyValue.DataOffset ValueCell) else allocated)
      NewOffset Data DataSize = Some stored /\
    outcome =
      Stored
        (HvMarkCellDirty
           (HvMarkCellDirty
              (write_cell stored ValueCellOffset
                 (ValueCellData
                    (KeyValue.set_data (Z.land DataSize REG_DATA_SIZE_MASK)
                       NewOffset Type_ ValueCell)))
              NewOffset)
           ValueCellOffset).
Proof.
  intros Hn Hsize Hgrow Halloc Hnew.
  apply Z.leb_gt in Hn. apply Z.ltb_lt in Hgrow. apply Z.eqb_neq in Hnew.
  unfold NtSetValueKey_data, HvAllocateCell. fold (out_of_line ValueCell).
  destruct (out_of_line ValueCell); simpl in *.
  - destruct (HvGetCellSize _ _); simpl in *; [|done].
    injection Hsize as ->. rewrite Hn, Hgrow, Halloc, Hnew. simpl. rewrite Hnew. simpl.
    destruct (copy_into_cell _ _ _ _) as [stored|]; simpl; [|done].
    intros [= <-]. by exists stored.
  - injection Hsize as <-. rewrite Hn, Hgrow, Halloc, Hnew. simpl. rewrite Hnew. simpl.
    destruct (copy_into_cell _ _ _ _) as [stored|]; simpl; [|done].
    intros [= <-]. by exists stored.
Qed.

(** Larger data that fits the data cell of the value: that cell is
    reused, nothing is allocated or freed. *)
Lemma NtSetValueKey_data_reuses (h : HHIVE) (ValueCellOffset : HCELL_INDEX)
    (ValueCell : CM_KEY_VALUE) (Type_ : ULONG) (Data : list UCHAR)
    (DataSize : ULONG) (outcome : StoreOutcome) (DataCellSize : Z) :
  sizeof_HCELL_INDEX < DataSize ->
  (if out_of_line ValueCell
   then (fun size => to_ULONG (- size))
          <$> HvGetCellSize h (KeyValue.DataOffset ValueCell)
   else Some 0) = Some DataCellSize ->
  DataSize <= DataCellSize ->
  NtSetValueKey_data h ValueCellOffset ValueCell Type_ Data DataSize
    = Some outcome ->
  exists stored,
    copy_into_cell h (KeyValue.DataOffset ValueCell) Data DataSize = Some stored /\
    outcome =
      Stored
        (HvMarkCellDirty
           (HvMarkCellDirty
              (write_cell stored ValueCellOffset
                 (ValueCellData
                    (KeyValue.set_data (Z.land DataSize REG_DATA_SIZE_MASK)
                       (KeyValue.DataOffset ValueCell) Type_ ValueCell)))
              (KeyValue.DataOffset ValueCell))
           ValueCellOffset).
Proof.
  intros Hn Hsize Hfits.
  apply Z.leb_gt in Hn. apply Z.ltb_ge in Hfits.
  unfold NtSetValueKey_data. fold (out_of_line ValueCell).
  destruct (out_of_line ValueCell); simpl in *.
  - destruct (HvGetCellSize _ _); simpl in *; [|done].
    injection Hsize as ->. rewrite Hn, Hfits. simpl.
    destruct (copy_into_cell _ _ _ _) as [stored|]; simpl; [|done].
    intros [= <-]. by exists stored.
  - injection Hsize as <-. rewrite Hn, Hfits. simpl.
    destruct (copy_into_cell _ _ _ _) as [stored|]; simpl; [|done].
    intros [= <-]. by exists stored.
Qed.

(** Larger data that does not fit, with an exhausted allocator: nothing is
    stored. *)
Lemma NtSetValueKey_data_exhausted (h : HHIVE) (ValueCellOffset : HCELL_INDEX)
    (ValueCell : CM_KEY_VALUE) (Type_ : ULONG) (Data : list UCHAR)
    (DataSize : ULONG) (Header : Z) (DataCellSize : Z) :
  sizeof_HCELL_INDEX < DataSize ->
  (if out_of_line ValueCell
   then (fun size => to_ULONG (- size))
          <$> HvGetCellSize h (KeyValue.DataOffset ValueCell)
   else Some 0) = Some DataCellSize ->
  DataCellSize < DataSize ->
  HvAllocateCell_choice h DataSize HvStable = (HCELL_NULL, Header) ->
  NtSetValueKey_data h ValueCellOffset ValueCell Type_ Data DataSize
    = Some AllocationFailed.
Proof.
  intros Hn Hsize Hgrow Halloc.
  apply Z.leb_gt in Hn. apply Z.ltb_lt in Hgrow.
  unfold NtSetValueKey_data, HvAllocateCell. fold (out_of_line ValueCell).
  destruct (out_of_line ValueCell); simpl in *.
  - destruct (HvGetCellSize _ _); simpl in *; [|done].
    injection Hsize as ->. by rewrite Hn, Hgrow, Halloc.
  - injection Hsize as <-. by rewrite Hn, Hgrow, Halloc.
Qed.

End SetValueKey.

(** C6. [NtSetValueKey] on value "n" of key "A", which holds three bytes
    in its offset field, with eight bytes of data and a hive that cannot
    allocate a cell: the call returns [STATUS_SUCCESS] and leaves the
    registry as it was.  No data cell was allocated, and the value still
    has its three inline bytes and [REG_DATA_IN_OFFSET] set. *)
Theorem NtSetValueKey_allocation_failure_on_example :
  NtSetValueKey (H := Example.kernel) 4 (US.mk 2 4 (Some [110; 0])) 0 3
    [1; 2; 3; 4; 5; 6; 7; 8] 8 Example.st_quiet
    = Some (STATUS_SUCCESS, Example.st_quiet) /\
  get_value_cell (RegHive.Hive Example.hive) 0x40 = Some Example.n /\
  KeyValue.DataSize Example.n = Z.lor 3 REG_DATA_IN_OFFSET.
Proof. repeat split; evaluated. Qed.

(* ===================================================================== *)
(** * Further properties of ntfunc.c                                      *)
(* ===================================================================== *)

(* ===================================================================== *)
(** ** The callback list over time                                        *)
(* ===================================================================== *)

(** Every listed invocation is that of a linked entry which is neither
    pending delete nor in rundown, with the context it was registered
    with. *)
Lemma walk_invocations_invocable (pool : gmap Z REGISTRY_CALLBACK)
    (entries : list Z) (Argument1 : REG_NOTIFY_CLASS)
    (Argument2 : REG_INFORMATION) :
  Forall (fun e => exists p cb,
            e = EvCallback p Argument1 Argument2
                  (Callback.Function cb (Callback.Context cb) Argument1 Argument2) /\
            p ∈ entries /\ pool !! p = Some cb /\
            Callback.PendingDelete cb = false /\
            RundownActive (Callback.RundownRef cb) = false)
    (walk_invocations pool entries Argument1 Argument2).
Proof.
  induction entries as [|p rest IH]; [constructor|].
  assert (Hrest :
    Forall (fun e => exists q cb,
              e = EvCallback q Argument1 Argument2
                    (Callback.Function cb (Callback.Context cb) Argument1 Argument2) /\
              q ∈ p :: rest /\ pool !! q = Some cb /\
              Callback.PendingDelete cb = false /\
              RundownActive (Callback.RundownRef cb) = false)
      (walk_invocations pool rest Argument1 Argument2)).
  { eapply Forall_impl; [exact IH|].
    intros e (q & cb & -> & Hq & Hrest). exists q, cb.
    split; [done|]. split; [by right|done]. }
  simpl. destruct (pool !! p) as [cb|] eqn:Ecb; [|done].
  destruct (Callback.PendingDelete cb) eqn:Ep; [done|].
  destruct (RundownActive (Callback.RundownRef cb)) eqn:Ea; [done|].
  simpl. constructor.
  - exists p, cb. split; [done|]. split; [by left|done].
  - by destruct (NT_SUCCESS _).
Qed.

(** Only the last listed invocation can have answered a failure. *)
Lemma walk_invocations_stop (pool : gmap Z REGISTRY_CALLBACK)
    (entries : list Z) (Argument1 : REG_NOTIFY_CLASS)
    (Argument2 : REG_INFORMATION) (before after : list Event) (p : Z)
    (a : REG_NOTIFY_CLASS) (b : REG_INFORMATION) (s : NTSTATUS) :
  walk_invocations pool entries Argument1 Argument2
    = before ++ EvCallback p a b s :: after ->
  after <> [] -> NT_SUCCESS s = true.
Proof.
  revert before. induction entries as [|q rest IH]; intros before Hsplit Hafter.
  - by destruct before.
  - simpl in Hsplit. destruct (pool !! q) as [cb|]; [|by eapply IH].
    destruct (negb _ && negb _); [|by eapply IH].
    destruct before as [|e0 before']; simpl in Hsplit.
    + injection Hsplit as _ _ _ Hs Hrest. subst s.
      destruct (NT_SUCCESS _); [done|]. by subst after.
    + injection Hsplit as _ Hrest.
      destruct (NT_SUCCESS (Callback.Function cb _ _ _)); [by eapply IH|].
      by destruct before'.
Qed.

(** No callback answered a failure in a walk whose status is a success. *)
Lemma walk_status_success (pool : gmap Z REGISTRY_CALLBACK)
    (entries : list Z) (Argument1 : REG_NOTIFY_CLASS)
    (Argument2 : REG_INFORMATION) (s0 : NTSTATUS) :
  NT_SUCCESS s0 = true ->
  NT_SUCCESS (walk_status s0 (walk_invocations pool entries Argument1 Argument2))
    = true ->
  Forall (fun e => forall p a b s, e = EvCallback p a b s -> NT_SUCCESS s = true)
    (walk_invocations pool entries Argument1 Argument2).
Proof.
  revert s0. induction entries as [|q rest IH]; intros s0 Hs0 Hs; [constructor|].
  simpl in *. destruct (pool !! q) as [cb|]; [|by apply (IH s0)].
  destruct (negb _ && negb _); [|by apply (IH s0)].
  unfold walk_status in Hs. simpl in Hs.
  destruct (NT_SUCCESS (Callback.Function cb _ _ _)) eqn:Es1.
  - constructor; [by intros ? ? ? ? [= _ _ _ <-]|].
    by apply (IH (Callback.Function cb (Callback.Context cb) Argument1 Argument2)).
  - simpl in Hs. congruence.
Qed.

Section CallbackList.
Context `{Externals}.

(** X1. [CmiCallRegisteredCallbacks] on a well-formed list is total, changes
    the trace only, and makes exactly the listed invocations: of linked
    entries that are neither pending delete nor in rundown, in list
    order, stopping after the first failure; its status is that of the
    last invocation, [STATUS_SUCCESS] when there was none. *)
Theorem CmiCallRegisteredCallbacks_invocations (Argument1 : REG_NOTIFY_CLASS)
    (Argument2 : REG_INFORMATION) (st : Registry) :
  callback_list_ok st ->
  let invocations :=
    walk_invocations (CallbackPool st) (CmiCallbackHead st) Argument1 Argument2 in
  CmiCallRegisteredCallbacks Argument1 Argument2 st =
    Some (walk_status STATUS_SUCCESS invocations,
          set_Trace (Trace st ++ invocations) st) /\
  Forall (fun e => exists p cb,
            e = EvCallback p Argument1 Argument2
                  (Callback.Function cb (Callback.Context cb) Argument1 Argument2) /\
            p ∈ CmiCallbackHead st /\ CallbackPool st !! p = Some cb /\
            Callback.PendingDelete cb = false /\
            RundownActive (Callback.RundownRef cb) = false) invocations /\
  (forall before after p a b s,
     invocations = before ++ EvCallback p a b s :: after ->
     after <> [] -> NT_SUCCESS s = true) /\
  (NT_SUCCESS (walk_status STATUS_SUCCESS invocations) = true ->
   Forall (fun e => forall p a b s, e = EvCallback p a b s -> NT_SUCCESS s = true)
     invocations).
Proof.
  intros Hok invocations. split; [by apply walk_trace|].
  split; [apply walk_invocations_invocable|].
  split; [apply walk_invocations_stop|].
  by apply walk_status_success.
Qed.

End CallbackList.

(** ** Registration *)

(** Cookies that are addresses are unique. *)
Lemma cookies_are_addresses_unique (st : Registry) :
  cookies_are_addresses st -> cookies_unique st.
Proof.
  intros Haddr p q cb cb' Hp Hq Ecb Ecb' Heq.
  rewrite <- (Haddr p cb Hp Ecb), <- (Haddr q cb' Hq Ecb'). done.
Qed.

(** What a call of [CmUnRegisterCallback_from] can have done: nothing, or
    marked one entry of [entries] and begun its rundown, or that and
    unlinked and freed it. *)
Lemma unregister_from_cases (Cookie : Z) (entries : list Z) (st st' : Registry)
    (out : UnregisterOutcome) :
  CmUnRegisterCallback_from entries Cookie st = Some (out, st') ->
  st' = st \/
  exists p cb,
    p ∈ entries /\ CallbackPool st !! p = Some cb /\
    Callback.Cookie cb = Cookie /\
    let waiting :=
      Callback.set_RundownRef
        (ExWaitForRundownProtectionRelease (Callback.RundownRef cb))
        (Callback.set_PendingDelete true cb) in
    (out = Blocked p /\
     st' = mkRegistry (Objects st) (Hives st) (CmiKeyObjectListHead st)
             (CmiCallbackHead st) (<[p := waiting]> (CallbackPool st))
             (Trace st ++ [EvWaitForRundown p])) \/
    (out = Returned STATUS_SUCCESS /\
     st' = mkRegistry (Objects st) (Hives st) (CmiKeyObjectListHead st)
             (RemoveEntryList (CmiCallbackHead st) p)
             (delete p (CallbackPool st))
             (Trace st ++ [EvWaitForRundown p; EvFreePool p])).
Proof.
  induction entries as [|q rest IH]; simpl.
  - intros [= _ <-]. by left.
  - munfold. destruct (CallbackPool st !! q) as [cb|] eqn:Ecb; simpl; [|done].
    destruct (Callback.Cookie cb =? Cookie) eqn:Ecookie.
    + apply Z.eqb_eq in Ecookie.
      destruct (Callback.PendingDelete cb); simpl; [intros [= _ <-]; by left|].
      destruct (rundown_released (Callback.RundownRef cb)); simpl;
        intros [= <- <-]; right; exists q, cb;
        (split; [by left|]); (split; [done|]); (split; [done|]).
      * right. split; [done|]. rewrite delete_insert_eq.
        by rewrite <- app_assoc.
      * left. done.
    + intros Hrest. destruct (IH Hrest) as [->|(p & cb' & Hp & Hrest')];
        [by left|].
      right. exists p, cb'. split; [by right|done].
Qed.

(** Unlinking an entry that is linked once, at the tail. *)
Lemma RemoveEntryList_tail (l : list Z) (p : Z) :
  p ∉ l -> RemoveEntryList (l ++ [p]) p = l.
Proof.
  unfold RemoveEntryList. intros Hp. rewrite filter_app.
  rewrite (filter_cons _ p []), filter_nil. case_decide; [done|].
  rewrite app_nil_r. induction l as [|q l IH]; [done|].
  rewrite filter_cons_True by (intros ->; apply Hp; by left).
  f_equal. apply IH. intros Hin. apply Hp. by right.
Qed.

Section Registration.
Context `{Externals}.

(** [CmRegisterCallback] with a pool that delivers: the new block is
    linked at the tail and its address is the cookie. *)
Lemma CmRegisterCallback_run (Function : PEX_CALLBACK_FUNCTION) (Context : Z)
    (st : Registry) :
  ExAllocatePoolWithTag <> 0 ->
  CmRegisterCallback Function Context st =
    Some ((STATUS_SUCCESS, Some ExAllocatePoolWithTag),
          mkRegistry (Objects st) (Hives st) (CmiKeyObjectListHead st)
            (CmiCallbackHead st ++ [ExAllocatePoolWithTag])
            (<[ExAllocatePoolWithTag :=
                 Callback.mk ExInitializeRundownProtection Function Context
                   ExAllocatePoolWithTag false]> (CallbackPool st))
            (Trace st)).
Proof.
  intros Hblock. apply Z.eqb_neq in Hblock.
  unfold CmRegisterCallback, InsertTailList. by rewrite Hblock.
Qed.

(** The list is well formed after a registration. *)
Lemma register_keeps_inv_ok (Function : PEX_CALLBACK_FUNCTION) (Context : Z)
    (st : Registry) :
  callback_list_ok st ->
  ExAllocatePoolWithTag <> 0 ->
  callback_list_ok
    (mkRegistry (Objects st) (Hives st) (CmiKeyObjectListHead st)
       (CmiCallbackHead st ++ [ExAllocatePoolWithTag])
       (<[ExAllocatePoolWithTag :=
            Callback.mk ExInitializeRundownProtection Function Context
              ExAllocatePoolWithTag false]> (CallbackPool st))
       (Trace st)).
Proof.
  intros Hok _. unfold callback_list_ok. simpl. apply Forall_app. split.
  - eapply Forall_impl; [exact Hok|]. intros q [cb Ecb]. simpl in *.
    destruct (decide (ExAllocatePoolWithTag = q)) as [->|Hne].
    + rewrite lookup_insert_eq. by eexists.
    + rewrite lookup_insert_ne by done. by eexists.
  - constructor; [|constructor]. rewrite lookup_insert_eq. by eexists.
Qed.

(** [CmRegisterCallback] keeps the invariant of the callback list. *)
Lemma register_keeps_inv (Function : PEX_CALLBACK_FUNCTION) (Context : Z)
    (st : Registry) :
  callback_list_inv st ->
  exists r st',
    CmRegisterCallback Function Context st = Some (r, st') /\
    callback_list_inv st' /\
    (ExAllocatePoolWithTag = 0 ->
     r = (STATUS_INSUFFICIENT_RESOURCES, None) /\ st' = st).
Proof.
  intros [Hok Haddr].
  destruct (decide (ExAllocatePoolWithTag = 0)) as [Hz|Hnz].
  - exists (STATUS_INSUFFICIENT_RESOURCES, None), st.
    unfold CmRegisterCallback. rewrite Hz. by repeat split.
  - eexists _, _. split; [by apply CmRegisterCallback_run|].
    split; [|done]. split.
    + unfold callback_list_ok. simpl. apply Forall_app. split.
      * eapply Forall_impl; [exact Hok|]. intros q [cb Ecb]. simpl in *.
        destruct (decide (ExAllocatePoolWithTag = q)) as [->|Hne].
        -- rewrite lookup_insert_eq. by eexists.
        -- rewrite lookup_insert_ne by done. by eexists.
      * constructor; [|constructor]. rewrite lookup_insert_eq. by eexists.
    + intros q cb. simpl. intros Hq.
      destruct (decide (ExAllocatePoolWithTag = q)) as [<-|Hne].
      * rewrite lookup_insert_eq. by intros [= <-].
      * rewrite lookup_insert_ne by done. apply Haddr.
        apply elem_of_app in Hq as [Hq|Hq]; [done|].
        apply list_elem_of_singleton in Hq. congruence.
Qed.

(** [CmUnRegisterCallback] keeps the invariant of the callback list. *)
Lemma unregister_keeps_inv (Cookie : Z) (st st' : Registry)
    (out : UnregisterOutcome) :
  callback_list_inv st ->
  CmUnRegisterCallback Cookie st = Some (out, st') -> callback_list_inv st'.
Proof.
  intros [Hok Haddr] Hrun. unfold CmUnRegisterCallback in Hrun.
  munfold. destruct (unregister_from_cases _ _ _ _ _ Hrun)
    as [->|(p & cb & Hp & Ecb & _ & [[_ ->]|[_ ->]])]; [done| |].
  - split.
    + unfold callback_list_ok. simpl.
      eapply Forall_impl; [exact Hok|]. intros q [cbq Ecbq]. simpl in *.
      destruct (decide (p = q)) as [->|Hne].
      * rewrite lookup_insert_eq. by eexists.
      * rewrite lookup_insert_ne by done. by eexists.
    + intros q cbq. simpl. intros Hq.
      destruct (decide (p = q)) as [->|Hne].
      * rewrite lookup_insert_eq. intros [= <-]. simpl. by apply Haddr.
      * rewrite lookup_insert_ne by done. by apply Haddr.
  - split.
    + unfold callback_list_ok, RemoveEntryList. simpl.
      apply Forall_forall. intros q Hq.
      apply list_elem_of_filter in Hq as [Hne Hq].
      rewrite lookup_delete_ne by done.
      by apply (proj1 (Forall_forall _ _) Hok).
    + intros q cbq. unfold RemoveEntryList. simpl. intros Hq.
      apply list_elem_of_filter in Hq as [Hne Hq].
      rewrite lookup_delete_ne by done. by apply Haddr.
Qed.

(** X2. The invariant of the callback list is kept by the three routines of
    ntfunc.c that touch the list, whatever their arguments and outcome,
    and it makes cookies unique.  With an exhausted pool
    [CmRegisterCallback] answers [STATUS_INSUFFICIENT_RESOURCES] and
    registers nothing. *)
Theorem callback_list_invariant (st : Registry) :
  callback_list_inv st ->
  cookies_unique st /\
  (forall Function Context,
     exists r st',
       CmRegisterCallback Function Context st = Some (r, st') /\
       callback_list_inv st' /\
       (ExAllocatePoolWithTag = 0 ->
        r = (STATUS_INSUFFICIENT_RESOURCES, None) /\ st' = st)) /\
  (forall Cookie out st',
     CmUnRegisterCallback Cookie st = Some (out, st') -> callback_list_inv st') /\
  (forall Argument1 Argument2,
     exists s st',
       CmiCallRegisteredCallbacks Argument1 Argument2 st = Some (s, st') /\
       callback_list_inv st').
Proof.
  intros Hinv. split; [apply cookies_are_addresses_unique, Hinv|].
  split; [|split].
  - intros F C. by apply register_keeps_inv.
  - intros Cookie out st'. by apply unregister_keeps_inv.
  - intros A1 A2. eexists _, _. split; [apply walk_trace, Hinv|]. done.
Qed.

(** X3. Registering a callback and unregistering it with the cookie that the
    registration answered: the second call returns [STATUS_SUCCESS] and
    the list and the pool are as before the first (the block is fresh). *)
Theorem CmRegisterCallback_then_unregister (Function : PEX_CALLBACK_FUNCTION)
    (Context : Z) (st : Registry) :
  callback_list_inv st ->
  ExAllocatePoolWithTag <> 0 ->
  ExAllocatePoolWithTag ∉ CmiCallbackHead st ->
  CallbackPool st !! ExAllocatePoolWithTag = None ->
  exists (Cookie : Z) (registered : Registry),
    CmRegisterCallback Function Context st
      = Some ((STATUS_SUCCESS, Some Cookie), registered) /\
    CmUnRegisterCallback Cookie registered =
      Some (Returned STATUS_SUCCESS,
            set_Trace (Trace st ++ [EvWaitForRundown Cookie; EvFreePool Cookie])
              st).
Proof.
  intros [Hok Haddr] Hblock Hfresh Hfree.
  eexists _, _. split; [by apply CmRegisterCallback_run|].
  unfold CmUnRegisterCallback. munfold. simpl.
  rewrite unregister_from_skip.
  - simpl. munfold. simpl. rewrite lookup_insert_eq. simpl.
    rewrite Z.eqb_refl. simpl. do 2 f_equal.
    unfold set_Trace, set_CallbackPool, set_CmiCallbackHead. simpl. f_equal.
    + by apply RemoveEntryList_tail.
    + by rewrite delete_insert_eq, delete_insert_eq, delete_id.
    + by rewrite <- app_assoc.
  - intros q Hq.
    destruct (proj1 (Forall_forall _ _) Hok q Hq) as [cb Ecb].
    exists cb. simpl. split.
    + rewrite lookup_insert_ne; [done|]. intros <-. done.
    + rewrite (Haddr q cb Hq Ecb). intros ->. done.
Qed.

(** X4. Once [CmUnRegisterCallback] has been called with the cookie of a
    linked callback, whether it has returned or is waiting for the
    rundown, no walk invokes that callback. *)
Theorem unregistered_callback_is_not_invoked (Cookie : Z) (st : Registry) :
  callback_list_inv st ->
  Cookie ∈ CmiCallbackHead st ->
  exists (out : UnregisterOutcome) (st' : Registry),
    CmUnRegisterCallback Cookie st = Some (out, st') /\
    forall Argument1 Argument2,
    exists s invocations,
      CmiCallRegisteredCallbacks Argument1 Argument2 st'
        = Some (s, set_Trace (Trace st' ++ invocations) st') /\
      forall q a b t, EvCallback q a b t ∈ invocations -> q <> Cookie.
Proof.
  intros Hinv Hin. pose proof Hinv as [Hok Haddr].
  destruct (proj1 (Forall_forall _ _) Hok Cookie Hin) as [cb Ecb].
  pose proof (Haddr Cookie cb Hin Ecb) as Ecookie.
  destruct (unregister_reaches Cookie st Cookie cb Hok
              (cookies_are_addresses_unique st Haddr) Hin Ecb Ecookie)
    as [rest Hreach].
  assert (Hrun : exists out st',
    CmUnRegisterCallback Cookie st = Some (out, st') /\
    ((CallbackPool st' !! Cookie = None /\ Cookie ∉ CmiCallbackHead st') \/
     exists cb', CallbackPool st' !! Cookie = Some cb' /\
                 Callback.PendingDelete cb' = true)).
  { rewrite Hreach. simpl. munfold. rewrite Ecb. simpl.
    apply Z.eqb_eq in Ecookie. rewrite Ecookie.
    destruct (Callback.PendingDelete cb) eqn:Ep; simpl.
    - eexists _, _. split; [done|]. right. by exists cb.
    - destruct (rundown_released (Callback.RundownRef cb)); simpl.
      + eexists _, _. split; [done|]. left. simpl. split.
        * by rewrite lookup_delete_eq.
        * unfold RemoveEntryList. intros Hq.
          by apply list_elem_of_filter in Hq as [Hne _].
      + eexists _, _. split; [done|]. right. simpl.
        rewrite lookup_insert_eq. by eexists. }
  destruct Hrun as (out & st' & Hrun & Hgone). exists out, st'.
  split; [done|]. intros A1 A2.
  pose proof (unregister_keeps_inv _ _ _ _ Hinv Hrun) as [Hok' _].
  eexists _, _. split; [by apply walk_trace|].
  intros q a b t Hq ->.
  pose proof (walk_invocations_invocable (CallbackPool st') (CmiCallbackHead st')
                A1 A2) as Hall.
  destruct (proj1 (Forall_forall _ _) Hall _ Hq)
    as (p & cbp & [= -> _ _ _] & Hp & Ecbp & Epending & _).
  destruct Hgone as [[Hnone _]|(cb' & Ecb' & Ep')]; congruence.
Qed.

(** The invocations of a walk after one more callback has been linked at
    the tail: those of the walk before, and then the new callback unless
    one of them failed. *)
Lemma walk_invocations_tail (pool : gmap Z REGISTRY_CALLBACK) (l : list Z)
    (block : Z) (Function : PEX_CALLBACK_FUNCTION) (Context : Z)
    (Argument1 : REG_NOTIFY_CLASS) (Argument2 : REG_INFORMATION) (s0 : NTSTATUS) :
  block ∉ l -> NT_SUCCESS s0 = true ->
  walk_invocations
    (<[block := Callback.mk ExInitializeRundownProtection Function Context
                  block false]> pool)
    (l ++ [block]) Argument1 Argument2
  = walk_invocations pool l Argument1 Argument2
    ++ (if NT_SUCCESS (walk_status s0 (walk_invocations pool l Argument1 Argument2))
        then [EvCallback block Argument1 Argument2
                (Function Context Argument1 Argument2)]
        else []).
Proof.
  revert s0. induction l as [|q l IH]; intros s0 Hfresh Hs0.
  - simpl. rewrite lookup_insert_eq. simpl. unfold walk_status. simpl.
    rewrite Hs0. by destruct (NT_SUCCESS (Function _ _ _)).
  - assert (Hq : block <> q) by (intros ->; apply Hfresh; by left).
    assert (Hl : block ∉ l) by (intros Hin; apply Hfresh; by right).
    simpl. rewrite lookup_insert_ne by done.
    destruct (pool !! q) as [cb|]; [|by apply IH].
    destruct (negb _ && negb _); [|by apply IH].
    simpl. f_equal. unfold walk_status. simpl.
    destruct (NT_SUCCESS (Callback.Function cb _ _ _)) eqn:Es1.
    + by apply (IH (Callback.Function cb (Callback.Context cb) Argument1 Argument2)).
    + simpl. by rewrite Es1.
Qed.

(** X5. A callback that has just been registered is invoked after all the
    callbacks registered before it, with the context given at its
    registration, and its answer is the status of the walk; it is not
    invoked when one of the others fails. *)
Theorem registered_callback_is_invoked_last (Function : PEX_CALLBACK_FUNCTION)
    (Context : Z) (st : Registry) (Argument1 : REG_NOTIFY_CLASS)
    (Argument2 : REG_INFORMATION) :
  callback_list_ok st ->
  ExAllocatePoolWithTag <> 0 ->
  ExAllocatePoolWithTag ∉ CmiCallbackHead st ->
  let before :=
    walk_invocations (CallbackPool st) (CmiCallbackHead st) Argument1 Argument2 in
  exists (Cookie : Z) (registered : Registry),
    CmRegisterCallback Function Context st
      = Some ((STATUS_SUCCESS, Some Cookie), registered) /\
    CmiCallRegisteredCallbacks Argument1 Argument2 registered =
      if NT_SUCCESS (walk_status STATUS_SUCCESS before)
      then Some (Function Context Argument1 Argument2,
                 set_Trace
                   (Trace st ++ before
                    ++ [EvCallback Cookie Argument1 Argument2
                          (Function Context Argument1 Argument2)]) registered)
      else Some (walk_status STATUS_SUCCESS before,
                 set_Trace (Trace st ++ before) registered).
Proof.
  intros Hok Hblock Hfresh before.
  pose proof (register_keeps_inv_ok Function Context st Hok Hblock) as Hok'.
  eexists _, _. split; [by apply CmRegisterCallback_run|].
  rewrite walk_trace by exact Hok'. simpl.
  rewrite (walk_invocations_tail _ _ _ _ _ _ _ STATUS_SUCCESS) by done.
  fold before. destruct (NT_SUCCESS (walk_status STATUS_SUCCESS before)) eqn:Es.
  - f_equal. f_equal. unfold walk_status. by rewrite fold_left_app.
  - by rewrite app_nil_r.
Qed.

End Registration.

(* ===================================================================== *)
(** ** Opening and creating keys                                          *)
(* ===================================================================== *)

(** [OBJ_KERNEL_HANDLE] is no longer set once it has been masked out. *)
Lemma kernel_handle_masked (HandleAttributes : ULONG) :
  nonzero (Z.land (Z.land HandleAttributes (Z.lnot OBJ_KERNEL_HANDLE))
             OBJ_KERNEL_HANDLE) = false.
Proof.
  unfold nonzero. rewrite <- Z.land_assoc.
  rewrite (Z.land_comm (Z.lnot _)), Z.land_lnot_diag, Z.land_0_r. done.
Qed.

Section CreateHandle.
Context `{Externals}.

(** [CmpCreateHandle] on an allocated object: the handle is created in the
    handle table of the current process and is not marked as a kernel
    handle, whatever the attributes; the handle count of the object grows
    by one, and so does its pointer count when this is its first handle.
    When the table delivers no handle nothing changes. *)
Lemma CmpCreateHandle_run (ObjectBody : Z) (GrantedAccess : ACCESS_MASK)
    (HandleAttributes : ULONG) (st : Registry) (o : KEY_OBJECT) :
  Objects st !! ObjectBody = Some o ->
  exists Granted : ACCESS_MASK,
    let Handle :=
      ExCreateHandle PsGetCurrentProcess
        (mkHandleEntry ObjectBody (nonzero (Z.land HandleAttributes OBJ_INHERIT))
           Granted) in
    CmpCreateHandle ObjectBody GrantedAccess HandleAttributes st =
      if Handle =? 0 then Some ((STATUS_UNSUCCESSFUL, None), st)
      else
        Some ((STATUS_SUCCESS, Some Handle),
              set_Objects
                (<[ObjectBody :=
                     KeyObject.set_PointerCount
                       (KeyObject.PointerCount o
                        + if KeyObject.HandleCount o =? 0 then 1 else 0)
                       (KeyObject.set_HandleCount (KeyObject.HandleCount o + 1) o)]>
                   (Objects st)) st).
Proof.
  intros Eo. unfold CmpCreateHandle, ExGetPreviousMode_is_null.
  rewrite andb_false_r.
  set (Allowed := if nonzero (Z.land GrantedAccess MAXIMUM_ALLOWED)
                  then Z.lor (Z.land GrantedAccess (Z.lnot MAXIMUM_ALLOWED))
                         GENERIC_ALL
                  else GrantedAccess).
  exists (if nonzero (Z.land Allowed GENERIC_ACCESS)
          then RtlMapGenericMask Allowed else Allowed).
  cbv zeta.
  destruct (ExCreateHandle _ _ =? 0) eqn:Eh; simpl; [done|].
  rewrite kernel_handle_masked. mrun.
  assert ((KeyObject.HandleCount o + 1 =? 1) = (KeyObject.HandleCount o =? 0))
    as ->.
  { destruct (Z.eqb_spec (KeyObject.HandleCount o) 0);
      destruct (Z.eqb_spec (KeyObject.HandleCount o + 1) 1); lia. }
  destruct (KeyObject.HandleCount o =? 0); mrun.
  - do 2 f_equal. destruct st; unfold set_Objects; simpl.
    by rewrite insert_insert_eq.
  - do 2 f_equal. destruct st; unfold set_Objects; simpl. do 3 f_equal.
    destruct o; unfold KeyObject.set_PointerCount, KeyObject.set_HandleCount;
      simpl. f_equal. lia.
Qed.

End CreateHandle.

Section OpenKey.
Context `{Externals}.

(** X6. [NtOpenKey] when the walk does not end at a key: a walk that fails,
    whatever its status, gives [STATUS_INVALID_HANDLE], and a walk that
    stops before the end of the name gives [STATUS_OBJECT_NAME_NOT_FOUND].
    No handle is issued, and the reference that the walk took is given
    back: every object is as before the call. *)
Theorem NtOpenKey_walk_failures (st : Registry) (KeyHandle : Z)
    (DesiredAccess : ACCESS_MASK) (ObjectAttributes : Z)
    (scapture spre swalk : NTSTATUS)
    (ObjectCreateInfo : OBJECT_CREATE_INFORMATION)
    (Captured ObjectName RemainingPath : UNICODE_STRING) (Object : Z) :
  callback_list_ok st ->
  KeyHandle <> 0 ->
  match ExGetPreviousMode with
  | KernelMode => True
  | UserMode => NT_SUCCESS (Probe_status KeyHandle) = true
  end ->
  ObpCaptureObjectAttributes ObjectAttributes ExGetPreviousMode
    = (scapture, ObjectCreateInfo, Captured) ->
  NT_SUCCESS scapture = true ->
  NtOpenKey_ObjectName Captured = Some ObjectName ->
  fst <$> CmiCallRegisteredCallbacks RegNtPreOpenKey
            (REG_PRE_OPEN_KEY_INFORMATION ObjectName) st = Some spre ->
  NT_SUCCESS spre = true ->
  CmFindObject_walk ObjectCreateInfo ObjectName = (swalk, Object, RemainingPath) ->
  (NT_SUCCESS swalk = false /\ Object = 0) \/
  (NT_SUCCESS swalk = true /\ Object <> 0 /\ is_Some (Objects st !! Object) /\
   exists c, NtOpenKey_RemainingPath_first RemainingPath = Some c /\ c <> 0) ->
  exists r st',
    NtOpenKey KeyHandle DesiredAccess ObjectAttributes st = Some (r, st') /\
    kh_Status r = (if NT_SUCCESS swalk then STATUS_OBJECT_NAME_NOT_FOUND
                   else STATUS_INVALID_HANDLE) /\
    no_handle_issued r st st' /\
    Objects st' = Objects st.
Proof.
  intros Hok Hkh Hprobe Ecap Escap Ename Hpre Espre Ewalk Hcase.
  destruct (callbacks_answer _ _ _ _ Hok Hpre) as (evs1 & Hrun1 & _).
  assert (Hentry :
    NT_SUCCESS
      match ExGetPreviousMode with
      | KernelMode => STATUS_SUCCESS
      | UserMode => Probe_status KeyHandle
      end = true).
  { by destruct ExGetPreviousMode. }
  unfold NtOpenKey, CmFindObject.
  assert ((KeyHandle =? 0) = false) as -> by by apply Z.eqb_neq.
  rewrite Hentry. cbn [negb].
  rewrite Ecap, Escap. cbn [negb]. rewrite Ename. mrun.
  rewrite Hrun1 by done. mrun.
  destruct Hcase as [[Eswalk ->]|(Eswalk & Hnz & [found Eo] & c & Efirst & Hc)].
  - destruct (callbacks_run RegNtPostOpenKey
                (REG_POST_OPEN_KEY_INFORMATION ObjectName 0 STATUS_INVALID_HANDLE)
                st Hok) as (s2 & evs2 & Hrun2 & _).
    rewrite Eswalk. mrun. rewrite Hrun2 by done. mrun.
    eexists _, _. split; [reflexivity|]. split; [done|]. split; [|done].
    split; [|done]. simpl. destruct ExGetPreviousMode; auto.
  - destruct (callbacks_run RegNtPostOpenKey
                (REG_POST_OPEN_KEY_INFORMATION ObjectName 0
                   STATUS_OBJECT_NAME_NOT_FOUND)
                st Hok) as (s2 & evs2 & Hrun2 & _).
    rewrite Eswalk. mrun.
    assert ((c =? 0) = false) as -> by by apply Z.eqb_neq.
    mrun. rewrite Hrun2 by done. mrun.
    assert ((Object =? 0) = false) as -> by by apply Z.eqb_neq.
    mrun.
    eexists _, _. split; [reflexivity|]. split; [done|].
    simpl. rewrite reference_dropped_map by done. split; [|done].
    split; [|done]. simpl. destruct ExGetPreviousMode; auto.
Qed.

(** X7. [NtOpenKey] when the walk ends at a key that is not marked for
    delete: the handle that [CmpCreateHandle] made, in the table of the
    current process, is stored through [KeyHandle] and the status is
    [STATUS_SUCCESS].  The handle count of the key grows by one; its
    pointer count grows only when this is its first handle, the reference
    of the walk being given back. *)
Theorem NtOpenKey_opens (st : Registry) (KeyHandle : Z)
    (DesiredAccess : ACCESS_MASK) (ObjectAttributes : Z)
    (scapture spre swalk : NTSTATUS)
    (ObjectCreateInfo : OBJECT_CREATE_INFORMATION)
    (Captured ObjectName RemainingPath : UNICODE_STRING) (Object : Z)
    (found : KEY_OBJECT) :
  callback_list_ok st ->
  KeyHandle <> 0 ->
  match ExGetPreviousMode with
  | KernelMode => True
  | UserMode => NT_SUCCESS (Probe_status KeyHandle) = true
  end ->
  ObpCaptureObjectAttributes ObjectAttributes ExGetPreviousMode
    = (scapture, ObjectCreateInfo, Captured) ->
  NT_SUCCESS scapture = true ->
  NtOpenKey_ObjectName Captured = Some ObjectName ->
  fst <$> CmiCallRegisteredCallbacks RegNtPreOpenKey
            (REG_PRE_OPEN_KEY_INFORMATION ObjectName) st = Some spre ->
  NT_SUCCESS spre = true ->
  CmFindObject_walk ObjectCreateInfo ObjectName = (swalk, Object, RemainingPath) ->
  NT_SUCCESS swalk = true ->
  Object <> 0 ->
  Objects st !! Object = Some found ->
  NtOpenKey_RemainingPath_first RemainingPath = Some 0 ->
  nonzero (Z.land (KeyObject.Flags found) KO_MARKED_FOR_DELETE) = false ->
  (forall entry, ExCreateHandle PsGetCurrentProcess entry <> 0) ->
  NT_SUCCESS (Store_status KeyHandle) = true ->
  exists (st' : Registry) (Granted : ACCESS_MASK),
    NtOpenKey KeyHandle DesiredAccess ObjectAttributes st =
      Some (mkHandleResult STATUS_SUCCESS
              (Some (ExCreateHandle PsGetCurrentProcess
                       (mkHandleEntry Object
                          (nonzero (Z.land (Attributes ObjectCreateInfo)
                                      OBJ_INHERIT))
                          Granted)))
              None, st') /\
    Objects st' =
      <[Object :=
          KeyObject.set_PointerCount
            (KeyObject.PointerCount found
             + if KeyObject.HandleCount found =? 0 then 1 else 0)
            (KeyObject.set_HandleCount (KeyObject.HandleCount found + 1) found)]>
        (Objects st).
Proof.
  intros Hok Hkh Hprobe Ecap Escap Ename Hpre Espre Ewalk Eswalk Hnz Eo Efirst
    Eflag Hhandle Hstore.
  destruct (callbacks_answer _ _ _ _ Hok Hpre) as (evs1 & Hrun1 & _).
  destruct (callbacks_run RegNtPostOpenKey
              (REG_POST_OPEN_KEY_INFORMATION ObjectName Object STATUS_SUCCESS)
              st Hok) as (s2 & evs2 & Hrun2 & _).
  assert (Hentry :
    NT_SUCCESS
      match ExGetPreviousMode with
      | KernelMode => STATUS_SUCCESS
      | UserMode => Probe_status KeyHandle
      end = true).
  { by destruct ExGetPreviousMode. }
  unfold NtOpenKey, CmFindObject.
  assert ((KeyHandle =? 0) = false) as -> by by apply Z.eqb_neq.
  rewrite Hentry. cbn [negb].
  rewrite Ecap, Escap. cbn [negb]. rewrite Ename. mrun.
  rewrite Hrun1 by done. mrun.
  match goal with
  | |- context [CmpCreateHandle ?a ?b ?c ?s] =>
    destruct (CmpCreateHandle_run a b c s
                (KeyObject.set_PointerCount (KeyObject.PointerCount found + 1) found))
      as [Granted Hcreate]; [by simpl; rewrite lookup_insert_eq|];
    cbv zeta in Hcreate; rewrite Hcreate; clear Hcreate
  end.
  pose proof (Hhandle (mkHandleEntry Object
                (nonzero (Z.land (Attributes ObjectCreateInfo) OBJ_INHERIT))
                Granted)) as Hh.
  apply Z.eqb_neq in Hh. rewrite Hh. mrun.
  rewrite Hrun2 by done. mrun.
  assert ((Object =? 0) = false) as -> by by apply Z.eqb_neq.
  mrun.
  eexists _, Granted. split; [reflexivity|]. simpl.
  rewrite !insert_insert_eq. f_equal.
  destruct found; unfold KeyObject.set_PointerCount, KeyObject.set_HandleCount;
    simpl. f_equal. lia.
Qed.

End OpenKey.

(** The loop of [NtCreateKey] finds a backslash that is in its range. *)
Lemma has_backslash_from_found (Buffer : option (list WCHAR)) (count : nat)
    (i k : Z) :
  i <= k < i + Z.of_nat count ->
  wchar_at Buffer k = Some BACKSLASH ->
  (forall j, i <= j < k -> is_Some (wchar_at Buffer j)) ->
  has_backslash_from Buffer i count = Some true.
Proof.
  revert i. induction count as [|count IH]; intros i Hk Ek Hmapped; [lia|].
  simpl. destruct (decide (i = k)) as [->|Hne].
  - by rewrite Ek.
  - destruct (Hmapped i) as [c Ec]; [lia|]. rewrite Ec. simpl.
    destruct (BACKSLASH =? c); [done|].
    apply IH; [lia|done|]. intros j Hj. apply Hmapped. lia.
Qed.

Section CreateKey.
Context `{Externals}.

(** Running [NtCreateKey] up to its walk. *)
Ltac create_key_entry Hentry Hok KeyHandle Class Disposition :=
  let Hprobe := fresh "Hprobe" in
  let Hclass := fresh "Hclass" in
  let scapture := fresh "scapture" in
  let Ecap := fresh "Ecap" in
  let Escap := fresh "Escap" in
  let spre := fresh "spre" in
  let Hpre := fresh "Hpre" in
  let Espre := fresh "Espre" in
  let evs1 := fresh "evs1" in
  let Hrun1 := fresh "Hrun1" in
  let Hgo := fresh "Hgo" in
  let Hcls := fresh "Hcls" in
  let sc := fresh "sc" in
  let cc := fresh "cc" in
  let Esc := fresh "Esc" in
  destruct Hentry as (Hprobe & Hclass & (scapture & Ecap & Escap)
                      & (spre & Hpre & Espre));
  destruct (callbacks_answer _ _ _ _ Hok Hpre) as (evs1 & Hrun1 & _);
  assert (Hgo :
    NT_SUCCESS
      match ExGetPreviousMode with
      | KernelMode => STATUS_SUCCESS
      | UserMode =>
        if NT_SUCCESS (Probe_status KeyHandle) && negb (Disposition =? 0)
        then Probe_status Disposition else Probe_status KeyHandle
      end = true)
    by (destruct ExGetPreviousMode; [done|];
        let Hk := fresh in let Hd := fresh in
        destruct Hprobe as [Hk Hd]; rewrite Hk; simpl;
        let Ed := fresh in
        destruct (Disposition =? 0) eqn:Ed; [done|];
        apply Hd; by apply Z.eqb_neq);
  unfold NtCreateKey, CmFindObject; rewrite Hgo; cbn [negb];
  assert (Hcls :
    exists sc cc,
      (if negb (Class =? 0)
       then ProbeAndCaptureUnicodeString ExGetPreviousMode Class
       else (match ExGetPreviousMode with
             | KernelMode => STATUS_SUCCESS
             | UserMode =>
               if NT_SUCCESS (Probe_status KeyHandle) && negb (Disposition =? 0)
               then Probe_status Disposition else Probe_status KeyHandle
             end, US.empty)) = (sc, cc) /\ NT_SUCCESS sc = true)
    by (let Ec := fresh in
        destruct (Class =? 0) eqn:Ec; simpl;
        [ by eexists _, _
        | let sc0 := fresh in let cc0 := fresh in let Epc := fresh in
          destruct (ProbeAndCaptureUnicodeString ExGetPreviousMode Class)
            as [sc0 cc0] eqn:Epc;
          exists sc0, cc0; split; [done|]; apply Z.eqb_neq in Ec;
          by specialize (Hclass Ec) ]);
  let Ecls := fresh "Ecls" in
  destruct Hcls as (sc & cc & Ecls & Esc); rewrite Ecls, Esc; cbn [negb];
  rewrite Ecap, Escap; cbn [negb];
  rewrite (bind_run _ _ _ _ _ (Hrun1 _ eq_refl eq_refl));
  rewrite Espre; cbn [negb].

(** X8. [NtCreateKey] when the walk ends at a key that exists and is not
    marked for delete opens it: the disposition is
    [REG_OPENED_EXISTING_KEY] and the handle is that of [CmpCreateHandle].
    When the handle table delivers no handle the call still stores
    through [KeyHandle] and [Disposition], the handle stored being the
    unset local [hKey], and returns [STATUS_UNSUCCESSFUL].  The reference
    that the walk took on the key is kept in both cases. *)
Theorem NtCreateKey_opens_existing (st : Registry) (KeyHandle : Z)
    (DesiredAccess : ACCESS_MASK) (ObjectAttributes : Z) (TitleIndex : ULONG)
    (Class : Z) (CreateOptions : ULONG) (Disposition : Z) (swalk : NTSTATUS)
    (ObjectCreateInfo : OBJECT_CREATE_INFORMATION)
    (ObjectName RemainingPath : UNICODE_STRING) (Object : Z)
    (found : KEY_OBJECT) :
  callback_list_ok st ->
  NtCreateKey_entry st KeyHandle ObjectAttributes Class Disposition
    ObjectCreateInfo ObjectName ->
  CmFindObject_walk ObjectCreateInfo ObjectName = (swalk, Object, RemainingPath) ->
  NT_SUCCESS swalk = true ->
  US.Length RemainingPath = 0 ->
  Objects st !! Object = Some found ->
  nonzero (Z.land (KeyObject.Flags found) KO_MARKED_FOR_DELETE) = false ->
  NT_SUCCESS (Store_status KeyHandle) = true ->
  (Disposition <> 0 -> NT_SUCCESS (Store_status Disposition) = true) ->
  exists (st' : Registry) (Granted : ACCESS_MASK),
    let Handle :=
      ExCreateHandle PsGetCurrentProcess
        (mkHandleEntry Object
           (nonzero (Z.land (Attributes ObjectCreateInfo) OBJ_INHERIT)) Granted) in
    let LocalDisposition :=
      if Disposition =? 0 then None else Some REG_OPENED_EXISTING_KEY in
    NtCreateKey KeyHandle DesiredAccess ObjectAttributes TitleIndex Class
      CreateOptions Disposition st =
      Some (if Handle =? 0
            then mkHandleResult STATUS_UNSUCCESSFUL (Some hKey_indeterminate)
                   LocalDisposition
            else mkHandleResult STATUS_SUCCESS (Some Handle) LocalDisposition,
            st') /\
    Objects st' =
      <[Object :=
          if Handle =? 0
          then KeyObject.set_PointerCount (KeyObject.PointerCount found + 1) found
          else
            KeyObject.set_PointerCount
              (KeyObject.PointerCount found + 1
               + if KeyObject.HandleCount found =? 0 then 1 else 0)
              (KeyObject.set_HandleCount (KeyObject.HandleCount found + 1) found)]>
        (Objects st).
Proof.
  intros Hok Hentry Ewalk Eswalk Elen Eo Eflag Hstore Hdisp.
  create_key_entry Hentry Hok KeyHandle Class Disposition.
  rewrite Ewalk, Eswalk. mrun.
  match goal with
  | |- context [CmpCreateHandle ?a ?b ?c ?s] =>
    destruct (CmpCreateHandle_run a b c s
                (KeyObject.set_PointerCount (KeyObject.PointerCount found + 1) found))
      as [Granted Hcreate]; [by simpl; rewrite lookup_insert_eq|];
    cbv zeta in Hcreate; rewrite Hcreate; clear Hcreate
  end.
  exists
    (set_Trace
       (Trace st ++ evs1
        ++ walk_invocations (CallbackPool st) (CmiCallbackHead st)
             RegNtPostCreateKey
             (REG_POST_CREATE_KEY_INFORMATION ObjectName 0
                (if ExCreateHandle PsGetCurrentProcess
                      (mkHandleEntry Object
                         (nonzero (Z.land (Attributes ObjectCreateInfo) OBJ_INHERIT))
                         Granted) =? 0
                 then STATUS_UNSUCCESSFUL else STATUS_SUCCESS)))
       (set_Objects
          (<[Object :=
               if ExCreateHandle PsGetCurrentProcess
                    (mkHandleEntry Object
                       (nonzero (Z.land (Attributes ObjectCreateInfo) OBJ_INHERIT))
                       Granted) =? 0
               then KeyObject.set_PointerCount (KeyObject.PointerCount found + 1)
                      found
               else
                 KeyObject.set_PointerCount
                   (KeyObject.PointerCount found + 1
                    + if KeyObject.HandleCount found =? 0 then 1 else 0)
                   (KeyObject.set_HandleCount (KeyObject.HandleCount found + 1)
                      found)]> (Objects st)) st)), Granted.
  cbv zeta. split; [|done].
  set (Handle := ExCreateHandle PsGetCurrentProcess _).
  assert (Hstored :
    (if Disposition =? 0 then true
     else NT_SUCCESS (Store_status Disposition)) = true).
  { destruct (Disposition =? 0) eqn:Ed; [done|]. apply Hdisp.
    by apply Z.eqb_neq. }
  destruct (Handle =? 0) eqn:Eh; simpl;
    (rewrite walk_trace by done); simpl;
    destruct (Disposition =? 0); try rewrite Hstored; simpl;
    do 2 f_equal; destruct st; unfold set_Trace, set_Objects; simpl;
    rewrite ?insert_insert_eq, <- ?app_assoc; try done.
  all: do 2 f_equal; destruct found;
    unfold KeyObject.set_PointerCount, KeyObject.set_HandleCount; simpl;
    f_equal; lia.
Qed.

(** X9. [NtCreateKey] does not create trees: when the remaining path of the
    walk, its trailing backslash dropped, has a backslash after its first
    character, the call returns [STATUS_OBJECT_NAME_NOT_FOUND]; it creates
    no key object and no key cell and issues no handle.  The reference
    that the walk took on the key it reached is kept. *)
Theorem NtCreateKey_refuses_trees (st : Registry) (KeyHandle : Z)
    (DesiredAccess : ACCESS_MASK) (ObjectAttributes : Z) (TitleIndex : ULONG)
    (Class : Z) (CreateOptions : ULONG) (Disposition : Z) (swalk : NTSTATUS)
    (ObjectCreateInfo : OBJECT_CREATE_INFORMATION)
    (ObjectName RemainingPath stripped : UNICODE_STRING) (Object : Z)
    (reached : KEY_OBJECT) (k : Z) :
  callback_list_ok st ->
  NtCreateKey_entry st KeyHandle ObjectAttributes Class Disposition
    ObjectCreateInfo ObjectName ->
  CmFindObject_walk ObjectCreateInfo ObjectName = (swalk, Object, RemainingPath) ->
  NT_SUCCESS swalk = true ->
  US.Length RemainingPath <> 0 ->
  Objects st !! Object = Some reached ->
  is_Some (wchar_at (US.Buffer RemainingPath) 0) ->
  strip_trailing_backslash RemainingPath = Some stripped ->
  1 <= k < US.Length stripped / sizeof_WCHAR ->
  wchar_at (US.Buffer stripped) k = Some BACKSLASH ->
  (forall j, 1 <= j < k -> is_Some (wchar_at (US.Buffer stripped) j)) ->
  exists r st',
    NtCreateKey KeyHandle DesiredAccess ObjectAttributes TitleIndex Class
      CreateOptions Disposition st = Some (r, st') /\
    kh_Status r = STATUS_OBJECT_NAME_NOT_FOUND /\
    no_handle_issued r st st' /\
    Hives st' = Hives st /\
    CmiKeyObjectListHead st' = CmiKeyObjectListHead st /\
    Objects st' =
      <[Object := KeyObject.set_PointerCount
                    (KeyObject.PointerCount reached + 1) reached]> (Objects st).
Proof.
  intros Hok Hentry Ewalk Eswalk Hlen Eo [first Efirst] Estrip Hk Ek Hmapped.
  create_key_entry Hentry Hok KeyHandle Class Disposition.
  rewrite Ewalk, Eswalk. mrun.
  assert ((US.Length RemainingPath =? 0) = false) as -> by by apply Z.eqb_neq.
  mrun.
  rewrite (has_backslash_from_found _ _ 1 k); [|lia|done|done]. mrun.
  rewrite walk_trace by done. mrun.
  eexists _, _. split; [reflexivity|]. split; [done|]. simpl.
  split; [|done]. split; [destruct ExGetPreviousMode; auto|].
  intros p. simpl. destruct (decide (p = Object)) as [->|Hp].
  - by rewrite lookup_insert_eq, Eo.
  - by rewrite lookup_insert_ne.
Qed.

(** X10. [NtCreateKey] creates a key below the key that the walk reached, when
    the remaining path is one name: the new key object has the reached key
    as its parent, is in the hive of its parent, is linked at the tail of
    the list of key objects and has the name of the remaining path (less
    a leading backslash); its key cell, which [CmiAddSubKey] allocated,
    names the key cell of the parent as its parent and takes over its
    security cell.  The call answers the handle of [ObInsertObject], the
    disposition [REG_CREATED_NEW_KEY] and the status of [CmiAddSubKey],
    and asks for the hives to be synchronised. *)
Theorem NtCreateKey_creates (st : Registry) (KeyHandle : Z)
    (DesiredAccess : ACCESS_MASK) (ObjectAttributes : Z) (TitleIndex : ULONG)
    (Class : Z) (CreateOptions : ULONG) (Disposition : Z)
    (swalk screate sinsert sadd : NTSTATUS)
    (ObjectCreateInfo : OBJECT_CREATE_INFORMATION)
    (ObjectName RemainingPath stripped : UNICODE_STRING) (Object KeyObject : Z)
    (parent : KEY_OBJECT) (first : WCHAR) (hKey : HANDLE)
    (hive added : EREGISTRY_HIVE) (KeyCellOffset : HCELL_INDEX)
    (ParentCell KeyCell : CM_KEY_NODE) :
  let CapturedClass :=
    if Class =? 0 then US.empty
    else (ProbeAndCaptureUnicodeString ExGetPreviousMode Class).2 in
  let Name :=
    if first =? BACKSLASH
    then RtlpCreateUnicodeString (drop 1 (default [] (US.Buffer stripped)))
    else stripped in
  let referenced :=
    KeyObject.set_PointerCount (KeyObject.PointerCount parent + 1) parent in
  callback_list_ok st ->
  NtCreateKey_entry st KeyHandle ObjectAttributes Class Disposition
    ObjectCreateInfo ObjectName ->
  CmFindObject_walk ObjectCreateInfo ObjectName = (swalk, Object, RemainingPath) ->
  NT_SUCCESS swalk = true ->
  US.Length RemainingPath <> 0 ->
  Objects st !! Object = Some parent ->
  wchar_at (US.Buffer RemainingPath) 0 = Some first ->
  strip_trailing_backslash RemainingPath = Some stripped ->
  has_backslash_from (US.Buffer stripped) 1
    (Z.to_nat (US.Length stripped / sizeof_WCHAR - 1)) = Some false ->
  ObCreateObject_body = (screate, KeyObject) ->
  NT_SUCCESS screate = true ->
  KeyObject <> Object ->
  ObInsertObject_handle KeyObject DesiredAccess = (sinsert, hKey) ->
  NT_SUCCESS sinsert = true ->
  Hives st !! KeyObject.RegistryHive parent = Some hive ->
  CmiAddSubKey hive referenced stripped TitleIndex CapturedClass CreateOptions
    = (sadd, added, KeyCellOffset) ->
  NT_SUCCESS sadd = true ->
  get_key_cell (RegHive.Hive added) (KeyObject.KeyCellOffset parent)
    = Some ParentCell ->
  get_key_cell (RegHive.Hive added) KeyCellOffset = Some KeyCell ->
  NT_SUCCESS (Store_status KeyHandle) = true ->
  (Disposition <> 0 -> NT_SUCCESS (Store_status Disposition) = true) ->
  exists (st' : Registry) (created : EREGISTRY_HIVE) (events : list Event),
    NtCreateKey KeyHandle DesiredAccess ObjectAttributes TitleIndex Class
      CreateOptions Disposition st =
      Some (mkHandleResult sadd (Some hKey)
              (if Disposition =? 0 then None else Some REG_CREATED_NEW_KEY),
            st') /\
    Objects st' !! KeyObject =
      Some (KeyObject.mk 2 1 0 Name (KeyObject.RegistryHive parent)
              KeyCellOffset Object 0 0 []) /\
    Objects st' !! Object = Some (CmiAddKeyToList referenced KeyObject) /\
    CmiKeyObjectListHead st' = CmiKeyObjectListHead st ++ [KeyObject] /\
    Hives st' = <[KeyObject.RegistryHive parent := created]> (Hives st) /\
    get_key_cell (RegHive.Hive created) KeyCellOffset =
      Some (KeyNode.set_SecurityKeyOffset (KeyNode.SecurityKeyOffset ParentCell)
              (KeyNode.set_Parent (KeyObject.KeyCellOffset parent) KeyCell)) /\
    Trace st' = Trace st ++ events ++ [EvSyncHives].
Proof.
  intros CapturedClass Name referenced Hok Hentry Ewalk Eswalk Hlen Eo Efirst
    Estrip Etree Ecreate Escreate Hnew Einsert Esinsert Eh Eadd Esadd Epc Ekc
    Hstore Hdisp.
  create_key_entry Hentry Hok KeyHandle Class Disposition.
  assert (cc = CapturedClass) as ->.
  { subst CapturedClass. destruct (Class =? 0); simpl in Ecls; [congruence|].
    by rewrite Ecls. }
  clear Ecls.
  rewrite Ewalk, Eswalk. mrun.
  assert ((US.Length RemainingPath =? 0) = false) as -> by by apply Z.eqb_neq.
  mrun.
  rewrite (lookup_insert_ne _ KeyObject Object) by done.
  rewrite lookup_insert_eq. mrun. fold referenced. rewrite Eadd. mrun.
  rewrite !insert_insert_eq.
  rewrite (lookup_insert_ne _ KeyObject Object) by done.
  rewrite lookup_insert_eq. mrun.
  rewrite walk_trace by done. mrun.
  assert (Hstored :
    (if Disposition =? 0 then true
     else NT_SUCCESS (Store_status Disposition)) = true).
  { destruct (Disposition =? 0) eqn:Ed; [done|]. apply Hdisp.
    by apply Z.eqb_neq. }
  eexists _, _, _. split.
  - destruct (Disposition =? 0); [reflexivity|]. rewrite Hstored. reflexivity.
  - simpl. split; [|split; [|split; [|split; [|split]]]].
    + rewrite lookup_insert_ne by done. rewrite lookup_insert_eq.
      subst Name. unfold KeyObject.set_Name, KeyObject.set_KeyCellOffset. simpl.
      by destruct (first =? BACKSLASH).
    + by rewrite lookup_insert_eq.
    + done.
    + done.
    + simpl. unfold get_key_cell, HvGetCell, write_cell. simpl.
      rewrite lookup_alter_eq.
      unfold get_key_cell, HvGetCell in Ekc.
      destruct (Cells (RegHive.Hive added) !! KeyCellOffset); [done|done].
    + rewrite <- (app_assoc (Trace st) evs1).
      by rewrite <- (app_assoc (Trace st) (evs1 ++ _)).
Qed.

End CreateKey.

(* ===================================================================== *)
(** ** The buffers of the key queries                                     *)
(* ===================================================================== *)

(** Copying out at most the whole name of a key cell succeeds. *)
Lemma copy_key_name_total (Cell : CM_KEY_NODE) (n : Z) :
  Z.of_nat (length (KeyNode.Name Cell)) = KeyNode.NameSize Cell ->
  0 <= n <= key_NameSize Cell ->
  is_Some (copy_key_name Cell n).
Proof.
  unfold copy_key_name, key_NameSize, CmiCopyPackedName, RtlCopyMemory,
    sizeof_WCHAR.
  intros Hlen Hn. destruct (nonzero _).
  - assert (Hq : 0 <= n / 2 <= KeyNode.NameSize Cell).
    { split; [apply Z.div_pos; lia|].
      apply Z.div_le_upper_bound; lia. }
    rewrite Hlen.
    destruct (Z.leb_spec 0 (n / 2)); [|lia].
    destruct (Z.leb_spec (n / 2) (KeyNode.NameSize Cell)); [|lia].
    simpl. by eexists.
  - rewrite Hlen.
    destruct (Z.leb_spec 0 n); [|lia].
    destruct (Z.leb_spec n (KeyNode.NameSize Cell)); [|lia].
    simpl. by eexists.
Qed.

(** Copying out at most the whole class name of a key cell succeeds. *)
Lemma copy_class_total (h : HHIVE) (Cell : CM_KEY_NODE) (n : Z) :
  key_cell_stored h Cell ->
  0 <= n <= KeyNode.ClassSize Cell ->
  is_Some (copy_class h Cell n).
Proof.
  intros (_ & Hc & Hcell) Hn. unfold copy_class.
  destruct (n =? 0) eqn:En; simpl; [by eexists|].
  apply Z.eqb_neq in En.
  destruct Hcell as (bytes & -> & Hbytes); [lia|].
  unfold RtlCopyMemory.
  destruct (Z.leb_spec 0 n); [|lia].
  destruct (Z.leb_spec n (Z.of_nat (length bytes))); [|lia].
  simpl. by eexists.
Qed.

#[local] Arguments copy_key_name : simpl never.
#[local] Arguments copy_class : simpl never.

Section KeyBuffers.
Context `{Externals}.

(** X11. [NtEnumerateKey], for each of its three information classes and a
    subkey cell stored in full: the call reports the required total
    (header, name and class name) whatever the buffer, answers
    [STATUS_BUFFER_TOO_SMALL] exactly when the header does not fit and
    [STATUS_BUFFER_OVERFLOW] exactly when the header fits and the total
    does not, and stores nothing when the header does not fit. *)
Theorem NtEnumerateKey_buffer_shape (KeyObject : Z) (h : HHIVE)
    (KeyCell SubKeyCell : CM_KEY_NODE) (Index : ULONG)
    (cls : KEY_INFORMATION_CLASS) (Length : ULONG) (header required : Z) :
  key_cell_stored h SubKeyCell ->
  key_information_sizes cls (key_NameSize SubKeyCell)
    (KeyNode.ClassSize SubKeyCell) = Some (header, required) ->
  key_NameSize SubKeyCell + KeyNode.ClassSize SubKeyCell < 2 ^ 31 ->
  0 <= Length < 2 ^ 32 ->
  exists r,
    NtEnumerateKey_information KeyObject h KeyCell SubKeyCell Index cls Length
      = Some r /\
    kq_ResultLength r = Some required /\
    kq_Status r = buffer_shape_status Length header required /\
    (Length < header -> kq_Information r = None).
Proof.
  intros Hstored Hsizes Hbound HL.
  pose proof Hstored as (Hlen & HC & _).
  assert (HN : 0 <= KeyNode.NameSize SubKeyCell) by lia.
  assert (HN2 : 0 <= key_NameSize SubKeyCell)
    by (unfold key_NameSize, sizeof_WCHAR; destruct (nonzero _); lia).
  assert (Epacked :
    (if nonzero (Z.land (KeyNode.Flags SubKeyCell) REG_KEY_NAME_PACKED)
     then to_ULONG (KeyNode.NameSize SubKeyCell * sizeof_WCHAR)
     else KeyNode.NameSize SubKeyCell) = key_NameSize SubKeyCell).
  { unfold key_NameSize in *. destruct (nonzero _); [|done].
    apply to_ULONG_small. lia. }
  unfold NtEnumerateKey_information, buffer_shape_status. rewrite Epacked.
  destruct cls; simpl in Hsizes; try done; injection Hsizes as <- <-.
  - (* KeyBasicInformation *)
    unfold KEY_BASIC_INFORMATION_Name in *.
    rewrite (to_ULONG_small (16 + _)) by lia.
    destruct (Z.ltb_spec Length 16) as [Hsmall|Hfits].
    { eexists. split; [reflexivity|]. by repeat split. }
    rewrite (to_ULONG_small (Length - 16)) by lia.
    destruct (Z.ltb_spec (Length - 16) (key_NameSize SubKeyCell)) as [Hcut|Hall].
    + destruct (copy_key_name_total SubKeyCell (Length - 16) Hlen) as [Name EName];
        [lia|].
      simpl. rewrite EName. simpl. eexists. split; [reflexivity|]. simpl.
      destruct (Z.ltb_spec Length (16 + key_NameSize SubKeyCell)); [|lia].
      split; [done|]. split; [done|]. lia.
    + destruct (copy_key_name_total SubKeyCell (key_NameSize SubKeyCell) Hlen)
        as [Name EName]; [lia|].
      simpl. rewrite EName. simpl. eexists. split; [reflexivity|]. simpl.
      destruct (Z.ltb_spec Length (16 + key_NameSize SubKeyCell)); [lia|].
      split; [done|]. split; [done|]. lia.
  - (* KeyNodeInformation *)
    unfold KEY_NODE_INFORMATION_Name in *.
    rewrite (to_ULONG_small (24 + _ + _)) by lia.
    destruct (Z.ltb_spec Length 24) as [Hsmall|Hfits].
    { eexists. split; [reflexivity|]. by repeat split. }
    rewrite (to_ULONG_small (Length - 24)) by lia.
    destruct (Z.ltb_spec (Length - 24) (key_NameSize SubKeyCell)) as [Hcut|Hall].
    + destruct (copy_key_name_total SubKeyCell (Length - 24) Hlen) as [Name EName];
        [lia|].
      destruct (copy_class_total h SubKeyCell 0 Hstored) as [Cls ECls]; [lia|].
      simpl. rewrite EName. simpl. rewrite ?ECls. simpl.
      eexists. split; [reflexivity|]. simpl.
      destruct (Z.ltb_spec Length
                  (24 + key_NameSize SubKeyCell + KeyNode.ClassSize SubKeyCell));
        [|lia].
      split; [done|]. split; [done|]. lia.
    + rewrite (to_ULONG_small (Length - 24 - _)) by lia.
      destruct (copy_key_name_total SubKeyCell (key_NameSize SubKeyCell) Hlen)
        as [Name EName]; [lia|].
      destruct (Z.ltb_spec (Length - 24 - key_NameSize SubKeyCell)
                  (KeyNode.ClassSize SubKeyCell)) as [Hcut|Hall'].
      * destruct (copy_class_total h SubKeyCell
                    (Length - 24 - key_NameSize SubKeyCell) Hstored)
          as [Cls ECls]; [lia|].
        simpl. rewrite EName. simpl. rewrite ?ECls. simpl.
        eexists. split; [reflexivity|]. simpl.
        destruct (Z.ltb_spec Length
                    (24 + key_NameSize SubKeyCell + KeyNode.ClassSize SubKeyCell));
          [|lia].
        split; [done|]. split; [done|]. lia.
      * destruct (copy_class_total h SubKeyCell (KeyNode.ClassSize SubKeyCell)
                    Hstored) as [Cls ECls]; [lia|].
        simpl. rewrite EName. simpl. rewrite ?ECls. simpl.
        eexists. split; [reflexivity|]. simpl.
        destruct (Z.ltb_spec Length
                    (24 + key_NameSize SubKeyCell + KeyNode.ClassSize SubKeyCell));
          [lia|].
        split; [done|]. split; [done|]. lia.
  - (* KeyFullInformation *)
    unfold KEY_FULL_INFORMATION_Class in *.
    rewrite (to_ULONG_small (44 + _)) by lia.
    destruct (Z.ltb_spec Length 44) as [Hsmall|Hfits].
    { eexists. split; [reflexivity|]. by repeat split. }
    rewrite (to_ULONG_small (Length - 44)) by lia.
    destruct (Z.ltb_spec (Length - 44) (KeyNode.ClassSize SubKeyCell))
      as [Hcut|Hall].
    + destruct (copy_class_total h SubKeyCell (Length - 44) Hstored)
        as [Cls ECls]; [lia|].
      simpl. rewrite ?ECls. simpl. eexists. split; [reflexivity|]. simpl.
      destruct (Z.ltb_spec Length (44 + KeyNode.ClassSize SubKeyCell)); [|lia].
      split; [done|]. split; [done|]. lia.
    + destruct (copy_class_total h SubKeyCell (KeyNode.ClassSize SubKeyCell)
                  Hstored) as [Cls ECls]; [lia|].
      simpl. rewrite ?ECls. simpl. eexists. split; [reflexivity|]. simpl.
      destruct (Z.ltb_spec Length (44 + KeyNode.ClassSize SubKeyCell)); [lia|].
      split; [done|]. split; [done|]. lia.
Qed.

End KeyBuffers.

(* ===================================================================== *)
(** ** The buffers of the value queries                                   *)
(* ===================================================================== *)

#[local] Arguments copy_value_name : simpl never.
#[local] Arguments copy_value_data : simpl never.

Lemma value_DataSize_bound (ValueCell : CM_KEY_VALUE) :
  0 <= value_DataSize ValueCell < 2 ^ 31.
Proof.
  unfold value_DataSize, REG_DATA_SIZE_MASK.
  change 0x7FFFFFFF with (Z.ones 31). rewrite Z.land_ones by lia.
  apply Z.mod_pos_bound. lia.
Qed.

(** Copying out at most the whole name of a value cell succeeds. *)
Lemma copy_value_name_total (ValueCell : CM_KEY_VALUE) (n : Z) :
  value_name_stored ValueCell ->
  0 <= n <= value_NameSize ValueCell ->
  is_Some (copy_value_name ValueCell n).
Proof.
  unfold copy_value_name, value_NameSize, CmiCopyPackedName, RtlCopyMemory,
    sizeof_WCHAR.
  intros [Hlen Hshort] Hn. destruct (nonzero _).
  - rewrite to_ULONG_small in Hn by lia.
    assert (Hq : 0 <= n / 2 <= KeyValue.NameSize ValueCell).
    { split; [apply Z.div_pos; lia|].
      apply Z.div_le_upper_bound; lia. }
    rewrite Hlen.
    destruct (Z.leb_spec 0 (n / 2)); [|lia].
    destruct (Z.leb_spec (n / 2) (KeyValue.NameSize ValueCell)); [|lia].
    simpl. by eexists.
  - rewrite Hlen.
    destruct (Z.leb_spec 0 n); [|lia].
    destruct (Z.leb_spec n (KeyValue.NameSize ValueCell)); [|lia].
    simpl. by eexists.
Qed.

(** Copying out at most the whole data of a value cell succeeds, and
    gives that many bytes. *)
Lemma copy_value_data_total (h : HHIVE) (ValueCell : CM_KEY_VALUE) (n : Z) :
  value_data_stored h ValueCell ->
  0 <= n <= value_DataSize ValueCell ->
  exists bytes,
    copy_value_data h ValueCell n = Some bytes /\ Z.of_nat (length bytes) = n.
Proof.
  unfold copy_value_data, value_data_stored, RtlCopyMemory, sizeof_HCELL_INDEX.
  intros Hstored Hn. destruct (nonzero _); simpl.
  - change (length (ULONG_bytes (KeyValue.DataOffset ValueCell))) with 4%nat.
    destruct (Z.leb_spec 0 n); [|lia].
    destruct (Z.leb_spec n (Z.of_nat 4)); [|lia].
    simpl. eexists. split; [done|]. rewrite length_take. simpl. lia.
  - destruct Hstored as (bytes & -> & Hbytes). simpl.
    destruct (Z.leb_spec 0 n); [|lia].
    destruct (Z.leb_spec n (Z.of_nat (length bytes))); [|lia].
    simpl. eexists. split; [done|]. rewrite length_take. lia.
Qed.

(** X12. The value queries, classes [KeyValueBasicInformation] and
    [KeyValuePartialInformation] of [NtEnumerateValueKey] and
    [NtQueryValueKey], on a value cell stored in full: the required total
    (header plus name, header plus data) is reported whatever the buffer;
    the status is [STATUS_BUFFER_TOO_SMALL] exactly when the header does
    not fit and [STATUS_BUFFER_OVERFLOW] exactly when the header fits and
    the total does not; with a buffer of the required size the whole data
    is stored together with its type and length. *)
Theorem value_information_buffer_shape (h : HHIVE) (ValueCell : CM_KEY_VALUE)
    (Length : ULONG) (Status : NTSTATUS) :
  value_name_stored ValueCell ->
  value_data_stored h ValueCell ->
  0 <= KeyValue.NameSize ValueCell ->
  0 <= Length < 2 ^ 32 ->
  (exists r,
     value_basic_information ValueCell Length Status = Some r /\
     vq_ResultLength r
       = Some (KEY_VALUE_BASIC_INFORMATION_Name + value_NameSize ValueCell) /\
     vq_Status r =
       (if Length <? KEY_VALUE_BASIC_INFORMATION_Name
        then STATUS_BUFFER_TOO_SMALL
        else if Length <? KEY_VALUE_BASIC_INFORMATION_Name
                          + value_NameSize ValueCell
        then STATUS_BUFFER_OVERFLOW else Status)) /\
  (exists r,
     value_partial_information h ValueCell Length Status = Some r /\
     vq_ResultLength r
       = Some (KEY_VALUE_PARTIAL_INFORMATION_Data + value_DataSize ValueCell) /\
     vq_Status r =
       (if Length <? KEY_VALUE_PARTIAL_INFORMATION_Data
        then STATUS_BUFFER_TOO_SMALL
        else if Length <? KEY_VALUE_PARTIAL_INFORMATION_Data
                          + value_DataSize ValueCell
        then STATUS_BUFFER_OVERFLOW else Status) /\
     (KEY_VALUE_PARTIAL_INFORMATION_Data + value_DataSize ValueCell <= Length ->
      exists Data,
        copy_value_data h ValueCell (value_DataSize ValueCell) = Some Data /\
        vq_Information r =
          Some (KEY_VALUE_PARTIAL_INFORMATION 0 (KeyValue.DataType ValueCell)
                  (value_DataSize ValueCell) Data))).
Proof.
  intros Hname Hdata HN HL.
  pose proof (value_DataSize_bound ValueCell) as HD.
  assert (HN2 : 0 <= value_NameSize ValueCell < 2 ^ 17).
  { unfold value_NameSize, sizeof_WCHAR. destruct Hname as [_ Hshort].
    destruct (nonzero _); [rewrite to_ULONG_small|]; lia. }
  split.
  - unfold value_basic_information, KEY_VALUE_BASIC_INFORMATION_Name.
    rewrite (to_ULONG_small (12 + _)) by lia.
    destruct (Z.ltb_spec Length 12) as [Hsmall|Hfits].
    { eexists. split; [reflexivity|]. by split. }
    rewrite (to_ULONG_small (Length - 12)) by lia.
    destruct (Z.ltb_spec (Length - 12) (value_NameSize ValueCell)) as [Hcut|Hall].
    + destruct (copy_value_name_total ValueCell (Length - 12) Hname)
        as [Name EName]; [lia|].
      simpl. rewrite EName. simpl. eexists. split; [reflexivity|]. simpl.
      destruct (Z.ltb_spec Length (12 + value_NameSize ValueCell)); [done|lia].
    + destruct (copy_value_name_total ValueCell (value_NameSize ValueCell) Hname)
        as [Name EName]; [lia|].
      simpl. rewrite EName. simpl. eexists. split; [reflexivity|]. simpl.
      destruct (Z.ltb_spec Length (12 + value_NameSize ValueCell)); [lia|done].
  - unfold value_partial_information, KEY_VALUE_PARTIAL_INFORMATION_Data.
    fold (value_DataSize ValueCell).
    rewrite (to_ULONG_small (12 + _)) by lia.
    destruct (Z.ltb_spec Length 12) as [Hsmall|Hfits].
    { eexists. split; [reflexivity|]. split; [done|]. split; [done|]. lia. }
    rewrite (to_ULONG_small (Length - 12)) by lia.
    destruct (Z.ltb_spec (Length - 12) (value_DataSize ValueCell)) as [Hcut|Hall].
    + destruct (copy_value_data_total h ValueCell (Length - 12) Hdata)
        as (Data & EData & _); [lia|].
      simpl. rewrite EData. simpl. eexists. split; [reflexivity|]. simpl.
      destruct (Z.ltb_spec Length (12 + value_DataSize ValueCell)); [|lia].
      split; [done|]. split; [done|]. lia.
    + destruct (copy_value_data_total h ValueCell (value_DataSize ValueCell) Hdata)
        as (Data & EData & _); [lia|].
      simpl. rewrite EData. simpl. eexists. split; [reflexivity|]. simpl.
      destruct (Z.ltb_spec Length (12 + value_DataSize ValueCell)); [lia|].
      split; [done|]. split; [done|]. intros _. by exists Data.
Qed.

(* ===================================================================== *)
(** ** What NtSetValueKey stores is what the queries read                 *)
(* ===================================================================== *)

(** The low byte and the rest of a word made of a byte and a rest. *)
Lemma word_low_byte (a r : Z) :
  0 <= a < 256 -> Z.land (Z.lor a (Z.shiftl r 8)) 255 = a.
Proof.
  intros Ha. rewrite Z.land_lor_distr_l.
  change 255 with (Z.ones 8). rewrite !Z.land_ones by lia.
  rewrite Z.shiftl_mul_pow2 by lia. rewrite Z.mod_mul by lia.
  rewrite Z.lor_0_r. apply Z.mod_small. lia.
Qed.

Lemma word_high_bytes (a r : Z) :
  0 <= a < 256 -> Z.shiftr (Z.lor a (Z.shiftl r 8)) 8 = r.
Proof.
  intros Ha. rewrite Z.shiftr_lor.
  rewrite (Z.shiftr_div_pow2 a) by lia. rewrite Z.div_small by lia.
  rewrite Z.shiftr_shiftl_l by lia. simpl. by rewrite Z.shiftl_0_r.
Qed.

(** Four bytes packed into a word and unpacked again. *)
Lemma ULONG_bytes_bytes_ULONG (a b c d : Z) :
  0 <= a < 256 -> 0 <= b < 256 -> 0 <= c < 256 -> 0 <= d < 256 ->
  ULONG_bytes (bytes_ULONG [a; b; c; d]) = [a; b; c; d].
Proof.
  intros Ha Hb Hc Hd.
  assert (Hbyte : forall x, 0 <= x < 256 -> Z.land x 255 = x).
  { intros x Hx. change 255 with (Z.ones 8). rewrite Z.land_ones by lia.
    apply Z.mod_small. lia. }
  unfold bytes_ULONG. rewrite !Hbyte by done.
  rewrite Z.shiftl_0_l, Z.lor_0_r.
  set (w2 := Z.lor c (Z.shiftl d 8)).
  set (w1 := Z.lor b (Z.shiftl w2 8)).
  set (w := Z.lor a (Z.shiftl w1 8)).
  assert (E1 : Z.shiftr w 8 = w1) by by apply word_high_bytes.
  assert (E2 : Z.shiftr w 16 = w2).
  { change 16 with (8 + 8). rewrite <- Z.shiftr_shiftr by lia. rewrite E1.
    by apply word_high_bytes. }
  assert (E3 : Z.shiftr w 24 = d).
  { change 24 with (16 + 8). rewrite <- Z.shiftr_shiftr by lia. rewrite E2.
    by apply word_high_bytes. }
  unfold ULONG_bytes. rewrite E1, E2, E3.
  subst w w1 w2. rewrite !word_low_byte by done. by rewrite Hbyte.
Qed.

(** Reading a value with a buffer that holds it all. *)
Lemma partial_information_reads (h : HHIVE) (ValueCell : CM_KEY_VALUE)
    (Length : ULONG) (Data : list UCHAR) :
  copy_value_data h ValueCell (value_DataSize ValueCell) = Some Data ->
  KEY_VALUE_PARTIAL_INFORMATION_Data + value_DataSize ValueCell <= Length < 2 ^ 32 ->
  value_partial_information h ValueCell Length STATUS_SUCCESS =
    Some (mkValueQuery STATUS_SUCCESS
            (Some (KEY_VALUE_PARTIAL_INFORMATION_Data + value_DataSize ValueCell))
            (Some (KEY_VALUE_PARTIAL_INFORMATION 0 (KeyValue.DataType ValueCell)
                     (value_DataSize ValueCell) Data))).
Proof.
  intros Hdata HL. pose proof (value_DataSize_bound ValueCell) as HD.
  unfold value_partial_information, KEY_VALUE_PARTIAL_INFORMATION_Data in *.
  fold (value_DataSize ValueCell).
  rewrite (to_ULONG_small (12 + _)) by lia.
  destruct (Z.ltb_spec Length 12); [lia|].
  rewrite (to_ULONG_small (Length - 12)) by lia.
  destruct (Z.ltb_spec (Length - 12) (value_DataSize ValueCell)); [lia|].
  simpl. by rewrite Hdata.
Qed.

(** The size word of inline data keeps the length in its low bits. *)
Lemma inline_size_word (DataSize : ULONG) :
  0 <= DataSize < 2 ^ 31 ->
  Z.land (Z.lor DataSize REG_DATA_IN_OFFSET) REG_DATA_SIZE_MASK = DataSize.
Proof.
  intros Hn. rewrite Z.land_lor_distr_l.
  change (Z.land REG_DATA_IN_OFFSET REG_DATA_SIZE_MASK) with 0.
  rewrite Z.lor_0_r. unfold REG_DATA_SIZE_MASK.
  change 0x7FFFFFFF with (Z.ones 31). rewrite Z.land_ones by lia.
  apply Z.mod_small. lia.
Qed.

(** The size word of out-of-line data is the length. *)
Lemma out_of_line_size_word (DataSize : ULONG) :
  0 <= DataSize < 2 ^ 31 -> Z.land DataSize REG_DATA_SIZE_MASK = DataSize.
Proof.
  intros Hn. unfold REG_DATA_SIZE_MASK.
  change 0x7FFFFFFF with (Z.ones 31). rewrite Z.land_ones by lia.
  apply Z.mod_small. lia.
Qed.

(** Copying all of [Data]. *)
Lemma RtlCopyMemory_all (Data : list UCHAR) :
  RtlCopyMemory Data (Z.of_nat (length Data)) = Some Data.
Proof.
  unfold RtlCopyMemory.
  destruct (Z.leb_spec 0 (Z.of_nat (length Data))); [|lia].
  rewrite Z.leb_refl. simpl. rewrite Nat2Z.id. by rewrite firstn_all.
Qed.

(** Copying the first part of a buffer that starts with [Data]. *)
Lemma RtlCopyMemory_prefix (Data rest : list UCHAR) :
  RtlCopyMemory (Data ++ rest) (Z.of_nat (length Data)) = Some Data.
Proof.
  unfold RtlCopyMemory. rewrite length_app.
  destruct (Z.leb_spec 0 (Z.of_nat (length Data))); [|lia].
  destruct (Z.leb_spec (Z.of_nat (length Data))
              (Z.of_nat (length Data + length rest))); [|lia].
  simpl. rewrite Nat2Z.id. by rewrite take_app_length.
Qed.

(** A byte of a word is a byte. *)
Lemma byte_range (w : Z) : 0 <= Z.land w 255 < 256.
Proof.
  change 255 with (Z.ones 8). rewrite Z.land_ones by lia.
  apply Z.mod_pos_bound. lia.
Qed.

(** At most four bytes copied over the first bytes of a 32-bit field are
    the first bytes of the field. *)
Lemma inline_roundtrip (old : Z) (Data : list UCHAR) :
  Forall (fun b => 0 <= b < 256) Data ->
  (length Data <= 4)%nat ->
  RtlCopyMemory
    (ULONG_bytes
       (bytes_ULONG (take 4 (Data ++ drop (length Data) (ULONG_bytes old)))))
    (Z.of_nat (length Data)) = Some Data.
Proof.
  intros Hbytes Hlen.
  pose proof (byte_range old) as H0.
  pose proof (byte_range (Z.shiftr old 8)) as H1.
  pose proof (byte_range (Z.shiftr old 16)) as H2.
  pose proof (byte_range (Z.shiftr old 24)) as H3.
  destruct Data as [|a [|b [|c [|d [|e Data]]]]]; simpl in Hlen; try lia;
    repeat match goal with
           | Hb : Forall _ (_ :: _) |- _ =>
             apply Forall_cons in Hb; destruct Hb as [? Hb]
           end;
    unfold ULONG_bytes at 2; simpl take;
    rewrite ULONG_bytes_bytes_ULONG by done; done.
Qed.

Section ValueRoundTrip.
Context `{Externals}.

(** X13. The data part of [NtSetValueKey] followed by the
    [KeyValuePartialInformation] query of the value: with an allocator that
    delivers a fresh cell when one is needed, the data is stored, and a
    query with a buffer of the required size answers [STATUS_SUCCESS], the
    type and the length given to [NtSetValueKey] and the very bytes of
    [Data], whether they went into the offset field, into a new data cell
    or into the data cell the value had. *)
Theorem NtSetValueKey_data_read_back (h : HHIVE) (ValueCellOffset : HCELL_INDEX)
    (ValueCell : CM_KEY_VALUE) (Type_ : ULONG) (Data : list UCHAR)
    (DataSize Length : ULONG) :
  get_value_cell h ValueCellOffset = Some ValueCell ->
  Forall (fun b => 0 <= b < 256) Data ->
  Z.of_nat (length Data) = DataSize ->
  DataSize < 2 ^ 31 ->
  (out_of_line ValueCell = true ->
   is_Some (get_raw_cell h (KeyValue.DataOffset ValueCell))) ->
  (sizeof_HCELL_INDEX < DataSize ->
   (HvAllocateCell_choice h DataSize HvStable).1 <> HCELL_NULL /\
   Cells h !! (HvAllocateCell_choice h DataSize HvStable).1 = None) ->
  KEY_VALUE_PARTIAL_INFORMATION_Data + DataSize <= Length < 2 ^ 32 ->
  exists (h' : HHIVE) (stored : CM_KEY_VALUE),
    NtSetValueKey_data h ValueCellOffset ValueCell Type_ Data DataSize
      = Some (Stored h') /\
    get_value_cell h' ValueCellOffset = Some stored /\
    nonzero (Z.land (KeyValue.DataSize stored) REG_DATA_IN_OFFSET)
      = (DataSize <=? sizeof_HCELL_INDEX) /\
    value_partial_information h' stored Length STATUS_SUCCESS =
      Some (mkValueQuery STATUS_SUCCESS
              (Some (KEY_VALUE_PARTIAL_INFORMATION_Data + DataSize))
              (Some (KEY_VALUE_PARTIAL_INFORMATION 0 Type_ DataSize Data))).
Proof.
  intros Evc Hbytes Hlen Hsize Hcell Halloc HL.
  assert (Hvc : exists size storage,
    Cells h !! ValueCellOffset
      = Some (mkHCELL size storage (ValueCellData ValueCell))).
  { unfold get_value_cell, HvGetCell in Evc.
    destruct (Cells h !! ValueCellOffset) as [[size storage d]|]; [|done].
    exists size, storage. simpl in Evc. by destruct d; simplify_eq. }
  destruct Hvc as (vsize & vstorage & Ehv).
  assert (Hold : out_of_line ValueCell = true ->
    exists size storage old,
      Cells h !! KeyValue.DataOffset ValueCell
        = Some (mkHCELL size storage (RawData old)) /\
      KeyValue.DataOffset ValueCell <> ValueCellOffset).
  { intros Hout. destruct (Hcell Hout) as [old Eold].
    unfold get_raw_cell, HvGetCell in Eold.
    destruct (Cells h !! KeyValue.DataOffset ValueCell) as [[size storage d]|]
      eqn:Ehc; [|done].
    exists size, storage, old. simpl in Eold. destruct d; simplify_eq.
    split; [done|]. intros Heq. rewrite Heq in Ehc. congruence. }
  assert (Hcopy : RtlCopyMemory Data DataSize = Some Data)
    by (subst DataSize; apply RtlCopyMemory_all).
  assert (Hnn : 0 <= DataSize) by lia.
  unfold NtSetValueKey_data. fold (out_of_line ValueCell).
  destruct (Z.leb_spec DataSize sizeof_HCELL_INDEX) as [Hinline|Hlarge].
  - (* the data goes into the offset field *)
    unfold copy_into_ULONG. rewrite Hcopy.
    set (inline :=
      bytes_ULONG
        (take 4 (Data ++ drop (length Data)
                           (ULONG_bytes (KeyValue.DataOffset ValueCell))))).
    set (stored :=
      KeyValue.set_data (Z.lor DataSize REG_DATA_IN_OFFSET) inline Type_
        ValueCell).
    assert (Hbit :
      nonzero (Z.land (Z.lor DataSize REG_DATA_IN_OFFSET) REG_DATA_IN_OFFSET)
        = true) by (apply inline_size_bit; lia).
    assert (Hread : forall h1,
      Cells h1 !! ValueCellOffset
        = Some (mkHCELL vsize vstorage (ValueCellData ValueCell)) ->
      get_value_cell
        (HvMarkCellDirty (write_cell h1 ValueCellOffset (ValueCellData stored))
           ValueCellOffset) ValueCellOffset = Some stored /\
      nonzero (Z.land (KeyValue.DataSize stored) REG_DATA_IN_OFFSET) = true /\
      value_partial_information
        (HvMarkCellDirty (write_cell h1 ValueCellOffset (ValueCellData stored))
           ValueCellOffset) stored Length STATUS_SUCCESS =
        Some (mkValueQuery STATUS_SUCCESS
                (Some (KEY_VALUE_PARTIAL_INFORMATION_Data + DataSize))
                (Some (KEY_VALUE_PARTIAL_INFORMATION 0 Type_ DataSize Data)))).
    { intros h1 E1. split; [|split; [done|]].
      - unfold get_value_cell, HvGetCell, HvMarkCellDirty, write_cell. simpl.
        by rewrite lookup_alter_eq, E1.
      - assert (Evs : value_DataSize stored = DataSize)
          by (unfold value_DataSize; simpl; apply inline_size_word; lia).
        rewrite <- Evs at 1 2.
        apply partial_information_reads; [|rewrite Evs; lia].
        rewrite Evs. unfold copy_value_data. simpl KeyValue.DataSize.
        rewrite Hbit. simpl. subst DataSize inline.
        by apply inline_roundtrip; [|unfold sizeof_HCELL_INDEX in *; lia]. }
    destruct (out_of_line ValueCell) eqn:Hout.
    + destruct (Hold eq_refl) as (size & storage & old & Eold & Hne).
      unfold HvGetCellSize. rewrite Eold. simpl.
      eexists _, stored. split; [reflexivity|]. apply Hread. simpl.
      by rewrite lookup_delete_ne.
    + simpl. eexists _, stored. split; [reflexivity|]. by apply Hread.
  - (* the data goes into a data cell *)
    assert (Hword : Z.land DataSize REG_DATA_SIZE_MASK = DataSize)
      by (apply out_of_line_size_word; lia).
    assert (Hread : forall h0 DataOffset rest,
      Cells h0 !! ValueCellOffset
        = Some (mkHCELL vsize vstorage (ValueCellData ValueCell)) ->
      DataOffset <> ValueCellOffset ->
      get_raw_cell h0 DataOffset = Some (Data ++ rest) ->
      exists (h' : HHIVE) (stored : CM_KEY_VALUE),
        Some (Stored
                (HvMarkCellDirty
                   (HvMarkCellDirty
                      (write_cell h0 ValueCellOffset
                         (ValueCellData
                            (KeyValue.set_data (Z.land DataSize REG_DATA_SIZE_MASK)
                               DataOffset Type_ ValueCell)))
                      DataOffset) ValueCellOffset))
          = Some (Stored h') /\
        get_value_cell h' ValueCellOffset = Some stored /\
        nonzero (Z.land (KeyValue.DataSize stored) REG_DATA_IN_OFFSET) = false /\
        value_partial_information h' stored Length STATUS_SUCCESS =
          Some (mkValueQuery STATUS_SUCCESS
                  (Some (KEY_VALUE_PARTIAL_INFORMATION_Data + DataSize))
                  (Some (KEY_VALUE_PARTIAL_INFORMATION 0 Type_ DataSize Data)))).
    { intros h0 DataOffset rest E0 Hne Eraw.
      set (stored := KeyValue.set_data (Z.land DataSize REG_DATA_SIZE_MASK)
                       DataOffset Type_ ValueCell).
      eexists _, stored. split; [reflexivity|].
      assert (Hbit :
        nonzero (Z.land (KeyValue.DataSize stored) REG_DATA_IN_OFFSET) = false).
      { simpl. unfold nonzero. by rewrite out_of_line_size_bit. }
      split; [|split; [done|]].
      - unfold get_value_cell, HvGetCell, HvMarkCellDirty, write_cell. simpl.
        by rewrite lookup_alter_eq, E0.
      - assert (Evs : value_DataSize stored = DataSize)
          by (unfold value_DataSize; simpl; by rewrite !Hword).
        rewrite <- Evs at 1 2.
        apply partial_information_reads; [|rewrite Evs; lia].
        rewrite Evs. unfold copy_value_data. rewrite Hbit. simpl.
        assert (Eraw' :
          get_raw_cell
            (HvMarkCellDirty
               (HvMarkCellDirty
                  (write_cell h0 ValueCellOffset (ValueCellData stored))
                  DataOffset) ValueCellOffset) DataOffset
          = Some (Data ++ rest)).
        { unfold get_raw_cell, HvGetCell, HvMarkCellDirty, write_cell in *.
          simpl. by rewrite lookup_alter_ne. }
        rewrite Eraw'. simpl. subst DataSize. apply RtlCopyMemory_prefix. }
    assert (Hgrow : forall (freed : bool),
      (freed = true ->
       exists size storage old,
         Cells h !! KeyValue.DataOffset ValueCell
           = Some (mkHCELL size storage (RawData old)) /\
         KeyValue.DataOffset ValueCell <> ValueCellOffset) ->
      exists (h' : HHIVE) (stored : CM_KEY_VALUE),
        (let '(NewOffset, h0) := HvAllocateCell h DataSize HvStable in
         if NewOffset =? HCELL_NULL then Some None
         else Some (Some (NewOffset,
                          if freed
                          then HvFreeCell h0 (KeyValue.DataOffset ValueCell)
                          else h0)))
        ≫= (fun located : option (HCELL_INDEX * HHIVE) =>
              match located with
              | Some (DataOffset, h0) =>
                copy_into_cell h0 DataOffset Data DataSize
                ≫= fun h1 : HHIVE =>
                     Some (Stored
                             (HvMarkCellDirty
                                (HvMarkCellDirty
                                   (write_cell h1 ValueCellOffset
                                      (ValueCellData
                                         (KeyValue.set_data
                                            (Z.land DataSize REG_DATA_SIZE_MASK)
                                            DataOffset Type_ ValueCell)))
                                   DataOffset) ValueCellOffset))
              | None => Some AllocationFailed
              end) = Some (Stored h') /\
        get_value_cell h' ValueCellOffset = Some stored /\
        nonzero (Z.land (KeyValue.DataSize stored) REG_DATA_IN_OFFSET) = false /\
        value_partial_information h' stored Length STATUS_SUCCESS =
          Some (mkValueQuery STATUS_SUCCESS
                  (Some (KEY_VALUE_PARTIAL_INFORMATION_Data + DataSize))
                  (Some (KEY_VALUE_PARTIAL_INFORMATION 0 Type_ DataSize Data)))).
    { intros freed Hfreed. destruct (Halloc Hlarge) as [Hnew Hfresh].
      unfold HvAllocateCell.
      destruct (HvAllocateCell_choice h DataSize HvStable) as [NewOffset Header].
      simpl in Hnew, Hfresh. apply Z.eqb_neq in Hnew. rewrite Hnew. simpl.
      rewrite Hnew. simpl.
      assert (Hnv : NewOffset <> ValueCellOffset) by congruence.
      unfold copy_into_cell. rewrite Hcopy.
      destruct freed.
      - destruct (Hfreed eq_refl) as (size & storage & old & Eold & Hne).
        assert (Hno : KeyValue.DataOffset ValueCell <> NewOffset) by congruence.
        assert (Eraw :
          get_raw_cell
            (HvFreeCell
               (mkHHIVE (<[NewOffset := mkHCELL Header HvStable (RawData [])]>
                           (Cells h)) (DirtyVector h))
               (KeyValue.DataOffset ValueCell)) NewOffset = Some []).
        { unfold get_raw_cell, HvGetCell, HvFreeCell. simpl.
          rewrite lookup_delete_ne by done. by rewrite lookup_insert_eq. }
        rewrite Eraw. simpl. apply (Hread _ _ (drop (length Data) [])); [|done|].
        + unfold write_cell, HvFreeCell. simpl.
          rewrite lookup_alter_ne by done.
          rewrite lookup_delete_ne by done. by rewrite lookup_insert_ne.
        + unfold get_raw_cell, HvGetCell, write_cell, HvFreeCell. simpl.
          rewrite lookup_alter_eq. rewrite lookup_delete_ne by done.
          by rewrite lookup_insert_eq.
      - assert (Eraw :
          get_raw_cell
            (mkHHIVE (<[NewOffset := mkHCELL Header HvStable (RawData [])]>
                        (Cells h)) (DirtyVector h)) NewOffset = Some []).
        { unfold get_raw_cell, HvGetCell. simpl. by rewrite lookup_insert_eq. }
        rewrite Eraw. simpl. apply (Hread _ _ (drop (length Data) [])); [|done|].
        + unfold write_cell. simpl. rewrite lookup_alter_ne by done.
          by rewrite lookup_insert_ne.
        + unfold get_raw_cell, HvGetCell, write_cell. simpl.
          rewrite lookup_alter_eq. by rewrite lookup_insert_eq. }
    apply Z.leb_gt in Hlarge as Hleb.
    destruct (out_of_line ValueCell) eqn:Hout.
    + destruct (Hold eq_refl) as (size & storage & old & Eold & Hne).
      unfold HvGetCellSize. rewrite Eold. simpl.
      destruct (to_ULONG (- size) <? DataSize).
      * apply (Hgrow true). intros _. by exists size, storage, old.
      * simpl. unfold copy_into_cell. rewrite Hcopy.
        assert (Eraw : get_raw_cell h (KeyValue.DataOffset ValueCell) = Some old).
        { unfold get_raw_cell, HvGetCell. by rewrite Eold. }
        rewrite Eraw. simpl.
        apply (Hread _ _ (drop (length Data) old)); [|done|].
        -- unfold write_cell. simpl. by rewrite lookup_alter_ne.
        -- unfold get_raw_cell, HvGetCell, write_cell. simpl.
           rewrite lookup_alter_eq. by rewrite Eold.
    + simpl. assert ((0 <? DataSize) = true) as ->
        by (apply Z.ltb_lt; unfold sizeof_HCELL_INDEX in *; lia).
      apply (Hgrow false). done.
Qed.

End ValueRoundTrip.

(* ===================================================================== *)
(** ** The value entry points                                             *)
(* ===================================================================== *)

Section ValueQueries.
Context `{Externals}.



(** X16. [NtSetValueKey] on a valid handle whose pre-callback succeeds, for a
    value that is there or that [CmiAddValueToKey] adds.  When the value
    cannot be added the call returns that status and the key is not
    stamped.  When the data is stored the call returns the success status
    of the scan or of the addition, the key cell gets the current time as
    [LastWriteTime] and, for a [REG_LINK] value named SymbolicLinkValue,
    the [REG_KEY_LINK_CELL] flag; the key cell is marked dirty, the hives
    are synchronised after the post-callback, and no object changes. *)
Theorem NtSetValueKey_stamps_key (KeyHandle : HANDLE) (ValueName : UNICODE_STRING)
    (TitleIndex Type_ : ULONG) (Data : list UCHAR) (DataSize : ULONG)
    (st : Registry) (s spre sscan sval : NTSTATUS) (KeyObject : Z)
    (o : KEY_OBJECT) (hive : EREGISTRY_HIVE) (KeyCell : CM_KEY_NODE)
    (found located : option HCELL_INDEX) (h1 : HHIVE) :
  ObReferenceObjectByHandle_lookup KeyHandle KEY_SET_VALUE ExGetPreviousMode
    = (s, KeyObject) ->
  NT_SUCCESS s = true ->
  Objects st !! KeyObject = Some o ->
  Hives st !! KeyObject.RegistryHive o = Some hive ->
  get_key_cell (RegHive.Hive hive) (KeyObject.KeyCellOffset o) = Some KeyCell ->
  callback_list_ok st ->
  fst <$> CmiCallRegisteredCallbacks RegNtPreSetValueKey
            (REG_SET_VALUE_KEY_INFORMATION KeyObject ValueName TitleIndex Type_
               Data DataSize) st
    = Some spre ->
  NT_SUCCESS spre = true ->
  CmiScanKeyForValue (RegHive.Hive hive) KeyCell ValueName = (sscan, found) ->
  (if sscan =? STATUS_OBJECT_NAME_NOT_FOUND
   then CmiAddValueToKey (RegHive.Hive hive) KeyCell (KeyObject.KeyCellOffset o)
          ValueName
   else (sscan, RegHive.Hive hive, found)) = (sval, h1, located) ->
  exists pre post : list Event,
    Forall (is_invocation RegNtPreSetValueKey
              (REG_SET_VALUE_KEY_INFORMATION KeyObject ValueName TitleIndex Type_
                 Data DataSize)) pre /\
    Forall (is_invocation RegNtPostSetValueKey
              (REG_POST_OPERATION_INFORMATION KeyObject sval)) post /\
    (NT_SUCCESS sval = false ->
     NtSetValueKey KeyHandle ValueName TitleIndex Type_ Data DataSize st
       = Some (sval,
               set_Trace (Trace st ++ pre ++ post)
                 (set_Hives
                    (<[KeyObject.RegistryHive o := RegHive.set_Hive h1 hive]>
                       (Hives st)) st))) /\
    (forall (ValueCellOffset : HCELL_INDEX) (ValueCell : CM_KEY_VALUE)
            (h2 : HHIVE) (stored : CM_KEY_NODE),
       NT_SUCCESS sval = true ->
       located = Some ValueCellOffset ->
       get_value_cell h1 ValueCellOffset = Some ValueCell ->
       NtSetValueKey_data h1 ValueCellOffset ValueCell Type_ Data DataSize
         = Some (Stored h2) ->
       get_key_cell h2 (KeyObject.KeyCellOffset o) = Some stored ->
       NtSetValueKey KeyHandle ValueName TitleIndex Type_ Data DataSize st
         = Some (sval,
                 set_Trace (Trace st ++ pre ++ post ++ [EvSyncHives])
                   (set_Hives
                      (<[KeyObject.RegistryHive o :=
                           RegHive.set_Hive
                             (HvMarkCellDirty
                                (write_cell h2 (KeyObject.KeyCellOffset o)
                                   (KeyCellData
                                      (KeyNode.set_LastWriteTime KeQuerySystemTime
                                         (if (Type_ =? REG_LINK)
                                             && (wcsicmp (US.Buffer ValueName)
                                                   SymbolicLinkValue =? 0)
                                          then KeyNode.set_Flags
                                                 (Z.lor (KeyNode.Flags stored)
                                                    REG_KEY_LINK_CELL) stored
                                          else stored))))
                                (KeyObject.KeyCellOffset o)) hive]>
                         (Hives st)) st))).
Proof.
  intros El Es Eo Eh Ek Hok Hpre Espre Escan Hloc.
  destruct (callbacks_answer _ _ _ _ Hok Hpre) as (pre & Hrun1 & Hpre1 & _).
  destruct (callbacks_run RegNtPostSetValueKey
              (REG_POST_OPERATION_INFORMATION KeyObject sval) st Hok)
    as (s2 & post & Hrun2 & Hpost & _).
  exists pre, post. split; [done|]. split; [done|]. split.
  - intros Efail.
    unfold NtSetValueKey, ObReferenceObjectByHandle. mrun.
    rewrite Hrun1 by done. mrun.
    destruct (sscan =? STATUS_OBJECT_NAME_NOT_FOUND) eqn:Enf.
    + rewrite Hloc. unfold update_HHIVE. mrun.
      rewrite Hrun2 by done. mrun.
      rewrite reference_dropped_map by done.
      destruct st; simpl. by rewrite <- app_assoc.
    + injection Hloc as <- <- <-. mrun.
      rewrite Hrun2 by done. mrun.
      rewrite reference_dropped_map by done.
      replace (RegHive.set_Hive (RegHive.Hive hive) hive) with hive
        by (by destruct hive).
      rewrite (insert_id (Hives st)) by done.
      destruct st; simpl. by rewrite <- app_assoc.
  - intros off vc h2 stored Eok -> Evc Hdata Estored.
    unfold NtSetValueKey, ObReferenceObjectByHandle. mrun.
    rewrite Hrun1 by done. mrun.
    destruct (sscan =? STATUS_OBJECT_NAME_NOT_FOUND) eqn:Enf.
    + rewrite Hloc. unfold update_HHIVE. mrun.
      unfold read_KeyCell, write_KeyCell. mrun.
      rewrite Hrun2 by done. mrun.
      rewrite reference_dropped_map by done.
      rewrite !insert_insert_eq.
      destruct st; simpl. by rewrite <- !app_assoc.
    + injection Hloc as <- <- ->. mrun.
      unfold read_KeyCell, write_KeyCell, update_HHIVE. mrun.
      rewrite Hrun2 by done. mrun.
      rewrite reference_dropped_map by done.
      rewrite !insert_insert_eq.
      destruct st; simpl. by rewrite <- !app_assoc.
Qed.



End ValueQueries.

(* ===================================================================== *)
(** ** NtQueryMultipleValueKey                                            *)
(* ===================================================================== *)

Lemma pointer_aligned_ge (n : Z) : n <= pointer_aligned n < n + 4.
Proof.
  unfold pointer_aligned.
  pose proof (Z.div_mod (n + 3) 4 ltac:(lia)).
  pose proof (Z.mod_pos_bound (n + 3) 4 ltac:(lia)). lia.
Qed.

Lemma pointer_aligned_mod (n : Z) : pointer_aligned n mod 4 = 0.
Proof. unfold pointer_aligned. by rewrite Z.mod_mul. Qed.

Lemma pointer_aligned_add (b n : Z) :
  b mod 4 = 0 -> pointer_aligned (b + n) = b + pointer_aligned n.
Proof.
  intros Hb. unfold pointer_aligned.
  apply Z.mod_divide in Hb; [|lia]. destruct Hb as [k ->].
  replace (k * 4 + n + 3) with (n + 3 + k * 4) by lia.
  rewrite Z.div_add by lia. lia.
Qed.

(** [ROUND_UP] is the next multiple where nothing wraps. *)
Lemma ROUND_UP_aligned (n : Z) :
  0 <= n -> pointer_aligned n < 2 ^ 32 ->
  ROUND_UP n sizeof_PVOID = pointer_aligned n.
Proof.
  intros Hn Hlt. unfold ROUND_UP, sizeof_PVOID.
  pose proof (pointer_aligned_ge n) as Hge.
  pose proof (pointer_aligned_mod n) as Hmod.
  assert (pointer_aligned n <= 2 ^ 32 - 4) as Hle.
  { apply Z.mod_divide in Hmod; [|lia]. destruct Hmod as [k Hk]. lia. }
  replace (n + 4 - 1) with (n + 3) by lia.
  rewrite (to_ULONG_small (n + 3)) by lia.
  fold (pointer_aligned n). apply to_ULONG_small. lia.
Qed.

Lemma required_length_ge (cells : list CM_KEY_VALUE) (acc : Z) :
  acc <= required_length acc cells.
Proof.
  revert acc. induction cells as [|c cells IH]; intros acc; simpl; [lia|].
  pose proof (IH (pointer_aligned acc + value_DataSize c)).
  pose proof (pointer_aligned_ge acc). pose proof (value_DataSize_bound c). lia.
Qed.

Section MultipleValues.
Context `{Externals}.

Lemma NtQueryMultipleValueKey_loop_run (h : HHIVE) (KeyCell : CM_KEY_NODE)
    (Buffer : Z) (Length : ULONG) :
  0 <= Buffer -> Buffer mod 4 = 0 -> 0 <= Length -> Buffer + Length < 2 ^ 32 ->
  forall (rest : list KEY_VALUE_ENTRY) (cells : list CM_KEY_VALUE)
         (done : list KEY_VALUE_ENTRY) (status : NTSTATUS)
         (stores : list (Z * list UCHAR)) (ptr acc : Z),
    Forall2 (value_found h KeyCell) rest cells ->
    0 <= acc -> required_length acc cells < 2 ^ 32 ->
    (acc <= Length -> NT_SUCCESS status = true /\ ptr = Buffer + acc) ->
    (Length < acc -> status = STATUS_BUFFER_TOO_SMALL) ->
    exists s',
      NtQueryMultipleValueKey_loop h KeyCell Buffer Length (length done)
        (length rest) (mkMultiple status (done ++ rest) stores ptr acc) = Some s' /\
      mv_BufferLength s' = required_length acc cells /\
      (Length < required_length acc cells ->
       mv_Status s' = STATUS_BUFFER_TOO_SMALL) /\
      (required_length acc cells <= Length ->
       NT_SUCCESS (mv_Status s') = true /\
       mv_ValueList s' = done ++ value_entries acc rest cells /\
       mv_Stores s' = stores ++ value_stores h Buffer acc cells).
Proof.
  intros HB Hal HL HBL rest cells done0 status stores ptr acc Hfound.
  revert done0 status stores ptr acc.
  induction Hfound as [|e c rest cells Hec Hfound IH];
    intros done0 status stores ptr acc Hacc Hreq Hfit Hsmall.
  - simpl in *. eexists. split; [done|]. simpl. split; [done|].
    split; [done|]. intros Hle. destruct (Hfit Hle) as [? ?].
    by rewrite !app_nil_r.
  - destruct Hec as (sscan & off & Escan & Esscan & Ecell & Hstored).
    simpl in Hreq.
    pose proof (pointer_aligned_ge acc) as Hge.
    pose proof (value_DataSize_bound c) as Hsize.
    pose proof (required_length_ge cells (pointer_aligned acc + value_DataSize c))
      as Hmono.
    assert (ROUND_UP acc sizeof_PVOID = pointer_aligned acc) as Hround
      by (apply ROUND_UP_aligned; lia).
    destruct (copy_value_data_total h c (value_DataSize c) Hstored ltac:(lia))
      as (bytes & Ebytes & Hlen).
    cbn [length NtQueryMultipleValueKey_loop mv_ValueList mv_Stores mv_DataPtr
         mv_BufferLength mv_Status].
    rewrite list_lookup_middle by done. cbn [mbind option_bind].
    rewrite Escan, Esscan. cbn [negb]. rewrite Ecell. cbn [mbind option_bind].
    fold (value_DataSize c). rewrite Hround.
    rewrite (to_ULONG_small (pointer_aligned acc + value_DataSize c)) by lia.
    replace (S (length done0)) with (length (done0 ++ [e]))
      by (rewrite length_app; simpl; lia).
    destruct (Z.leb_spec (pointer_aligned acc + value_DataSize c) Length) as [Hle|Hgt].
    + destruct (Hfit ltac:(lia)) as [_ ->].
      rewrite Ebytes. cbn [mbind option_bind].
      rewrite (ROUND_UP_aligned (Buffer + acc)); cycle 1.
      { lia. } { rewrite pointer_aligned_add by done; lia. }
      rewrite pointer_aligned_add by done.
      replace (Buffer + pointer_aligned acc - Buffer) with (pointer_aligned acc)
        by lia.
      rewrite (to_ULONG_small (pointer_aligned acc)) by lia.
      rewrite (to_ULONG_small (Buffer + pointer_aligned acc + value_DataSize c))
        by lia.
      replace (<[length done0 := _]> (done0 ++ e :: rest))
        with ((done0 ++ [mkValueEntry (ValueName e) (value_DataSize c)
                           (pointer_aligned acc) (KeyValue.DataType c)]) ++ rest).
      2:{ rewrite <- app_assoc. simpl.
          rewrite insert_app_r_alt by lia.
          by rewrite Nat.sub_diag. }
      replace (length (done0 ++ [e]))
        with (length (done0 ++ [mkValueEntry (ValueName e) (value_DataSize c)
                                  (pointer_aligned acc) (KeyValue.DataType c)]))
        by (rewrite !length_app; done).
      destruct (IH (done0 ++ [mkValueEntry (ValueName e) (value_DataSize c)
                                (pointer_aligned acc) (KeyValue.DataType c)])
                  sscan (stores ++ [(Buffer + pointer_aligned acc, bytes)])
                  (Buffer + pointer_aligned acc + value_DataSize c)
                  (pointer_aligned acc + value_DataSize c))
        as (s' & Hrun & Hlen' & Hsm & Hft); [lia|done| |lia|].
      { intros _. split; [done|lia]. }
      exists s'. split; [done|]. split; [done|]. split; [done|].
      intros Hle'. destruct (Hft Hle') as (? & -> & ->).
      split; [done|]. simpl. unfold value_data. rewrite Ebytes. simpl.
      by rewrite <- !app_assoc.
    + replace (done0 ++ e :: rest) with ((done0 ++ [e]) ++ rest)
        by (by rewrite <- app_assoc).
      destruct (IH (done0 ++ [e]) STATUS_BUFFER_TOO_SMALL stores ptr
                  (pointer_aligned acc + value_DataSize c))
        as (s' & Hrun & Hlen' & Hsm & Hft); [lia|done|lia|done|].
      exists s'. split; [done|]. split; [done|]. split; [done|].
      intros Hle'. simpl in Hle'. lia.
Qed.

Lemma value_stores_bounds (h : HHIVE) (Buffer : Z) (cells : list CM_KEY_VALUE) :
  Forall (value_data_stored h) cells ->
  forall acc,
    Forall (fun store => Buffer + acc <= store.1 /\
                         store.1 + Z.of_nat (length store.2)
                           <= Buffer + required_length acc cells)
      (value_stores h Buffer acc cells).
Proof.
  induction 1 as [|c cells Hc _ IH]; intros acc; simpl; [done|].
  pose proof (pointer_aligned_ge acc) as Hge.
  pose proof (value_DataSize_bound c) as Hsize.
  pose proof (required_length_ge cells (pointer_aligned acc + value_DataSize c))
    as Hmono.
  destruct (copy_value_data_total h c (value_DataSize c) Hc ltac:(lia))
    as (bytes & Ebytes & Hlen).
  constructor.
  - simpl. unfold value_data. rewrite Ebytes. simpl. lia.
  - eapply Forall_impl; [apply IH|]. simpl. intros store [? ?]. lia.
Qed.

(** X19. [NtQueryMultipleValueKey] on a valid handle whose pre-callback
    succeeds, when every value named in the list is in the key, for a
    pointer-aligned buffer of [*Length] bytes.  [*ReturnLength] is the
    required length whatever [*Length] is: every value starts at the next
    multiple of [sizeof(PVOID)].  A buffer shorter than that gives
    [STATUS_BUFFER_TOO_SMALL] and [*Length] is not stored.  Otherwise the
    call succeeds, [*Length] is the required length, the entries carry
    the type, the length and the offset of each value, the data is stored
    at these offsets, and every store lies between the start of the
    buffer and the required length.  Nothing but the trace differs after
    the call. *)
Theorem NtQueryMultipleValueKey_lengths (KeyHandle : HANDLE)
    (ValueList : list KEY_VALUE_ENTRY) (NumberOfValues : ULONG) (Buffer : Z)
    (Length : ULONG) (st : Registry) (s spre : NTSTATUS) (KeyObject : Z)
    (o : KEY_OBJECT) (hive : EREGISTRY_HIVE) (KeyCell : CM_KEY_NODE)
    (cells : list CM_KEY_VALUE) :
  ObReferenceObjectByHandle_lookup KeyHandle KEY_QUERY_VALUE ExGetPreviousMode
    = (s, KeyObject) ->
  NT_SUCCESS s = true ->
  Objects st !! KeyObject = Some o ->
  Hives st !! KeyObject.RegistryHive o = Some hive ->
  get_key_cell (RegHive.Hive hive) (KeyObject.KeyCellOffset o) = Some KeyCell ->
  callback_list_ok st ->
  fst <$> CmiCallRegisteredCallbacks RegNtPreQueryMultipleValueKey
            (REG_QUERY_MULTIPLE_VALUE_KEY_INFORMATION KeyObject ValueList
               NumberOfValues Length) st
    = Some spre ->
  NT_SUCCESS spre = true ->
  NumberOfValues = Z.of_nat (length ValueList) ->
  Forall2 (value_found (RegHive.Hive hive) KeyCell) ValueList cells ->
  0 <= Buffer -> Buffer mod 4 = 0 -> 0 <= Length -> Buffer + Length < 2 ^ 32 ->
  required_length 0 cells < 2 ^ 32 ->
  exists (r : MultipleValueResult) (pre post : list Event),
    NtQueryMultipleValueKey KeyHandle ValueList NumberOfValues Buffer Length st
      = Some (r, set_Trace (Trace st ++ pre ++ post) st) /\
    Forall (is_invocation RegNtPostQueryMultipleValueKey
              (REG_POST_OPERATION_INFORMATION KeyObject (mr_Status r))) post /\
    mr_ReturnLength r = Some (required_length 0 cells) /\
    (Length < required_length 0 cells ->
     mr_Status r = STATUS_BUFFER_TOO_SMALL /\ mr_Length r = None) /\
    (required_length 0 cells <= Length ->
     NT_SUCCESS (mr_Status r) = true /\
     mr_Length r = Some (required_length 0 cells) /\
     mr_ValueList r = value_entries 0 ValueList cells /\
     mr_Stores r = value_stores (RegHive.Hive hive) Buffer 0 cells /\
     Forall (fun store => Buffer <= store.1 /\
                          store.1 + Z.of_nat (length store.2)
                            <= Buffer + required_length 0 cells)
       (mr_Stores r)).
Proof.
  intros El Es Eo Eh Ek Hok Hpre Espre -> Hfound HB Hal HL HBL Hreq.
  destruct (callbacks_answer _ _ _ _ Hok Hpre) as (pre & Hrun1 & Hpre1 & _).
  destruct (NtQueryMultipleValueKey_loop_run (RegHive.Hive hive) KeyCell Buffer
              Length HB Hal HL HBL ValueList cells [] spre [] Buffer 0 Hfound)
    as (s' & Hloop & Hlen & Hsmall & Hfit); [lia|done| |lia|].
  { intros _. split; [done|lia]. }
  simpl in Hloop.
  destruct (callbacks_run RegNtPostQueryMultipleValueKey
              (REG_POST_OPERATION_INFORMATION KeyObject (mv_Status s')) st Hok)
    as (s2 & post & Hrun2 & Hpost & _).
  eexists _, pre, post. split.
  { unfold NtQueryMultipleValueKey, ObReferenceObjectByHandle. mrun.
    rewrite Hrun1 by done. mrun. rewrite Nat2Z.id.
    rewrite Hloop. mrun. rewrite Hrun2 by done. mrun.
    rewrite reference_dropped_map by done.
    destruct st; simpl. by rewrite <- app_assoc. }
  simpl. split; [done|]. split; [by rewrite ?Hlen|]. split.
  - intros Hlt. rewrite (Hsmall Hlt). done.
  - intros Hle. destruct (Hfit Hle) as (Hs & Hl & Hst).
    rewrite Hs, ?Hlen. split; [done|]. split; [done|].
    split; [done|]. split; [done|].
    rewrite Hst. simpl.
    eapply Forall_impl.
    + apply (value_stores_bounds (RegHive.Hive hive) Buffer cells).
      clear -Hfound. induction Hfound as [|e c ? ? (? & ? & ? & ? & ? & ?)];
        by constructor.
    + simpl. intros store [? ?]. lia.
Qed.

End MultipleValues.

(* ===================================================================== *)
(** ** NtSaveKey and NtDeleteKey: the paths that refuse                   *)
(* ===================================================================== *)

Section Refusals.
Context `{Externals}.

(** X20. [NtSaveKey] on a valid handle, on the paths that save nothing.  A
    volatile key is refused with [STATUS_ACCESS_DENIED] before a temporary
    hive is asked for; a failing [CmiCreateTempHive] gives its status;
    both leave the state as it was.  A failing [CmiCopyKey] gives its
    status after the temporary hive has been removed: the hives and the
    objects are those before the call and nothing was saved to the file. *)
Theorem NtSaveKey_refusals (KeyHandle FileHandle : HANDLE) (st : Registry)
    (s screate : NTSTATUS) (KeyObject TempHive : Z) (o : KEY_OBJECT)
    (hive created : EREGISTRY_HIVE) (KeyCell : CM_KEY_NODE) :
  ObReferenceObjectByHandle_lookup KeyHandle 0 ExGetPreviousMode = (s, KeyObject) ->
  NT_SUCCESS s = true ->
  Objects st !! KeyObject = Some o ->
  Hives st !! KeyObject.RegistryHive o = Some hive ->
  get_key_cell (RegHive.Hive hive) (KeyObject.KeyCellOffset o) = Some KeyCell ->
  CmiCreateTempHive = (screate, TempHive, created) ->
  (nonzero (Z.land (KeyNode.Flags KeyCell) REG_KEY_VOLATILE_CELL) = true ->
   NtSaveKey KeyHandle FileHandle st = Some (STATUS_ACCESS_DENIED, st)) /\
  (nonzero (Z.land (KeyNode.Flags KeyCell) REG_KEY_VOLATILE_CELL) = false ->
   NT_SUCCESS screate = false ->
   NtSaveKey KeyHandle FileHandle st = Some (screate, st)) /\
  (forall (scopy : NTSTATUS) (copied : EREGISTRY_HIVE),
     nonzero (Z.land (KeyNode.Flags KeyCell) REG_KEY_VOLATILE_CELL) = false ->
     NT_SUCCESS screate = true ->
     Hives st !! TempHive = None ->
     CmiCopyKey created hive KeyCell = (scopy, copied) ->
     NT_SUCCESS scopy = false ->
     NtSaveKey KeyHandle FileHandle st
       = Some (scopy, set_Trace (Trace st ++ [EvRemoveRegistryHive TempHive]) st)).
Proof.
  intros El Es Eo Eh Ek Ecreate. split; [|split].
  - intros Evol. unfold NtSaveKey, ObReferenceObjectByHandle. mrun.
    rewrite reference_dropped_map by done. by destruct st.
  - intros Evol Efail. unfold NtSaveKey, ObReferenceObjectByHandle. mrun.
    rewrite reference_dropped_map by done. by destruct st.
  - intros scopy copied Evol Eok Efresh Ecopy Efail.
    assert (Hne : TempHive <> KeyObject.RegistryHive o) by congruence.
    unfold NtSaveKey, ObReferenceObjectByHandle. mrun.
    rewrite lookup_insert_ne by done. mrun.
    rewrite (insert_insert_eq (Hives st)).
    rewrite (delete_insert_id (Hives st)) by done.
    rewrite reference_dropped_map by done. by destruct st.
Qed.

(** X21. [NtDeleteKey] on a valid handle whose pre-callback succeeds: the
    references of the key object.  Besides the reference of the handle
    lookup, which it gives back, the call drops the keep-alive reference
    of the key, and a second one when the key is in another hive than its
    parent.  It does so whether the key is marked for deletion or refused
    with [STATUS_CANNOT_DELETE]; no other object and no hive changes. *)
Theorem NtDeleteKey_drops_keep_alive (KeyHandle : HANDLE) (st : Registry)
    (s spre : NTSTATUS) (KeyObject : Z) (o parent : KEY_OBJECT)
    (hive : EREGISTRY_HIVE) (KeyCell : CM_KEY_NODE) :
  let refused :=
    nonzero (at_storage (KeyNode.SubKeyCounts KeyCell) HvStable)
    || nonzero (at_storage (KeyNode.SubKeyCounts KeyCell) HvVolatile) in
  let dropped :=
    if KeyObject.RegistryHive o =? KeyObject.RegistryHive parent then 1 else 2 in
  ObReferenceObjectByHandle_lookup KeyHandle DELETE ExGetPreviousMode
    = (s, KeyObject) ->
  NT_SUCCESS s = true ->
  Objects st !! KeyObject = Some o ->
  Objects st !! KeyObject.ParentKey o = Some parent ->
  Hives st !! KeyObject.RegistryHive o = Some hive ->
  get_key_cell (RegHive.Hive hive) (KeyObject.KeyCellOffset o) = Some KeyCell ->
  callback_list_ok st ->
  fst <$> CmiCallRegisteredCallbacks RegNtPreDeleteKey
            (REG_DELETE_KEY_INFORMATION KeyObject) st = Some spre ->
  NT_SUCCESS spre = true ->
  exists pre post : list Event,
    NtDeleteKey KeyHandle st
      = Some (if refused then STATUS_CANNOT_DELETE else STATUS_SUCCESS,
              set_Trace (Trace st ++ pre ++ post)
                (set_Objects
                   (<[KeyObject :=
                        KeyObject.set_PointerCount
                          (KeyObject.PointerCount o - dropped)
                          (if refused then o
                           else KeyObject.set_Flags
                                  (Z.lor (KeyObject.Flags o) KO_MARKED_FOR_DELETE)
                                  o)]> (Objects st)) st)).
Proof.
  intros refused dropped El Es Eo Ep Eh Ek Hok Hpre Espre.
  destruct (callbacks_answer _ _ _ _ Hok Hpre) as (pre & Hrun1 & _).
  destruct (callbacks_run RegNtPostDeleteKey
              (REG_POST_OPERATION_INFORMATION KeyObject
                 (if refused then STATUS_CANNOT_DELETE else STATUS_SUCCESS)) st Hok)
    as (s2 & post & Hrun2 & _).
  exists pre, post.
  unfold NtDeleteKey, ObReferenceObjectByHandle. mrun.
  rewrite Hrun1 by done. mrun.
  fold refused. subst dropped.
  destruct refused; mrun; rewrite ?insert_insert_eq.
  - destruct (decide (KeyObject.ParentKey o = KeyObject)) as [Epar|Epar].
    + rewrite Epar in *. mrun. assert (parent = o) as -> by congruence.
      rewrite !Z.eqb_refl. mrun. rewrite Hrun2 by done. mrun.
      rewrite !insert_insert_eq. destruct st, o; simpl in *.
      unfold set_Objects, set_Trace; simpl. rewrite <- app_assoc.
      do 4 f_equal. unfold KeyObject.set_PointerCount; simpl. f_equal. lia.
    + rewrite lookup_insert_ne by done. mrun.
      destruct (KeyObject.RegistryHive o =? KeyObject.RegistryHive parent); mrun;
        rewrite Hrun2 by done; mrun;
        rewrite !insert_insert_eq; destruct st, o; simpl in *;
        unfold set_Objects, set_Trace; simpl; rewrite <- app_assoc;
        do 4 f_equal; unfold KeyObject.set_PointerCount; simpl; f_equal; lia.
  - destruct (decide (KeyObject.ParentKey o = KeyObject)) as [Epar|Epar].
    + rewrite Epar in *. mrun. assert (parent = o) as -> by congruence.
      rewrite !Z.eqb_refl. mrun. rewrite Hrun2 by done. mrun.
      rewrite !insert_insert_eq. destruct st, o; simpl in *.
      unfold set_Objects, set_Trace; simpl. rewrite <- app_assoc.
      do 4 f_equal. unfold KeyObject.set_PointerCount; simpl. f_equal. lia.
    + rewrite lookup_insert_ne by done. mrun.
      destruct (KeyObject.RegistryHive o =? KeyObject.RegistryHive parent); mrun;
        rewrite Hrun2 by done; mrun;
        rewrite !insert_insert_eq; destruct st, o; simpl in *;
        unfold set_Objects, set_Trace; simpl; rewrite <- app_assoc;
        do 4 f_equal; unfold KeyObject.set_PointerCount; simpl; f_equal; lia.
Qed.

End Refusals.

(* ===================================================================== *)
(** ** NtInitializeRegistry                                               *)
(* ===================================================================== *)

Lemma NtInitializeRegistry_calls_denied (CmiInitHives : bool -> NTSTATUS)
    (flags : list bool) (trace : list InitEvent) :
  NtInitializeRegistry_calls CmiInitHives flags (mkInitState true trace)
  = (replicate (length flags) STATUS_ACCESS_DENIED, mkInitState true trace).
Proof.
  induction flags as [|b flags IH]; simpl; [done|]. by rewrite IH.
Qed.

(** X22. Of any sequence of calls of [NtInitializeRegistry] on a registry that
    is not initialised, the first returns the status of [CmiInitHives] and
    every later one [STATUS_ACCESS_DENIED], also when [CmiInitHives]
    failed: the boot log is saved once and the hives are initialised
    once, with the flag of the first call. *)
Theorem NtInitializeRegistry_once (CmiInitHives : bool -> NTSTATUS)
    (SetUpBoot : bool) (flags : list bool) (trace : list InitEvent) :
  NtInitializeRegistry_calls CmiInitHives (SetUpBoot :: flags)
    (mkInitState false trace)
  = (CmiInitHives SetUpBoot :: replicate (length flags) STATUS_ACCESS_DENIED,
     mkInitState true (trace ++ [EvSaveBootLogToFile; EvInitHives SetUpBoot])).
Proof.
  cbn [NtInitializeRegistry_calls NtInitializeRegistry CmiRegistryInitialized
       InitTrace].
  rewrite NtInitializeRegistry_calls_denied. by rewrite <- app_assoc.
Qed.

(* ===================================================================== *)
(** ** The further properties on the example registries                   *)
(* ===================================================================== *)

Lemma example_callback_list_inv : callback_list_inv Example.st.
Proof.
  split; [constructor; [eexists; evaluated | constructor]|].
  intros p cb Hp Hcb. change (p ∈ [500]) in Hp.
  apply list_elem_of_singleton in Hp. subst p.
  change (Some Example.callback = Some cb) in Hcb. by injection Hcb as <-.
Defined.

Lemma example_quiet_callback_list_ok : callback_list_ok Example.st_quiet.
Proof. constructor. Defined.

Lemma scenario_callback_list_ok : callback_list_ok Scenario.st.
Proof. constructor; [eexists; evaluated | constructor]. Defined.

Lemma scenario_callback_list_inv : callback_list_inv Scenario.st.
Proof.
  split; [exact scenario_callback_list_ok|].
  intros p cb Hp Hcb. change (p ∈ [500]) in Hp.
  apply list_elem_of_singleton in Hp. subst p.
  change (Some Scenario.callback = Some cb) in Hcb. by injection Hcb as <-.
Defined.

Lemma scenario_block_fresh : 600 ∉ CmiCallbackHead Scenario.st.
Proof.
  change (600 ∉ [500]). intros Hin. apply list_elem_of_singleton in Hin.
  discriminate Hin.
Defined.

(** The registered callback vetoes the pre-notification of a value write
    and the walk answers the veto. *)
Lemma CmiCallRegisteredCallbacks_invocations_witness :
  CmiCallRegisteredCallbacks RegNtPreSetValueKey
    (REG_POST_OPERATION_INFORMATION 100 0) Example.st
  = Some (STATUS_ACCESS_DENIED,
          set_Trace [EvCallback 500 RegNtPreSetValueKey
                       (REG_POST_OPERATION_INFORMATION 100 0)
                       STATUS_ACCESS_DENIED] Example.st).
Proof.
  pose proof (CmiCallRegisteredCallbacks_invocations RegNtPreSetValueKey
                (REG_POST_OPERATION_INFORMATION 100 0) Example.st
                example_callback_list_ok) as [W _].
  exact W.
Defined.

(** With the pool exhausted a registration on the example registry
    answers [STATUS_INSUFFICIENT_RESOURCES] and changes nothing. *)
Lemma callback_list_invariant_witness :
  exists r st',
    CmRegisterCallback (H := Example.kernel) Example.veto_set_value 0 Example.st
      = Some (r, st') /\
    callback_list_inv st' /\
    r = (STATUS_INSUFFICIENT_RESOURCES, None) /\ st' = Example.st.
Proof.
  pose proof (callback_list_invariant (H := Example.kernel) Example.st
                example_callback_list_inv) as (_ & W & _).
  destruct (W Example.veto_set_value 0) as (r & st' & Hrun & Hinv & Hfull).
  exists r, st'. split; [done|]. split; [done|]. apply Hfull. reflexivity.
Defined.

(** Registering a second callback with the kernel whose pool delivers
    block 600, and unregistering it again. *)
Lemma CmRegisterCallback_then_unregister_witness :
  exists registered,
    CmRegisterCallback (H := Scenario.kernel) Scenario.observer 9 Scenario.st
      = Some ((STATUS_SUCCESS, Some 600), registered) /\
    CmUnRegisterCallback 600 registered
      = Some (Returned STATUS_SUCCESS,
              set_Trace [EvWaitForRundown 600; EvFreePool 600] Scenario.st).
Proof.
  pose proof scenario_callback_list_inv as Hinv.
  pose proof scenario_block_fresh as Hfresh.
  pose proof (CmRegisterCallback_then_unregister (H := Scenario.kernel)
                Scenario.observer 9 Scenario.st) as W.
  discharge W. destruct W as (Cookie & registered & Hreg & Hunreg).
  assert (Cookie = 600) as ->.
  { vm_compute in Hreg. by injection Hreg as <- _. }
  exists registered. split; [done|]. exact Hunreg.
Defined.

(** After the callback of the example registry has been unregistered a
    walk invokes nothing. *)
Lemma unregistered_callback_is_not_invoked_witness :
  exists out st',
    CmUnRegisterCallback 500 Example.st = Some (out, st') /\
    exists s invocations,
      CmiCallRegisteredCallbacks RegNtPreSetValueKey
        (REG_POST_OPERATION_INFORMATION 100 0) st'
        = Some (s, set_Trace (Trace st' ++ invocations) st') /\
      forall q a b t, EvCallback q a b t ∈ invocations -> q <> 500.
Proof.
  assert (Hin : 500 ∈ CmiCallbackHead Example.st) by (change (500 ∈ [500]); left).
  destruct (unregistered_callback_is_not_invoked 500 Example.st
              example_callback_list_inv Hin) as (out & st' & Hrun & Hwalk).
  exists out, st'. split; [done|].
  exact (Hwalk RegNtPreSetValueKey (REG_POST_OPERATION_INFORMATION 100 0)).
Defined.

(** The callback registered second is invoked second, with its context. *)
Lemma registered_callback_is_invoked_last_witness :
  exists registered,
    CmRegisterCallback (H := Scenario.kernel) Example.veto_set_value 9 Scenario.st
      = Some ((STATUS_SUCCESS, Some 600), registered) /\
    CmiCallRegisteredCallbacks RegNtPreSetValueKey
      (REG_POST_OPERATION_INFORMATION 100 0) registered
    = Some (STATUS_ACCESS_DENIED,
            set_Trace
              [EvCallback 500 RegNtPreSetValueKey
                 (REG_POST_OPERATION_INFORMATION 100 0) STATUS_SUCCESS;
               EvCallback 600 RegNtPreSetValueKey
                 (REG_POST_OPERATION_INFORMATION 100 0) STATUS_ACCESS_DENIED]
              registered).
Proof.
  pose proof scenario_callback_list_ok as Hok.
  pose proof scenario_block_fresh as Hfresh.
  pose proof (registered_callback_is_invoked_last (H := Scenario.kernel)
                Example.veto_set_value 9 Scenario.st RegNtPreSetValueKey
                (REG_POST_OPERATION_INFORMATION 100 0)) as W.
  discharge W. destruct W as (Cookie & registered & Hreg & Hwalk).
  assert (Cookie = 600) as ->.
  { vm_compute in Hreg. by injection Hreg as <- _. }
  exists registered. split; [done|]. exact Hwalk.
Defined.

(** As [discharge], with arithmetic and the hypotheses that name a cell. *)
Ltac settle_closed :=
  first [ assumption | evaluated | lia | (eexists; evaluated)
        | (vm_compute; lia) ].

Ltac settle :=
  lazymatch goal with
  | |- Forall2 _ _ _ => assumption
  | |- (if ?b then _ else _) =>
    lazymatch type of b with
    | bool => fail
    | _ => settle_closed
    end
  | |- _ => settle_closed
  end.

Ltac discharge_with W :=
  cbv zeta in W;
  repeat
    match type of W with
    | ?P -> _ =>
      let HP := fresh "HP" in
      assert (HP : P) by settle;
      specialize (W HP); clear HP
    end.

(** Opening "A\N" with the second kernel: the walk stops at key "A" and
    the name is not found. *)
Lemma NtOpenKey_walk_failures_witness :
  exists r st',
    NtOpenKey (H := Scenario.kernel) 1 0 3 Scenario.st = Some (r, st') /\
    kh_Status r = STATUS_OBJECT_NAME_NOT_FOUND /\
    Objects st' = Objects Scenario.st.
Proof.
  pose proof scenario_callback_list_ok as Hok.
  pose proof (NtOpenKey_walk_failures (H := Scenario.kernel) Scenario.st 1 0 3
                STATUS_SUCCESS STATUS_SUCCESS STATUS_SUCCESS (mkCreateInfo 0 0)
                (Scenario.name 3) (Scenario.name 3)
                (US.mk 4 6 (Some [92; 78; 0])) 100) as W.
  discharge_with W.
  destruct W as (r & st' & Hrun & Hstatus & _ & Hobjects).
  { right. split; [evaluated|]. split; [done|]. split; [eexists; evaluated|].
    exists 92. split; [evaluated|done]. }
  exists r, st'. split; [done|]. split; [exact Hstatus|done].
Defined.

(** Opening key "A" of the example registry, which has one handle: the
    handle count becomes two and the pointer count stays. *)
Lemma NtOpenKey_opens_witness :
  exists st',
    NtOpenKey (H := Example.kernel) 1 0 0 Example.st
      = Some (mkHandleResult STATUS_SUCCESS (Some 8) None, st') /\
    Objects st' !! 100
      = Some (KeyObject.set_HandleCount 2 (Example.key 0)).
Proof.
  pose proof example_callback_list_ok as Hok.
  pose proof (NtOpenKey_opens (H := Example.kernel) Example.st 1 0 0
                STATUS_SUCCESS STATUS_SUCCESS STATUS_SUCCESS (mkCreateInfo 0 0)
                (US.mk 2 4 (Some [65; 0])) (US.mk 2 4 (Some [65; 0])) US.empty
                100 (Example.key 0)) as W.
  discharge_with W.
  destruct W as (st' & Granted & Hrun & Hobjects).
  exists st'. split; [exact Hrun|].
  rewrite Hobjects. by rewrite lookup_insert_eq.
Defined.

Lemma example_create_entry :
  NtCreateKey_entry (H := Example.kernel) Example.st 1 0 0 0 (mkCreateInfo 0 0)
    (US.mk 2 4 (Some [65; 0])).
Proof.
  split; [exact I|]. split; [done|].
  split; exists STATUS_SUCCESS; split; evaluated.
Defined.

Lemma scenario_create_entry (ObjectAttributes : Z) :
  NtCreateKey_entry (H := Scenario.kernel) Scenario.st 1 ObjectAttributes 0 5
    (mkCreateInfo 0 0) (Scenario.name ObjectAttributes).
Proof.
  split; [split; [evaluated|intros _; evaluated]|]. split; [done|].
  split; exists STATUS_SUCCESS; split; evaluated.
Defined.

(** Creating key "A" of the example registry, which exists, opens it. *)
Lemma NtCreateKey_opens_existing_witness :
  exists st',
    NtCreateKey (H := Example.kernel) 1 0 0 0 0 0 0 Example.st
      = Some (mkHandleResult STATUS_SUCCESS (Some 8) None, st') /\
    Objects st' !! 100
      = Some (KeyObject.set_PointerCount 3
                (KeyObject.set_HandleCount 2 (Example.key 0))).
Proof.
  pose proof example_callback_list_ok as Hok.
  pose proof example_create_entry as Hentry.
  pose proof (NtCreateKey_opens_existing (H := Example.kernel) Example.st 1 0 0
                0 0 0 0 STATUS_SUCCESS (mkCreateInfo 0 0)
                (US.mk 2 4 (Some [65; 0])) US.empty 100 (Example.key 0)) as W.
  discharge_with W.
  destruct W as (st' & Granted & Hrun & Hobjects).
  exists st'. split; [exact Hrun|].
  rewrite Hobjects. by rewrite lookup_insert_eq.
Defined.

(** Creating "A\B\C" below key "A" in one call is refused. *)
Lemma NtCreateKey_refuses_trees_witness :
  exists r st',
    NtCreateKey (H := Scenario.kernel) 1 0 2 0 0 0 5 Scenario.st = Some (r, st') /\
    kh_Status r = STATUS_OBJECT_NAME_NOT_FOUND /\
    Hives st' = Hives Scenario.st /\
    CmiKeyObjectListHead st' = [100].
Proof.
  pose proof scenario_callback_list_ok as Hok.
  pose proof (scenario_create_entry 2) as Hentry.
  pose proof (NtCreateKey_refuses_trees (H := Scenario.kernel) Scenario.st 1 0 2
                0 0 0 5 STATUS_SUCCESS (mkCreateInfo 0 0) (Scenario.name 2)
                (US.mk 8 10 (Some [92; 66; 92; 67; 0]))
                (US.mk 8 10 (Some [92; 66; 92; 67; 0])) 100 (Example.key 0) 2)
    as W.
  discharge_with W.
  destruct W as (r & st' & Hrun & Hstatus & _ & Hhives & Hlist & _).
  { intros j Hj. assert (j = 1) as -> by lia. eexists. evaluated. }
  exists r, st'. split; [done|]. split; [done|]. split; [done|]. exact Hlist.
Defined.

(** Creating "A\N" below key "A": the key object 300 is linked behind
    key "A" and the handle of the object manager is answered. *)
Lemma NtCreateKey_creates_witness :
  exists st',
    NtCreateKey (H := Scenario.kernel) 1 0 3 0 0 0 5 Scenario.st
      = Some (mkHandleResult STATUS_SUCCESS (Some 16) (Some REG_CREATED_NEW_KEY),
              st') /\
    CmiKeyObjectListHead st' = [100; 300].
Proof.
  pose proof scenario_callback_list_ok as Hok.
  pose proof (scenario_create_entry 3) as Hentry.
  pose proof (NtCreateKey_creates (H := Scenario.kernel) Scenario.st 1 0 3
                0 0 0 5 STATUS_SUCCESS STATUS_SUCCESS STATUS_SUCCESS
                STATUS_SUCCESS (mkCreateInfo 0 0) (Scenario.name 3)
                (US.mk 4 6 (Some [92; 78; 0])) (US.mk 4 6 (Some [92; 78; 0]))
                100 300 (Example.key 0) 92 16 Scenario.hive
                (RegHive.mk
                   (mkHHIVE
                      (<[0x90 := mkHCELL (-80) HvStable (KeyCellData Scenario.N)]>
                         Scenario.cells) ∅) 0)
                0x90 Example.A Scenario.N) as W.
  discharge_with W.
  destruct W as (st' & created & events & Hrun & _ & _ & Hlist & _).
  exists st'. split; [exact Hrun|]. exact Hlist.
Defined.

Lemma example_B_stored : key_cell_stored (RegHive.Hive Example.hive) Example.B.
Proof.
  split; [evaluated|]. split; [evaluated|].
  intros Hclass. exfalso. apply Hclass. reflexivity.
Defined.

Lemma example_n_stored :
  value_name_stored Example.n /\
  value_data_stored (RegHive.Hive Example.hive) Example.n.
Proof. split; [split; evaluated|evaluated]. Defined.

Lemma scenario_n_stored :
  value_data_stored (RegHive.Hive Scenario.hive) Example.n.
Proof. evaluated. Defined.

Lemma scenario_m_stored :
  value_data_stored (RegHive.Hive Scenario.hive) Scenario.m.
Proof. exists [11; 12; 13; 14; 15; 16; 17; 18]. split; evaluated. Defined.

(** Enumerating subkey "B" with room for the header and half the name. *)
Lemma NtEnumerateKey_buffer_shape_witness :
  exists r,
    NtEnumerateKey_information (H := Example.kernel) 100
      (RegHive.Hive Example.hive) Example.A Example.B 0 KeyBasicInformation 17
      = Some r /\
    kq_ResultLength r = Some 18 /\
    kq_Status r = STATUS_BUFFER_OVERFLOW.
Proof.
  pose proof example_B_stored as Hstored.
  pose proof (NtEnumerateKey_buffer_shape (H := Example.kernel) 100
                (RegHive.Hive Example.hive) Example.A Example.B 0
                KeyBasicInformation 17 16 18) as W.
  discharge_with W. destruct W as (r & Hrun & Hlength & Hstatus & _).
  exists r. split; [done|]. split; [done|]. exact Hstatus.
Defined.

(** The partial information of value "n" with a buffer of the required
    fifteen bytes. *)
Lemma value_information_buffer_shape_witness :
  exists r,
    value_partial_information (RegHive.Hive Example.hive) Example.n 15
      STATUS_SUCCESS = Some r /\
    vq_ResultLength r = Some 15 /\
    vq_Status r = STATUS_SUCCESS /\
    vq_Information r = Some (KEY_VALUE_PARTIAL_INFORMATION 0 3 3 [1; 2; 3]).
Proof.
  destruct example_n_stored as [Hname Hdata].
  pose proof (value_information_buffer_shape (RegHive.Hive Example.hive)
                Example.n 15 STATUS_SUCCESS) as W.
  discharge_with W.
  destruct W as (_ & r & Hrun & Hlength & Hstatus & Hfull).
  destruct Hfull as (Data & Hcopy & Hinfo); [evaluated|].
  exists r. split; [done|]. split; [done|]. split; [done|].
  rewrite Hinfo. vm_compute in Hcopy. by injection Hcopy as <-.
Defined.

(** Eight bytes written over the three inline bytes of value "n" go to a
    new data cell and are read back. *)
Lemma NtSetValueKey_data_read_back_witness :
  exists h' stored,
    NtSetValueKey_data (H := Scenario.kernel) (RegHive.Hive Example.hive) 0x40
      Example.n 3 [1; 2; 3; 4; 5; 6; 7; 8] 8 = Some (Stored h') /\
    get_value_cell h' 0x40 = Some stored /\
    value_partial_information h' stored 20 STATUS_SUCCESS =
      Some (mkValueQuery STATUS_SUCCESS (Some 20)
              (Some (KEY_VALUE_PARTIAL_INFORMATION 0 3 8 [1; 2; 3; 4; 5; 6; 7; 8]))).
Proof.
  pose proof (NtSetValueKey_data_read_back (H := Scenario.kernel)
                (RegHive.Hive Example.hive) 0x40 Example.n 3
                [1; 2; 3; 4; 5; 6; 7; 8] 8 20) as W.
  assert (Hbytes : Forall (fun b => 0 <= b < 256) [1; 2; 3; 4; 5; 6; 7; 8])
    by (repeat (constructor; [lia|]); constructor).
  assert (Hinline : out_of_line Example.n = true ->
                    is_Some (get_raw_cell (RegHive.Hive Example.hive)
                               (KeyValue.DataOffset Example.n)))
    by (intros Hout; vm_compute in Hout; discriminate Hout).
  assert (Halloc : sizeof_HCELL_INDEX < 8 ->
            (HvAllocateCell_choice (Externals := Scenario.kernel)
               (RegHive.Hive Example.hive) 8 HvStable).1 <> HCELL_NULL /\
            Cells (RegHive.Hive Example.hive)
              !! (HvAllocateCell_choice (Externals := Scenario.kernel)
                    (RegHive.Hive Example.hive) 8 HvStable).1 = None)
    by (intros _; split; evaluated).
  discharge_with W.
  destruct W as (h' & stored & Hrun & Hcell & _ & Hread).
  by exists h', stored.
Defined.



(** Writing four bytes to value "n" of key "A" stamps the key with the
    time of the write. *)
Lemma NtSetValueKey_stamps_key_witness :
  exists st' hive',
    NtSetValueKey (H := Example.kernel) 4 (US.mk 2 4 (Some [110; 0])) 0 3
      [42; 0; 0; 0] 4 Example.st_quiet = Some (STATUS_SUCCESS, st') /\
    Hives st' !! 200 = Some hive' /\
    KeyNode.LastWriteTime <$> get_key_cell (RegHive.Hive hive') 0x20 = Some 1000.
Proof.
  pose proof example_quiet_callback_list_ok as Hok.
  pose proof (NtSetValueKey_stamps_key (H := Example.kernel) 4
                (US.mk 2 4 (Some [110; 0])) 0 3 [42; 0; 0; 0] 4 Example.st_quiet
                STATUS_SUCCESS STATUS_SUCCESS STATUS_SUCCESS STATUS_SUCCESS 100
                (Example.key 0) Example.hive Example.A (Some 0x40) (Some 0x40)
                (RegHive.Hive Example.hive)) as W.
  discharge_with W.
  destruct W as (pre & post & _ & _ & _ & Hstore).
  eexists _, _. split.
  - eapply (Hstore 0x40 Example.n).
    + evaluated.
    + reflexivity.
    + evaluated.
    + vm_compute. reflexivity.
    + vm_compute. reflexivity.
  - split; vm_compute; reflexivity.
Defined.


(** The values "n" and "m" of key "A" in a buffer of sixteen bytes at
    0x1000: three bytes at offset 0 and eight bytes at offset 4. *)
Lemma NtQueryMultipleValueKey_lengths_witness :
  exists r pre post,
    NtQueryMultipleValueKey (H := Scenario.kernel) 4
      [mkValueEntry (US.mk 2 4 (Some [110; 0])) 0 0 0;
       mkValueEntry (US.mk 2 4 (Some [109; 0])) 0 0 0] 2 0x1000 16 Scenario.st
    = Some (r, set_Trace (Trace Scenario.st ++ pre ++ post) Scenario.st) /\
    mr_ReturnLength r = Some 12 /\
    mr_Length r = Some 12 /\
    mr_Stores r = [(0x1000, [1; 2; 3]);
                   (0x1004, [11; 12; 13; 14; 15; 16; 17; 18])].
Proof.
  pose proof scenario_callback_list_ok as Hok.
  assert (Hfound : Forall2 (value_found (H := Scenario.kernel)
                              (RegHive.Hive Scenario.hive) Example.A)
                     [mkValueEntry (US.mk 2 4 (Some [110; 0])) 0 0 0;
                      mkValueEntry (US.mk 2 4 (Some [109; 0])) 0 0 0]
                     [Example.n; Scenario.m]).
  { constructor; [|constructor; [|constructor]].
    - exists STATUS_SUCCESS, 0x40. split; [reflexivity|]. split; [evaluated|].
      split; [evaluated|]. exact scenario_n_stored.
    - exists STATUS_SUCCESS, 0x68. split; [reflexivity|]. split; [evaluated|].
      split; [evaluated|]. exact scenario_m_stored. }
  pose proof (NtQueryMultipleValueKey_lengths (H := Scenario.kernel) 4
                [mkValueEntry (US.mk 2 4 (Some [110; 0])) 0 0 0;
                 mkValueEntry (US.mk 2 4 (Some [109; 0])) 0 0 0] 2 0x1000 16
                Scenario.st STATUS_SUCCESS STATUS_SUCCESS 100 (Example.key 0)
                Scenario.hive Example.A [Example.n; Scenario.m]) as W.
  discharge_with W.
  destruct W as (r & pre & post & Hrun & _ & Hreturn & _ & Hfit).
  destruct Hfit as (_ & Hlength & _ & Hstores & _); [evaluated|].
  exists r, pre, post. split; [done|]. split; [exact Hreturn|].
  split; [exact Hlength|]. rewrite Hstores. vm_compute. reflexivity.
Defined.

(** Saving key "A" with the second kernel, where copying the key fails:
    the temporary hive is removed and the failure is answered. *)
Lemma NtSaveKey_refusals_witness :
  NtSaveKey (H := Scenario.kernel) 4 77 Scenario.st
  = Some (STATUS_INSUFFICIENT_RESOURCES,
          set_Trace [EvRemoveRegistryHive 900] Scenario.st).
Proof.
  pose proof (NtSaveKey_refusals (H := Scenario.kernel) 4 77 Scenario.st
                STATUS_SUCCESS STATUS_SUCCESS 100 900 (Example.key 0)
                Scenario.hive (RegHive.mk (mkHHIVE ∅ ∅) HIVE_NO_FILE)
                Example.A) as W.
  discharge_with W. destruct W as (_ & _ & W).
  pose proof (W STATUS_INSUFFICIENT_RESOURCES
                (RegHive.mk (mkHHIVE ∅ ∅) HIVE_NO_FILE)) as W'.
  discharge_with W'. exact W'.
Defined.

(** Deleting key "A", which has subkeys, is refused, and the key has one
    reference less. *)
Lemma NtDeleteKey_drops_keep_alive_witness :
  exists st',
    NtDeleteKey (H := Example.kernel) 4 Example.st
      = Some (STATUS_CANNOT_DELETE, st') /\
    Objects Example.st !! 100 = Some (Example.key 0) /\
    Objects st' !! 100 = Some (KeyObject.set_PointerCount 1 (Example.key 0)).
Proof.
  pose proof example_callback_list_ok as Hok.
  pose proof (NtDeleteKey_drops_keep_alive (H := Example.kernel) 4 Example.st
                STATUS_SUCCESS STATUS_SUCCESS 100 (Example.key 0)
                (Example.key 0) Example.hive Example.A) as W.
  discharge_with W. destruct W as (pre & post & Hrun).
  eexists. split; [exact Hrun|]. split; vm_compute; reflexivity.
Defined.

